(** * go-envvar: the binding engine of [envvar.ParseWithConfig]

    A shallow embedding of [src/envvar/envvar.go] (the variant with
    [ParseWithConfig], [structStack], nested structs and [InvalidFieldError])
    together with the part of Go's [strconv] and [reflect] packages that the
    engine calls, and the properties of the specification stated over it.

    Conventions.
    - A Go [string] is a Rocq [string] (a sequence of 8-bit bytes).
    - Go integers are [Z]; the width of a fixed-width integer is written out
      where the code converts ([int8(x)], [uint16(x)], ...).
    - [int] and [uint] are 64 bits wide ([strconv.IntSize = 64]); the tests
      of the repository bind [INT] to 272309480983, which needs it.
    - A pair [(x, err)] with [err : option error] is Go's [(x, error)]
      result; [None] is the [nil] error.
    - Struct fields are exported, as the documentation of [Parse] demands
      ("the fields in v must be exported"), so [CanInterface] and [CanSet]
      hold on every field value the engine sees. *)

From Stdlib Require Import String Ascii List ZArith Bool Lia.
Import ListNotations.

Set Warnings "-register-all".

Local Open Scope string_scope.
Local Open Scope Z_scope.

(* ------------------------------------------------------------------ *)
(** ** Errors ([errors.go], [strconv.NumError]) *)

Inductive error : Type :=
| ErrSyntax                                   (* strconv.ErrSyntax *)
| ErrRange                                    (* strconv.ErrRange *)
| NumError (Func Num : string) (Err : error)  (* *strconv.NumError *)
| errorString (s : string)                    (* errors.New(s) *)
| UnsetVariableError (VarName : string)
| InvalidFieldError (Name Message : string)
| InvalidVariableError (VarName VarValue : string) (parent : error)
| InvalidArgumentError (message : string)
| ErrorList (Errors : list error).

(* ------------------------------------------------------------------ *)
(** ** The standard library: [strconv]

    The functions below follow the Go implementation of [strconv] for
    base 10, which is the only base [envvar] asks for. *)

Module strconv.

Definition IntSize : Z := 64.
Definition maxUint64 : Z := 2 ^ 64 - 1.

Definition syntaxError (fn str : string) : error := NumError fn str ErrSyntax.
Definition rangeError (fn str : string) : error := NumError fn str ErrRange.

Definition byte (c : ascii) : Z := Z.of_N (N_of_ascii c).

Definition len (s : string) : Z := Z.of_nat (String.length s).

(** The loop of [ParseUint] for [base = 10]: [n] is the accumulator,
    a [uint64]; [s0] is the whole input, for the error. A letter gives a
    digit [d >= base] and any other byte reaches [default], both are
    syntax errors; [_] is only accepted for [base = 0]. *)
Fixpoint parseUintLoop (s0 : string) (maxVal : Z) (s : string) (n : Z)
  : Z * option error :=
  match s with
  | EmptyString => (n, None)
  | String c rest =>
      if (byte "0" <=? byte c) && (byte c <=? byte "9") then
        let d := byte c - byte "0" in
        let cutoff := maxUint64 / 10 + 1 in
        if n >=? cutoff then
          (* n*base overflows *)
          (maxVal, Some (rangeError "ParseUint" s0))
        else
          let n := (n * 10) mod 2 ^ 64 in
          let n1 := (n + d) mod 2 ^ 64 in
          if (n1 <? n) || (n1 >? maxVal) then
            (* n+d overflows *)
            (maxVal, Some (rangeError "ParseUint" s0))
          else parseUintLoop s0 maxVal rest n1
      else (0, Some (syntaxError "ParseUint" s0))
  end.

(** [strconv.ParseUint(s, 10, bitSize)] for [bitSize] in 0..64. *)
Definition ParseUint (s : string) (bitSize : Z) : Z * option error :=
  match s with
  | EmptyString => (0, Some (syntaxError "ParseUint" s))
  | _ =>
      let bitSize := if bitSize =? 0 then IntSize else bitSize in
      let maxVal := 2 ^ bitSize - 1 in
      parseUintLoop s maxVal s 0
  end.

(** [strconv.ParseInt(s, 10, bitSize)]. *)
Definition ParseInt (s : string) (bitSize : Z) : Z * option error :=
  match s with
  | EmptyString => (0, Some (syntaxError "ParseInt" s))
  | String c rest =>
      let s0 := s in
      let '(neg, s) :=
        if Ascii.eqb c "+" then (false, rest)
        else if Ascii.eqb c "-" then (true, rest)
        else (false, s) in
      match ParseUint s bitSize with
      | (_, Some (NumError _ _ ErrSyntax)) =>
          (0, Some (NumError "ParseInt" s0 ErrSyntax))
      | (un, _) =>
          let bitSize := if bitSize =? 0 then IntSize else bitSize in
          let cutoff := 2 ^ (bitSize - 1) in
          if negb neg && (un >=? cutoff) then
            (cutoff - 1, Some (rangeError "ParseInt" s0))
          else if neg && (un >? cutoff) then
            (- cutoff, Some (rangeError "ParseInt" s0))
          else (if neg then - un else un, None)
      end
  end.

(** The loop of the fast path of [Atoi]: every byte must be a digit. *)
Fixpoint atoiLoop (s0 : string) (s : string) (n : Z) : Z * option error :=
  match s with
  | EmptyString => (n, None)
  | String c rest =>
      let ch := (byte c - byte "0") mod 256 in
      if ch >? 9 then (0, Some (syntaxError "Atoi" s0))
      else atoiLoop s0 rest (n * 10 + ch)
  end.

(** [strconv.Atoi(s)] with a 64-bit [int]. *)
Definition Atoi (s : string) : Z * option error :=
  let sLen := len s in
  if (0 <? sLen) && (sLen <? 19) then
    (* Fast path for small integers that fit int type. *)
    let s0 := s in
    match s with
    | EmptyString => (0, Some (syntaxError "Atoi" s0))
    | String c rest =>
        let signed := Ascii.eqb c "-" || Ascii.eqb c "+" in
        let s := if signed then rest else s in
        if signed && (len s <? 1) then (0, Some (syntaxError "Atoi" s0))
        else
          match atoiLoop s0 s 0 with
          | (n, None) => (if Ascii.eqb c "-" then - n else n, None)
          | r => r
          end
    end
  else
    (* Slow path for invalid, big, or underscored integers. *)
    match ParseInt s 0 with
    | (i64, Some (NumError _ num err)) => (i64, Some (NumError "Atoi" num err))
    | r => r
    end.

(** [strconv.ParseBool]. *)
Definition ParseBool (str : string) : bool * option error :=
  if existsb (String.eqb str) ["1"; "t"; "T"; "true"; "TRUE"; "True"]
  then (true, None)
  else if existsb (String.eqb str) ["0"; "f"; "F"; "false"; "FALSE"; "False"]
  then (false, None)
  else (false, Some (syntaxError "ParseBool" str)).

End strconv.

(* ------------------------------------------------------------------ *)
(** ** The standard library: [reflect]

    A [value] is the data a [reflect.Value] gives access to. A pointer owns
    what it points to: [VPtr None] is the nil pointer. An interface value
    is nil or holds a value, [VIface None] and [VIface (Some x)]; the
    dynamic type of what it holds is kept with the type ([InterfaceOf]
    below). The engine never looks inside a slice, map, channel or
    function. *)

Inductive value : Type :=
| VBool (b : bool)
| VInt (n : Z)                  (* int, int8 .. int64, time.Duration *)
| VUint (n : Z)                 (* uint, uint8 .. uint64 *)
| VFloat (bits : Z)             (* IEEE-754 bits of a float32 or float64 *)
| VString (s : string)
| VStruct (fields : list value)
| VPtr (p : option value)
| VIface (held : option value)  (* an interface value: nil, or what it holds *)
| VOpaque.                      (* anything else *)

(** [reflect.Kind]. *)
Inductive Kind : Set :=
| Invalid | Bool
| Int | Int8 | Int16 | Int32 | Int64
| Uint | Uint8 | Uint16 | Uint32 | Uint64 | Uintptr
| Float32 | Float64 | Complex64 | Complex128
| Array | Chan | Func | Interface | Map | Ptr | Slice | String | Struct
| UnsafePointer.

Definition Kind_eqb (a b : Kind) : bool :=
  match a, b with
  | Invalid, Invalid | Bool, Bool | Int, Int | Int8, Int8 | Int16, Int16
  | Int32, Int32 | Int64, Int64 | Uint, Uint | Uint8, Uint8 | Uint16, Uint16
  | Uint32, Uint32 | Uint64, Uint64 | Uintptr, Uintptr | Float32, Float32
  | Float64, Float64 | Complex64, Complex64 | Complex128, Complex128
  | Array, Array | Chan, Chan | Func, Func | Interface, Interface | Map, Map
  | Ptr, Ptr | Slice, Slice | String, String | Struct, Struct
  | UnsafePointer, UnsafePointer => true
  | _, _ => false
  end.

(** [encoding.TextUnmarshaler]: [UnmarshalText(text) error] of a receiver
    bound to a field. The method may change what the field holds, so it maps
    the field's data to the new data and the error. Parsers are total: a
    call that panics is outside the model. That leaves out a parser that
    panics by itself, and the call of a method through a nil pointer, which
    panics in Go when the method has a value receiver and hands the method a
    nil receiver otherwise ([nilReceiver] below says when a call is of that
    kind; what is stated of a call of a parser excludes it). *)
Definition TextUnmarshaler : Type := string -> value -> value * option error.

(** What the method set of a type [T] says about [encoding.TextUnmarshaler]:
    neither [T] nor [*T] implements it; [T] implements it (for a struct type
    with a value receiver; for a pointer type when its element declares the
    method); or only [*T] does (a pointer receiver). The function is how a
    call acts on a field of type [T]. *)
Inductive methods : Type :=
| NoUnmarshalText
| Implements (UnmarshalText : TextUnmarshaler)
| PtrImplements (UnmarshalText : TextUnmarshaler).

(** A call of [UnmarshalText] through an interface goes to the value the
    interface holds: [held] is the method set of the dynamic type of that
    value, and the call acts on it. *)
Definition through (held : methods) : TextUnmarshaler :=
  fun text d =>
    match held, d with
    | Implements UnmarshalText, VIface (Some x) =>
        let '(x', err) := UnmarshalText text x in (VIface (Some x'), err)
    | _, _ => (d, None)
    end.

(** [reflect.StructTag], already split into its [key:"value"] pairs, in the
    order they are written. *)
Definition StructTag : Type := list (string * string).

Module Tag.
(** [StructTag.Lookup]: the value of the first pair with that key, and
    whether there is one. *)
Fixpoint Lookup (tag : StructTag) (key : string) : string * bool :=
  match tag with
  | [] => ("", false)
  | (k, v) :: rest => if String.eqb k key then (v, true) else Lookup rest key
  end.

(** [StructTag.Get]. *)
Definition Get (tag : StructTag) (key : string) : string :=
  fst (Lookup tag key).
End Tag.

(** [reflect.Type] and [reflect.StructField]. [Basic] stands for every type
    that is neither a struct, a pointer nor an interface. The string is
    [Type.String()]. For an interface type, [declares] says whether
    [UnmarshalText] is in its method set (so that the type itself
    implements [encoding.TextUnmarshaler]), and [held] is the method set of
    the dynamic type of the value a field of this type holds when it holds
    one: a call of the engine never changes which type that is. *)
Inductive rtype : Type :=
| Basic (k : Kind) (name : string) (m : methods)
| StructOf (name : string) (m : methods) (fields : list StructField)
| PtrTo (m : methods) (elem : rtype)
| InterfaceOf (name : string) (declares : bool) (held : methods)
with StructField : Type :=
| mkStructField (Name : string) (Tag : StructTag) (Type_ : rtype).

Definition Name (f : StructField) : string :=
  let 'mkStructField n _ _ := f in n.
Definition Tag (f : StructField) : StructTag :=
  let 'mkStructField _ t _ := f in t.
Definition Type_ (f : StructField) : rtype :=
  let 'mkStructField _ _ t := f in t.

Module Type'.
(** A [Basic] type is never a struct, a pointer or an interface: a
    descriptor that says so has no valid kind. *)
Definition Kind (t : rtype) : Kind :=
  match t with
  | Basic (Struct | Ptr | Interface) _ _ => Invalid
  | Basic k _ _ => k
  | StructOf _ _ _ => Struct
  | PtrTo _ _ => Ptr
  | InterfaceOf _ _ _ => Interface
  end.

Fixpoint String (t : rtype) : string :=
  match t with
  | Basic _ name _ => name
  | StructOf name _ _ => name
  | PtrTo _ elem => "*" ++ String elem
  | InterfaceOf name _ _ => name
  end.

(** What [Type.Implements] and [reflect.PtrTo(t).Implements] say of the
    type. An interface type implements [encoding.TextUnmarshaler] when it
    declares the method; a call goes [through] to what the field holds. *)
Definition Methods (t : rtype) : methods :=
  match t with
  | Basic _ _ m => m
  | StructOf _ m _ => m
  | PtrTo m _ => m
  | InterfaceOf _ declares held =>
      if declares then Implements (through held) else NoUnmarshalText
  end.

(** [Type.Elem()] of a pointer type. *)
Definition Elem (t : rtype) : option rtype :=
  match t with
  | PtrTo _ elem => Some elem
  | _ => None
  end.

(** The fields [Field(0) .. Field(NumField()-1)] of a struct type. *)
Definition Fields (t : rtype) : list StructField :=
  match t with
  | StructOf _ _ fields => fields
  | _ => []
  end.
End Type'.

(** The zero value of a type, as [reflect.New] and Go's [var] give it. *)
Fixpoint zero (t : rtype) : value :=
  match t with
  | Basic k _ _ =>
      match k with
      | Bool => VBool false
      | Int | Int8 | Int16 | Int32 | Int64 => VInt 0
      | Uint | Uint8 | Uint16 | Uint32 | Uint64 | Uintptr => VUint 0
      | Float32 | Float64 => VFloat 0
      | String => VString ""
      | _ => VOpaque
      end
  | InterfaceOf _ _ _ => VIface None
  | StructOf _ _ fields =>
      VStruct ((fix zeros (fs : list StructField) : list value :=
                  match fs with
                  | [] => []
                  | mkStructField _ _ t :: fs' => zero t :: zeros fs'
                  end) fields)
  | PtrTo _ _ => VPtr None
  end.

(** A [reflect.Value]: a type, the data, and whether the data can be
    addressed ([CanAddr]). *)
Record Value : Type := mkValue {
  Type_of : rtype;
  data : value;
  CanAddr : bool
}.

Module Value'.
Definition Kind (v : Value) : Kind := Type'.Kind (Type_of v).

(** [IsNil] and [Elem] of a pointer. *)
Definition IsNil (d : value) : bool :=
  match d with
  | VPtr None => true
  | _ => false
  end.

Definition Elem (d : value) : value :=
  match d with
  | VPtr (Some x) => x
  | _ => VOpaque
  end.

(** The fields [Field(0) ..] of a struct. *)
Definition Fields (d : value) : list value :=
  match d with
  | VStruct fields => fields
  | _ => []
  end.

(** [intN(x)] and [uintN(x)]: conversion to a [w]-bit integer keeps the
    low [w] bits. *)
Definition int (w : Z) (x : Z) : Z :=
  (x + 2 ^ (w - 1)) mod 2 ^ w - 2 ^ (w - 1).
Definition uint (w : Z) (x : Z) : Z := x mod 2 ^ w.

(** [Value.SetInt(x)] stores [intN(x)] in a field of kind [IntN]. *)
Definition SetInt (v : Value) (x : Z) : value :=
  match Kind v with
  | Int => VInt (int 64 x)
  | Int8 => VInt (int 8 x)
  | Int16 => VInt (int 16 x)
  | Int32 => VInt (int 32 x)
  | Int64 => VInt (int 64 x)
  | _ => data v
  end.

(** [Value.SetUint(x)]. *)
Definition SetUint (v : Value) (x : Z) : value :=
  match Kind v with
  | Uint => VUint (uint 64 x)
  | Uint8 => VUint (uint 8 x)
  | Uint16 => VUint (uint 16 x)
  | Uint32 => VUint (uint 32 x)
  | Uint64 => VUint (uint 64 x)
  | Uintptr => VUint (uint 64 x)
  | _ => data v
  end.
End Value'.

(* ------------------------------------------------------------------ *)
(** ** What the engine takes from its surroundings *)

(** [GetenvFn]: given a key, [(value, true)] if the variable exists and
    [("", false)] otherwise. *)
Definition GetenvFn : Type := string -> string * bool.

(** The process environment and the two parsers whose results the engine
    stores without looking at them. Floats are their IEEE-754 bits. *)
Class Platform : Type := {
  syscall_Getenv : GetenvFn;
  strconv_ParseFloat : string -> Z -> Z * option error;
  float32_of_float64 : Z -> Z;
  time_ParseDuration : string -> Z * option error
}.

(** [Config] is used to control the parsing behavior. A [nil] [Getenv] is
    [None]. *)
Record Config : Type := mkConfig {
  Getenv : option GetenvFn;
  Prefix : string
}.

(** [structStack] represents the current instance of struct that the logic
    is injecting envvars into. [config] is the [Getenv] of the [Config] the
    stack points to, which [ParseWithConfig] has made non-nil. *)
Record structStack : Type := mkStructStack {
  envPrefix : string;
  structType : rtype;
  structVal : value;
  config : GetenvFn
}.

(** What a call leaves behind: the data now in the destination, the error
    returned, and the keys [Getenv] was asked for, in call order. *)
Record result : Type := mkResult {
  val : value;
  err : option error;
  asked : list string
}.

(* ------------------------------------------------------------------ *)
(** ** The engine ([envvar.go]) *)

Section envvar.

Context `{Platform}.

(** [push]: the stack for a nested struct. *)
Definition push (ss : structStack) (envPrefix' : string)
    (structType' : rtype) (structVal' : value) : structStack :=
  {| envPrefix := envPrefix ss ++ envPrefix';
     structType := structType';
     structVal := structVal';
     config := config ss |}.

(** [foundDefaultTagError]: struct fields do not support default tags. *)
Definition foundDefaultTagError (field : StructField) : option error :=
  let '(_, foundDefault) := Tag.Lookup (Tag field) "default" in
  if foundDefault then
    Some (InvalidFieldError (Name field)
            "default tag is not supported for nested structs.")
  else None.

(** [maybeTextUnmarshaler]: whether the value, seen as an interface, is a
    [TextUnmarshaler]. [None] is [(false, nil)]. The type assertion
    [val.Interface().(encoding.TextUnmarshaler)] is on the dynamic value:
    for a field of interface type [Interface()] gives what the field holds,
    so a nil interface is no [TextUnmarshaler] whatever its type declares,
    and one that holds a value is a [TextUnmarshaler] when the type of that
    value has the method; for every other field the dynamic type is the
    type of the field. *)
Definition maybeTextUnmarshaler (val : Value) : option TextUnmarshaler :=
  match Type_of val with
  | InterfaceOf _ _ held =>
      match data val, held with
      | VIface (Some _), Implements _ => Some (through held)
      | _, _ => None
      end
  | t =>
      match Type'.Methods t with
      | Implements m => Some m
      | _ => None
      end
  end.

(** [maybeTextUnmarshaler(val.Addr())]: the pointer to the field is a
    [TextUnmarshaler] when the field's type declares the method with
    either receiver. The pointer to a field of interface type has the type
    pointer-to-interface, which has no methods. *)
Definition maybeTextUnmarshalerAddr (val : Value) : option TextUnmarshaler :=
  match Type_of val with
  | InterfaceOf _ _ _ => None
  | t =>
      match Type'.Methods t with
      | Implements m | PtrImplements m => Some m
      | NoUnmarshalText => None
      end
  end.

(** [cleverMaybeTextUnmarshaler]: the same, also seeing the value as a
    pointer type. *)
Definition cleverMaybeTextUnmarshaler (structField : Value)
  : option TextUnmarshaler :=
  match maybeTextUnmarshaler structField with
  | Some m => Some m
  | None =>
      if CanAddr structField then
        match maybeTextUnmarshalerAddr structField with
        | Some m => Some m
        | None => None
        end
      else None
  end.

(** [setUnmarshFieldVal]: the first component of the result says whether
    the field is a [TextUnmarshaler] and unmarshalling has been attempted.
    The call [m.UnmarshalText] is the parser applied to what the field
    holds; a call that panics, as one through a nil pointer does
    ([nilReceiver]), is outside the model. *)
Definition setUnmarshFieldVal (structField : Value) (name v : string)
  : value * (bool * option error) :=
  match cleverMaybeTextUnmarshaler structField with
  | Some m =>
      let '(d, err) := m v (data structField) in
      match err with
      | Some err => (d, (true, Some (InvalidVariableError name v err)))
      | None => (d, (true, None))
      end
  | None => (data structField, (false, None))
  end.

(** [structField.Type() == reflect.TypeOf(time.Duration(0))]. *)
Definition isDuration (t : rtype) : bool :=
  match t with
  | Basic Int64 name _ => String.eqb name "time.Duration"
  | _ => false
  end.

(** [setFieldVal] first converts [v] to the type of [structField], then
    sets the field to the converted value. *)
Definition setFieldVal (structField : Value) (name v : string)
  : value * option error :=
  let '(d, (attempted, err)) := setUnmarshFieldVal structField name v in
  if attempted then (d, err)
  else
    match Value'.Kind structField with
    | String => (VString v, None)
    | Int | Int8 | Int16 | Int32 | Int64 =>
        if isDuration (Type_of structField) then
          let '(dur, err) := time_ParseDuration v in
          match err with
          | Some err => (d, Some (InvalidVariableError name v err))
          | None => (Value'.SetInt structField dur, None)
          end
        else
          let '(vInt, err) := strconv.Atoi v in
          match err with
          | Some err => (d, Some (InvalidVariableError name v err))
          | None => (Value'.SetInt structField vInt, None)
          end
    | Uint | Uint8 | Uint16 | Uint32 | Uint64 =>
        let '(vUint, err) := strconv.ParseUint v 64 in
        match err with
        | Some err => (d, Some (InvalidVariableError name v err))
        | None => (Value'.SetUint structField vUint, None)
        end
    | Float32 | Float64 =>
        let '(vFloat, err) := strconv_ParseFloat v 64 in
        match err with
        | Some err => (d, Some (InvalidVariableError name v err))
        | None =>
            (VFloat (match Value'.Kind structField with
                     | Float32 => float32_of_float64 vFloat
                     | _ => vFloat
                     end), None)
        end
    | Bool =>
        let '(vBool, err) := strconv.ParseBool v in
        match err with
        | Some err => (d, Some (InvalidVariableError name v err))
        | None => (VBool vBool, None)
        end
    | _ =>
        (d, Some (InvalidFieldError name
                    ("Unsupported struct field type: "
                       ++ Type'.String (Type_of structField))))
    end.

(** The loop of [parseStruct] over the fields and their values, for a
    given way [parseField] to set one field. [errors] is the slice the
    loop appends to. The result is the new values of the fields, the
    errors, and the keys asked for. *)
Section loop.
Variable parseField : StructField -> value -> result.

Fixpoint parseFields (fields : list StructField) (vals : list value)
    (errors : list error) : list value * list error * list string :=
  match fields, vals with
  | field :: fields', fieldVal :: vals' =>
      let r := parseField field fieldVal in
      let errors :=
        match err r with
        | Some (ErrorList suberrors) => (errors ++ suberrors)%list
        | Some err => (errors ++ [err])%list
        | None => errors
        end in
      let '(vals'', errors, keys) := parseFields fields' vals' errors in
      (val r :: vals'', errors, (asked r ++ keys)%list)
  | _, _ => (vals, errors, [])
  end.

Definition parseStructWith (fields : list StructField) (structVal : value)
  : result :=
  let '(vals, errors, keys) :=
    parseFields fields (Value'.Fields structVal) [] in
  {| val := VStruct vals;
     err := if (Z.of_nat (List.length errors) >? 0)
            then Some (ErrorList errors) else None;
     asked := keys |}.
End loop.

(** The part of [parseField] after the nested cases: look the variable
    up, fall back on the default, set the field. *)
Definition parseLeaf (ss : structStack) (field : StructField)
    (fieldVal : value) (varName : string) : result :=
  let '(defaultVal, foundDefault) := Tag.Lookup (Tag field) "default" in
  let derivedVarName := envPrefix ss ++ varName in
  let '(envVal, foundEnv) := config ss derivedVarName in
  let set (varVal : string) : result :=
    let '(d, err) :=
      setFieldVal (mkValue (Type_ field) fieldVal true)
        derivedVarName varVal in
    {| val := d; err := err; asked := [derivedVarName] |} in
  if foundEnv then set envVal
  else if foundDefault then set defaultVal
  else {| val := fieldVal;
          err := Some (UnsetVariableError derivedVarName);
          asked := [derivedVarName] |}.

(** [parseField]. The value of a field has the type of the field and is
    addressable, because [ParseWithConfig] starts from a pointer. The
    recursion into a nested struct is the loop of [parseStruct] on the
    pushed stack; [parseField_nested] below states it with [push] and
    [parseStruct], and [parseField_leaf] the other case. *)
Fixpoint parseField (ss : structStack) (field : StructField)
    (fieldVal : value) {struct field} : result :=
  let customName := Tag.Get (Tag field) "envvar" in
  let varName := if negb (String.eqb customName "") then customName
                 else Name field in
  let leaf := parseLeaf ss field fieldVal varName in
  match cleverMaybeTextUnmarshaler (mkValue (Type_ field) fieldVal true) with
  | Some _ => leaf
  | None =>
      match field with
      | mkStructField _ _ (StructOf _ _ fields) =>
          let newSS := push ss customName (Type_ field) fieldVal in
          match foundDefaultTagError field with
          | Some err => {| val := fieldVal; err := Some err; asked := [] |}
          | None => parseStructWith (parseField newSS) fields fieldVal
          end
      | mkStructField _ _ (PtrTo _ (StructOf _ _ fields as elem)) =>
          let fieldVal :=
            if Value'.IsNil fieldVal then VPtr (Some (zero elem))
            else fieldVal in
          match foundDefaultTagError field with
          | Some err => {| val := fieldVal; err := Some err; asked := [] |}
          | None =>
              let newSS :=
                push ss customName elem (Value'.Elem fieldVal) in
              let r := parseStructWith (parseField newSS) fields
                         (Value'.Elem fieldVal) in
              {| val := VPtr (Some (val r)); err := err r;
                 asked := asked r |}
          end
      | _ => leaf
      end
  end.

(** [parseStruct]. *)
Definition parseStruct (ss : structStack) : result :=
  parseStructWith (parseField ss) (Type'.Fields (structType ss))
    (structVal ss).

End envvar.

(** What a call of the entry point does: it panics, or it returns. *)
Inductive outcome : Type :=
| Panic (msg : string)
| Return (r : result).

Section entry.

Context `{Platform}.

(** [ParseWithConfig]. The argument [v] is an [interface{}]: [None] is the
    nil interface, [Some (typ, d)] holds data [d] of dynamic type [typ].
    [reflect.TypeOf(nil)] is the nil [Type], and calling [Kind] on it is a
    nil dereference. The first test of the code, [typ.Kind() != reflect.Ptr
    || typ.Elem().Kind() != reflect.Struct], fails exactly on a pointer to
    a struct type ([ParseWithConfig_not_pointer_to_struct] below). *)
Definition ParseWithConfig (v : option (rtype * value)) (config : Config)
  : outcome :=
  match v with
  | None =>
      Panic "runtime error: invalid memory address or nil pointer dereference"
  | Some (typ, d) =>
      match typ with
      | PtrTo _ (StructOf _ _ _ as structType) =>
          if Value'.IsNil d then
            Return {| val := d;
                      err := Some (InvalidArgumentError
                                     "Error in Parse: argument cannot be nil");
                      asked := [] |}
          else
            let structVal := Value'.Elem d in
            let getenv := match Getenv config with
                          | None => syscall_Getenv
                          | Some getenv => getenv
                          end in
            let ss := {| envPrefix := Prefix config;
                         structType := structType;
                         structVal := structVal;
                         config := getenv |} in
            let r := parseStruct ss in
            Return {| val := VPtr (Some (val r)); err := err r;
                      asked := asked r |}
      | _ =>
          Return {| val := d;
                    err := Some (InvalidArgumentError
                                   ("Error in Parse: type must be a pointer to a struct. Got: "
                                      ++ Type'.String typ));
                    asked := [] |}
      end
  end.

(** [Parse]. *)
Definition Parse (v : option (rtype * value)) : outcome :=
  ParseWithConfig v {| Getenv := Some syscall_Getenv; Prefix := "" |}.

End entry.

(* ------------------------------------------------------------------ *)
(** ** Records and environments of the test suite *)

(** [customenv]: a map used as the environment. *)
Definition customenv : Type := list (string * string).

Fixpoint getenv (cenv : customenv) (key : string) : string * bool :=
  match cenv with
  | [] => ("", false)
  | (k, v) :: rest => if String.eqb k key then (v, true) else getenv rest key
  end.

(** A process with an empty environment whose float and duration parsers
    accept nothing; the examples below use neither. *)
Definition barePlatform : Platform :=
  {| syscall_Getenv := fun _ => ("", false);
     strconv_ParseFloat := fun s _ => (0, Some (NumError "ParseFloat" s ErrSyntax));
     float32_of_float64 := fun x => x;
     time_ParseDuration :=
       fun s => (0, Some (errorString ("time: invalid duration " ++ s))) |}.

Definition string_t : rtype := Basic String "string" NoUnmarshalText.
Definition int_t : rtype := Basic Int "int" NoUnmarshalText.
Definition int8_t : rtype := Basic Int8 "int8" NoUnmarshalText.
Definition uint8_t : rtype := Basic Uint8 "uint8" NoUnmarshalText.

(** [type Inner struct { X string `envvar:"X"` }] *)
Definition Inner : rtype :=
  StructOf "envvar.Inner" NoUnmarshalText
    [mkStructField "X" [("envvar", "X")] string_t].

(** [TestParseNestedAlias]: two [Inner] fields with prefixes. *)
Definition OuterAlias : rtype :=
  StructOf "envvar.Outer" NoUnmarshalText
    [mkStructField "A" [("envvar", "A_")] Inner;
     mkStructField "B" [("envvar", "B_")] Inner].

(** [TestParseNestedAliasPointer]. *)
Definition OuterAliasPointer : rtype :=
  StructOf "envvar.Outer" NoUnmarshalText
    [mkStructField "A" [("envvar", "A_")] (PtrTo NoUnmarshalText Inner);
     mkStructField "B" [("envvar", "B_")] (PtrTo NoUnmarshalText Inner)].

(** [TestParseDefaultOnStruct]. *)
Definition OuterDefault : rtype :=
  StructOf "envvar.Outer" NoUnmarshalText
    [mkStructField "Aptr" [("envvar", "A_"); ("default", "")]
       (PtrTo NoUnmarshalText Inner);
     mkStructField "A" [("envvar", "A_"); ("default", "")] Inner].

(** [alwaysErrorUnmarshaler], a struct whose [UnmarshalText] always fails,
    and [alwaysErrorUnmarshalerPtr], the same with a pointer receiver. *)
Definition alwaysError : TextUnmarshaler :=
  fun _ d => (d, Some (errorString "this function always returns an error")).
Definition alwaysErrorUnmarshaler : rtype :=
  StructOf "envvar.alwaysErrorUnmarshaler" (Implements alwaysError) [].
Definition alwaysErrorUnmarshalerPtr : rtype :=
  StructOf "envvar.alwaysErrorUnmarshalerPtr" (PtrImplements alwaysError) [].

(** A record with three required fields. *)
Definition threeRequired : rtype :=
  StructOf "envvar.three" NoUnmarshalText
    [mkStructField "STRING" [] string_t;
     mkStructField "INT" [] int_t;
     mkStructField "Bar" [("envvar", "BAR")] int8_t].

(** [type customNameAndDefaultVars struct { Foo string `envvar:"BAR" default:"biz"` }] *)
Definition Foo : StructField :=
  mkStructField "Foo" [("envvar", "BAR"); ("default", "biz")] string_t.

(** A struct with a field of its own whose pointer is a [TextUnmarshaler],
    as [time.Time] is, and a field of that type. *)
Definition stamp : rtype :=
  StructOf "envvar.stamp" (PtrImplements alwaysError)
    [mkStructField "Sec" [] int_t].
Definition Started : StructField :=
  mkStructField "Started" [("envvar", "START")] stamp.

(** A field of the interface type [encoding.TextUnmarshaler], and a field
    of type [interface{}] for a value of type [alwaysErrorUnmarshaler]. *)
Definition Unmarshaler : StructField :=
  mkStructField "Unmarshaler" []
    (InterfaceOf "encoding.TextUnmarshaler" true NoUnmarshalText).
Definition Anything : StructField :=
  mkStructField "Anything" []
    (InterfaceOf "interface {}" false (Implements alwaysError)).

(** The fields of the nested records above, and the same with an empty
    or no name override. *)
Definition Outer_A : StructField := mkStructField "A" [("envvar", "A_")] Inner.
Definition Outer_Aptr : StructField :=
  mkStructField "A" [("envvar", "A_")] (PtrTo NoUnmarshalText Inner).
Definition Outer_A_default : StructField :=
  mkStructField "A" [("envvar", "A_"); ("default", "")] Inner.
Definition Outer_Aptr_default : StructField :=
  mkStructField "Aptr" [("envvar", "A_"); ("default", "")]
    (PtrTo NoUnmarshalText Inner).
Definition Inner_X : StructField := mkStructField "X" [("envvar", "X")] string_t.
Definition N_empty : StructField := mkStructField "N" [("envvar", "")] int_t.
Definition N_plain : StructField := mkStructField "N" [] int_t.

(** A stack over an environment, as [ParseWithConfig] builds it. *)
Definition stackOn (cenv : customenv) (prefix : string) (t : rtype)
    (d : value) : structStack :=
  {| envPrefix := prefix; structType := t; structVal := d;
     config := getenv cenv |}.

(** The argument [&T{}] of a call. *)
Definition addressOfZero (t : rtype) : option (rtype * value) :=
  Some (PtrTo NoUnmarshalText t, VPtr (Some (zero t))).

(* ------------------------------------------------------------------ *)
(** ** The vocabulary of the specification *)

(** The name a leaf field is looked up under, before the prefix: the
    name override if there is a non-empty one, else the field identifier. *)
Definition keyName (field : StructField) : string :=
  let customName := Tag.Get (Tag field) "envvar" in
  if negb (String.eqb customName "") then customName else Name field.

(** The custom parser of a field of type [t] that can be addressed: [t] or
    its single-level reference form satisfies the capability. *)
Definition customParser (t : rtype) : option TextUnmarshaler :=
  match Type'.Methods t with
  | Implements m | PtrImplements m => Some m
  | NoUnmarshalText => None
  end.

(** A parser of this field would be called through a nil pointer: the
    field, or what a field of interface type holds, is one. *)
Definition nilReceiver (structField : Value) : bool :=
  match data structField with
  | VPtr None | VIface (Some (VPtr None)) => true
  | _ => false
  end.

(** The element type of a nested record: the type is a struct, or a
    single-level reference to one. *)
Definition recordOf (t : rtype) : option rtype :=
  match Type'.Kind t with
  | Struct => Some t
  | Ptr =>
      match Type'.Elem t with
      | Some elem =>
          if Kind_eqb (Type'.Kind elem) Struct then Some elem else None
      | None => None
      end
  | _ => None
  end.

(** A nested-record field: no custom parser, and a record type. A leaf
    field is any other field. *)
Definition isNested (field : StructField) : bool :=
  match customParser (Type_ field), recordOf (Type_ field) with
  | None, Some _ => true
  | _, _ => false
  end.

Definition isLeaf (field : StructField) : bool := negb (isNested field).

(** The errors one call of [parseField] adds to the report. *)
Definition errorsOf (r : result) : list error :=
  match err r with
  | Some (ErrorList suberrors) => suberrors
  | Some e => [e]
  | None => []
  end.

(** One turn of the loop of [parseStruct]: the call on a field and its
    value. *)
Definition visit (pf : StructField -> value -> result)
    (fv : StructField * value) : result :=
  pf (fst fv) (snd fv).

(** The errors the loop of [parseStruct] has collected when it ends: what
    each field reports, in declaration order. *)
Definition collected (pf : StructField -> value -> result)
    (fields : list StructField) (structVal : value) : list error :=
  flat_map (fun fv => errorsOf (visit pf fv))
    (combine fields (Value'.Fields structVal)).

(** A leaf field bound from the raw value [raw] found under [key]: the
    field is converted and set, and [key] is the one key asked for. *)
Definition bound `{Platform} (field : StructField) (fieldVal : value)
    (key raw : string) : result :=
  let '(d, e) := setFieldVal (mkValue (Type_ field) fieldVal true) key raw in
  {| val := d; err := e; asked := [key] |}.

(** The usage error for a default on a nested record. *)
Definition defaultTagError (field : StructField) : error :=
  InvalidFieldError (Name field)
    "default tag is not supported for nested structs.".

(** The value of a nested-record field once the engine made sure there is
    a record to write to, and the record it then recurses into. *)
Definition allocated (field : StructField) (fieldVal : value) : value :=
  match Type_ field with
  | PtrTo _ elem =>
      if Value'.IsNil fieldVal then VPtr (Some (zero elem)) else fieldVal
  | _ => fieldVal
  end.

Definition innerRecord (field : StructField) (fieldVal : value) : value :=
  match Type_ field with
  | PtrTo _ _ => Value'.Elem (allocated field fieldVal)
  | _ => fieldVal
  end.

(** The result of the recursion, seen from the nested-record field. *)
Definition outer (field : StructField) (r : result) : result :=
  match Type_ field with
  | PtrTo _ _ =>
      {| val := VPtr (Some (val r)); err := err r; asked := asked r |}
  | _ => r
  end.

(** The keys of the leaf fields of a field's tree, depth first and in
    declaration order, each with the prefix accumulated on the way down.
    With [skipDefaulted] the fields below a nested record that carries a
    default annotation are left out. *)
Fixpoint keysOf (skipDefaulted : bool) (prefix : string) (field : StructField)
  : list string :=
  let customName := Tag.Get (Tag field) "envvar" in
  let below (fields : list StructField) : list string :=
    if skipDefaulted && snd (Tag.Lookup (Tag field) "default") then []
    else flat_map (keysOf skipDefaulted (prefix ++ customName)) fields in
  match customParser (Type_ field) with
  | Some _ => [prefix ++ keyName field]
  | None =>
      match field with
      | mkStructField _ _ (StructOf _ _ fields) => below fields
      | mkStructField _ _ (PtrTo _ (StructOf _ _ fields)) => below fields
      | _ => [prefix ++ keyName field]
      end
  end.

(** Every leaf field of the record tree. *)
Definition treeKeys (prefix : string) (t : rtype) : list string :=
  flat_map (keysOf false prefix) (Type'.Fields t).

(** The leaf fields the usage rule on defaults leaves in reach. *)
Definition reachableKeys (prefix : string) (t : rtype) : list string :=
  flat_map (keysOf true prefix) (Type'.Fields t).

(** The data has the shape of the type: a struct has one value per field,
    a pointer is nil or points to data of the element type, an interface
    is nil or holds a value. *)
Fixpoint conforms (t : rtype) (d : value) : bool :=
  match t with
  | Basic _ _ _ => true
  | StructOf _ _ fields =>
      match d with
      | VStruct vals =>
          (fix all (fs : list StructField) (vs : list value) : bool :=
             match fs, vs with
             | [], [] => true
             | mkStructField _ _ t' :: fs', v :: vs' =>
                 conforms t' v && all fs' vs'
             | _, _ => false
             end) fields vals
      | _ => false
      end
  | PtrTo _ elem =>
      match d with
      | VPtr None => true
      | VPtr (Some x) => conforms elem x
      | _ => false
      end
  | InterfaceOf _ _ _ =>
      match d with
      | VIface _ => true
      | _ => false
      end
  end.

(** Induction on a type through the fields of its struct types. *)
Section rtype_induction.
Variable P : rtype -> Prop.
Hypothesis P_Basic : forall k name m, P (Basic k name m).
Hypothesis P_StructOf : forall name m fields,
    Forall (fun f => P (Type_ f)) fields -> P (StructOf name m fields).
Hypothesis P_PtrTo : forall m elem, P elem -> P (PtrTo m elem).
Hypothesis P_InterfaceOf : forall name declares held,
    P (InterfaceOf name declares held).

Fixpoint rtype_fields_ind (t : rtype) : P t :=
  match t with
  | Basic k name m => P_Basic k name m
  | StructOf name m fields =>
      P_StructOf name m fields
        ((fix all (fs : list StructField)
            : Forall (fun f => P (Type_ f)) fs :=
            match fs with
            | [] => Forall_nil _
            | mkStructField n tag t' :: fs' =>
                Forall_cons (mkStructField n tag t')
                  (rtype_fields_ind t') (all fs')
            end) fields)
  | PtrTo m elem => P_PtrTo m elem (rtype_fields_ind elem)
  | InterfaceOf name declares held => P_InterfaceOf name declares held
  end.
End rtype_induction.

(** The stack [ParseWithConfig] starts from. *)
Definition topStack `{Platform} (config : Config) (structType : rtype)
    (structVal : value) : structStack :=
  {| envPrefix := Prefix config;
     structType := structType;
     structVal := structVal;
     config := match Getenv config with
               | None => syscall_Getenv
               | Some getenv => getenv
               end |}.

(** The argument [&d] of a call, for a [d] of type [t]. *)
Definition addressOf (t : rtype) (d : value) : option (rtype * value) :=
  Some (PtrTo NoUnmarshalText t, VPtr (Some d)).

(** "Bind visits every field of the record tree": a call that returns has
    asked for the key of every leaf field of the tree. *)
Definition visitsEveryField `{Platform} (t : rtype) (d : value)
    (config : Config) : Prop :=
  forall r, ParseWithConfig (addressOf t d) config = Return r ->
            incl (treeKeys (Prefix config) t) (asked r).

(** The first test of [ParseWithConfig] on a typed argument:
    [typ.Kind() != reflect.Ptr || typ.Elem().Kind() != reflect.Struct]. *)
Definition notPointerToStruct (typ : rtype) : bool :=
  negb (Kind_eqb (Type'.Kind typ) Ptr)
  || negb (match Type'.Elem typ with
           | Some elem => Kind_eqb (Type'.Kind elem) Struct
           | None => false
           end).

(** The range of a 64-bit [int]. *)
Definition fitsInt64 (n : Z) : Prop := - 2 ^ 63 <= n <= 2 ^ 63 - 1.

(** The bit width of an integer kind. *)
Definition intWidth (k : Kind) : option Z :=
  match k with
  | Int | Int64 => Some 64
  | Int8 => Some 8
  | Int16 => Some 16
  | Int32 => Some 32
  | _ => None
  end.

Definition uintWidth (k : Kind) : option Z :=
  match k with
  | Uint | Uint64 => Some 64
  | Uint8 => Some 8
  | Uint16 => Some 16
  | Uint32 => Some 32
  | _ => None
  end.

(** A base-10 numeral, read as the specification reads it: one or more
    decimal digits, for a signed integer after an optional sign. [None] is
    "non-numeric". *)
Definition isDigit (c : ascii) : bool :=
  (strconv.byte "0" <=? strconv.byte c) && (strconv.byte c <=? strconv.byte "9").

Fixpoint digitsValue (s : string) (acc : Z) : option Z :=
  match s with
  | EmptyString => Some acc
  | String.String c rest =>
      if isDigit c
      then digitsValue rest (acc * 10 + (strconv.byte c - strconv.byte "0"))
      else None
  end.

Definition decimalUint (s : string) : option Z :=
  match s with
  | EmptyString => None
  | _ => digitsValue s 0
  end.

Definition decimalInt (s : string) : option Z :=
  match s with
  | String.String c rest =>
      if Ascii.eqb c "+" then decimalUint rest
      else if Ascii.eqb c "-" then option_map Z.opp (decimalUint rest)
      else decimalUint s
  | EmptyString => None
  end.

(* ------------------------------------------------------------------ *)
(** ** More vocabulary: what a report holds and what a type needs *)

(** The errors of the taxonomy that concern one field. *)
Definition fieldLevel (e : error) : bool :=
  match e with
  | UnsetVariableError _ | InvalidVariableError _ _ _ | InvalidFieldError _ _ =>
      true
  | _ => false
  end.

(** The kinds [setFieldVal] has a case for. *)
Definition supportedKind (k : Kind) : bool :=
  match k with
  | String | Int | Int8 | Int16 | Int32 | Int64
  | Uint | Uint8 | Uint16 | Uint32 | Uint64
  | Float32 | Float64 | Bool => true
  | _ => false
  end.

(** A type none of whose parts, at any depth, has a custom parser; for a
    field of interface type, neither the type nor what the field holds. *)
Fixpoint plain (t : rtype) : bool :=
  match t with
  | Basic _ _ NoUnmarshalText => true
  | InterfaceOf _ false NoUnmarshalText => true
  | StructOf _ NoUnmarshalText fields =>
      (fix all (fs : list StructField) : bool :=
         match fs with
         | [] => true
         | mkStructField _ _ t' :: fs' => plain t' && all fs'
         end) fields
  | PtrTo NoUnmarshalText elem => plain elem
  | _ => false
  end.

(** The [Getenv] a call uses: the one of the [Config], or the process
    environment when that is nil. *)
Definition lookupOf `{Platform} (cfg : Config) : GetenvFn :=
  match Getenv cfg with
  | None => syscall_Getenv
  | Some getenv => getenv
  end.

(** What an error of the report says about the lookup that led to it: an
    unset variable was asked for and not found; an invalid variable was
    asked for, and its value is what was found, or nothing was found. *)
Definition justified (lookup : GetenvFn) (keys : list string) (e : error)
  : Prop :=
  match e with
  | UnsetVariableError k => In k keys /\ snd (lookup k) = false
  | InvalidVariableError k raw _ =>
      In k keys /\ (lookup k = (raw, true) \/ snd (lookup k) = false)
  | _ => True
  end.

(* ------------------------------------------------------------------ *)
(** ** The messages of the errors ([errors.go]) *)

(** What the messages and the tag scanner take from the standard library
    without the engine looking inside: [strconv.Quote], and the two
    Unicode-aware trimmers [strings.TrimSpace] falls back on when it meets
    a byte that is not ASCII. *)
Class Text : Type := {
  strconv_Quote : string -> string;
  strings_TrimFunc_IsSpace : string -> string;
  strings_TrimRightFunc_IsSpace : string -> string
}.

Module strings.

(** [strings.Join]. *)
Fixpoint Join (elems : list string) (sep : string) : string :=
  match elems with
  | [] => ""
  | [e] => e
  | e :: rest => e ++ sep ++ Join rest sep
  end.

(** The ASCII bytes [strings.TrimSpace] takes for space: tab, line feed,
    vertical tab, form feed, carriage return and space. *)
Definition asciiSpace (c : ascii) : bool :=
  existsb (Z.eqb (strconv.byte c)) [9; 10; 11; 12; 13; 32].

(** [utf8.RuneSelf]: the bytes below it are the ASCII characters. *)
Definition RuneSelf : Z := 128.

Fixpoint rev (s : string) : string :=
  match s with
  | EmptyString => EmptyString
  | String.String c rest => rev rest ++ String.String c EmptyString
  end.

(** The second loop of [TrimSpace], from the end of [s[start:]]; the
    argument is that string reversed, so its first byte is [s[stop-1]]. *)
Fixpoint trimStop `{Text} (reversed : string) : string :=
  match reversed with
  | EmptyString => EmptyString
  | String.String c rest =>
      if strconv.byte c >=? RuneSelf
      then strings_TrimRightFunc_IsSpace (rev reversed)
      else if negb (asciiSpace c) then rev reversed
      else trimStop rest
  end.

(** [strings.TrimSpace]: the first loop looks for the first ASCII byte that
    is not a space, the second for the last; a byte that is not ASCII
    sends the rest to the Unicode-aware trimmers. *)
Fixpoint TrimSpace `{Text} (s : string) : string :=
  match s with
  | EmptyString => EmptyString
  | String.String c rest =>
      if strconv.byte c >=? RuneSelf then strings_TrimFunc_IsSpace s
      else if negb (asciiSpace c) then trimStop (rev s)
      else TrimSpace rest
  end.

End strings.

(** [io.EOF], which is [errors.New("EOF")]. *)
Definition io_EOF : error := errorString "EOF".

Definition is_EOF (e : error) : bool :=
  match e with
  | errorString s => String.eqb s "EOF"
  | _ => false
  end.

Definition newline : string := String.String (ascii_of_nat 10) EmptyString.

Section messages.

Context `{Text}.

(** The method [Error] of every error the model knows: those of
    [errors.go], and those of [strconv] and [errors.New] that can be the
    parent of an [InvalidVariableError]. [errorOrUnknown] is applied to a
    parent that is there. *)
Fixpoint Error (e : error) : string :=
  match e with
  | ErrSyntax => "invalid syntax"
  | ErrRange => "value out of range"
  | NumError fn num cause =>
      "strconv." ++ fn ++ ": " ++ "parsing " ++ strconv_Quote num ++ ": "
        ++ Error cause
  | errorString s => s
  | UnsetVariableError varName =>
      "Missing required environment variable: " ++ varName
  | InvalidFieldError name message =>
      "Unsupported struct field " ++ name ++ ": " ++ message
  | InvalidVariableError varName varValue parent =>
      "Error parsing environment variable " ++ varName ++ ": " ++ varValue
        ++ " (" ++ Error parent ++ ")"
  | InvalidArgumentError message => "envvar: " ++ message
  | ErrorList errors =>
      strings.Join (map (fun err => "envvar: " ++ Error err) errors) newline
  end.

(** [errorOrUnknown]. *)
Definition errorOrUnknown (err : option error) : string :=
  match err with
  | Some err => Error err
  | None => "unknown"
  end.

End messages.

(** The text split at every line feed, as [strings.Split(s, "\n")] does. *)
Fixpoint lines (s : string) : list string :=
  match s with
  | EmptyString => [EmptyString]
  | String.String c rest =>
      if Ascii.eqb c (ascii_of_nat 10) then EmptyString :: lines rest
      else match lines rest with
           | l :: ls => String.String c l :: ls
           | [] => [String.String c EmptyString]
           end
  end.

Fixpoint hasByte (c : ascii) (s : string) : bool :=
  match s with
  | EmptyString => false
  | String.String c' rest => Ascii.eqb c' c || hasByte c rest
  end.

(* ------------------------------------------------------------------ *)
(** ** The tag scanner of the version before [reflect]'s [Lookup]

    The third text of [envvar.go] reads the default out of the raw tag
    string with [getStructTag]. A [bytes.Buffer] is the string that is
    left to read. *)

Module bytes.

(** [Buffer.ReadString(delim)]: the data up to and including the first
    [delim], or all the data and [io.EOF] when there is none; and what is
    left in the buffer. *)
Fixpoint ReadString (buf : string) (delim : ascii)
  : string * option error * string :=
  match buf with
  | EmptyString => (EmptyString, Some io_EOF, EmptyString)
  | String.String c rest =>
      if Ascii.eqb c delim then (String.String c EmptyString, None, rest)
      else
        let '(line, err, rest') := ReadString rest delim in
        (String.String c line, err, rest')
  end.

End bytes.

(** The byte that opens and closes a value in a tag. *)
Definition quotationMark : ascii := ascii_of_nat 34.

(** [s[:len(s)-1]]. *)
Fixpoint dropLast (s : string) : string :=
  match s with
  | EmptyString => EmptyString
  | String.String c EmptyString => EmptyString
  | String.String c rest => String.String c (dropLast rest)
  end.

Section tagscan.

Context `{Text}.

Definition invalidStructTag (fieldName : string) (err : error) : error :=
  errorString ("envvar: Invalid struct tag for field named " ++ fieldName
                 ++ ". " ++ Error err).

(** The loop of [getStructTag] on what is left of the tag. Every turn
    reads at least three bytes; [fuel] bounds the number of turns, and
    [None] is "out of fuel". The result is [(value, found, err)]. *)
Fixpoint getStructTagFrom (fuel : nat) (fieldName : string) (buf : string)
    (key : string) : option (string * bool * option error) :=
  match fuel with
  | O => None
  | S fuel =>
      (* Read until we reach a colon. *)
      let '(k, err, buf) := bytes.ReadString buf ":" in
      match err with
      | Some err =>
          if is_EOF err then Some ("", false, None)
          else Some ("", false, Some err)
      | None =>
          (* Read until we reach the opening quotation mark. *)
          let '(_, err, buf) := bytes.ReadString buf quotationMark in
          match err with
          | Some err => Some ("", false, Some (invalidStructTag fieldName err))
          | None =>
              (* Read until we reach the closing quotation mark. *)
              let '(val, err, buf) := bytes.ReadString buf quotationMark in
              match err with
              | Some err =>
                  Some ("", false, Some (invalidStructTag fieldName err))
              | None =>
                  if String.eqb (strings.TrimSpace (dropLast k)) key
                  then Some (dropLast val, true, None)
                  else getStructTagFrom fuel fieldName buf key
              end
          end
      end
  end.

(** [getStructTag] on the name and the raw tag of a field. *)
Definition getStructTag (fieldName : string) (tag : string) (key : string)
  : option (string * bool * option error) :=
  getStructTagFrom (S (String.length tag)) fieldName tag key.

End tagscan.

(** A tag written out from its pairs: [key:"value"], one space between
    two pairs. *)
Definition tagPair (lead : string) (kv : string * string) : string :=
  lead ++ fst kv ++ ":" ++ String.String quotationMark (snd kv)
    ++ String.String quotationMark EmptyString.

Fixpoint tagRest (pairs : list (string * string)) : string :=
  match pairs with
  | [] => ""
  | kv :: rest => tagPair " " kv ++ tagRest rest
  end.

Definition tagText (pairs : list (string * string)) : string :=
  match pairs with
  | [] => ""
  | kv :: rest => tagPair "" kv ++ tagRest rest
  end.

(** A key that can be written in a tag and found again: it has no colon,
    and its first and last bytes are ASCII and not spaces. *)
Definition firstByteOk (s : string) : bool :=
  match s with
  | EmptyString => false
  | String.String c _ =>
      (strconv.byte c <? strings.RuneSelf) && negb (strings.asciiSpace c)
  end.

Definition tagKey (k : string) : bool :=
  negb (hasByte ":" k) && firstByteOk k && firstByteOk (strings.rev k).

(** A value that can be written between quotation marks. *)
Definition tagValue (v : string) : bool := negb (hasByte quotationMark v).

(* ------------------------------------------------------------------ *)
(** ** Earlier versions of [Parse]

    [src] holds the texts of four earlier versions of [envvar.go]. From
    the oldest on: [untagged] ([src/unnamed/part_003]: every field is
    required and looked up under its identifier), [tagged]
    ([src/unnamed/part_002]: the [envvar] and [default] tags, read with
    [Tag.Get]), the version with [getStructTag] above, and [unnested] (the
    first text of [src/envvar/envvar.go]: [ErrorList] and custom parsers,
    no nested structs and no [Config]). All read the process environment.
    The first two return at the first error. *)

Module early.
Section early.

Context `{Platform} `{Text}.

(** [setFieldVal] of [part_002] and [part_003] (and of the version with
    [getStructTag]): no custom parser, no duration, and errors made with
    [fmt.Errorf]. *)
Definition setFieldVal (structField : Value) (name v : string)
  : value * option error :=
  let d := data structField in
  let parsing (err : error) : error :=
    errorString ("envvar: Error parsing environment variable " ++ name
                   ++ ": " ++ v ++ newline ++ Error err) in
  match Value'.Kind structField with
  | String => (VString v, None)
  | Int | Int8 | Int16 | Int32 | Int64 =>
      let '(vInt, err) := strconv.Atoi v in
      match err with
      | Some err => (d, Some (parsing err))
      | None => (Value'.SetInt structField vInt, None)
      end
  | Uint | Uint8 | Uint16 | Uint32 | Uint64 =>
      let '(vUint, err) := strconv.ParseUint v 64 in
      match err with
      | Some err => (d, Some (parsing err))
      | None => (Value'.SetUint structField vUint, None)
      end
  | Float32 | Float64 =>
      let '(vFloat, err) := strconv_ParseFloat v 64 in
      match err with
      | Some err => (d, Some (parsing err))
      | None =>
          (VFloat (match Value'.Kind structField with
                   | Float32 => float32_of_float64 vFloat
                   | _ => vFloat
                   end), None)
      end
  | Bool =>
      let '(vBool, err) := strconv.ParseBool v in
      match err with
      | Some err => (d, Some (parsing err))
      | None => (VBool vBool, None)
      end
  | _ =>
      (d, Some (errorString ("envvar: Unsupported struct field type: "
                               ++ Type'.String (Type_of structField))))
  end.

(** The loop of both versions, for a given body [turn]: the fields are
    set in order and the first error is returned at once. *)
Section loop.
Variable turn : StructField -> value -> result.

Fixpoint fieldsLoop (fields : list StructField) (vals : list value)
  : list value * option error * list string :=
  match fields, vals with
  | field :: fields', fieldVal :: vals' =>
      let r := turn field fieldVal in
      match err r with
      | Some err => (val r :: vals', Some err, asked r)
      | None =>
          let '(vals'', err, keys) := fieldsLoop fields' vals' in
          (val r :: vals'', err, (asked r ++ keys)%list)
      end
  | _, _ => (vals, None, [])
  end.

(** The frame both versions share: the test of the argument, then the
    loop over the fields of the struct it points to. *)
Definition ParseBy (v : option (rtype * value)) : outcome :=
  match v with
  | None =>
      Panic "runtime error: invalid memory address or nil pointer dereference"
  | Some (typ, d) =>
      match typ with
      | PtrTo _ (StructOf _ _ fields) =>
          if Value'.IsNil d then
            Return {| val := d;
                      err := Some (errorString
                                     "envvar: Error in Parse: argument cannot be nil.");
                      asked := [] |}
          else
            let '(vals, err, keys) :=
              fieldsLoop fields (Value'.Fields (Value'.Elem d)) in
            Return {| val := VPtr (Some (VStruct vals)); err := err;
                      asked := keys |}
      | _ =>
          Return {| val := d;
                    err := Some (errorString
                                   ("envvar: Error in Parse: type must be a pointer to a struct. Got: "
                                      ++ Type'.String typ));
                    asked := [] |}
      end
  end.
End loop.

End early.
End early.

Module untagged.
Section untagged.

Context `{Platform} `{Text}.

(** The body of the loop of [Parse] in [part_003]. *)
Definition turn (field : StructField) (fieldVal : value) : result :=
  let '(vString, found) := syscall_Getenv (Name field) in
  if negb found then
    {| val := fieldVal;
       err := Some (errorString ("Missing required environment variable: "
                                   ++ Name field));
       asked := [Name field] |}
  else
    let '(d, err) :=
      early.setFieldVal (mkValue (Type_ field) fieldVal true) (Name field)
        vString in
    {| val := d; err := err; asked := [Name field] |}.

(** [Parse] of [part_003]. *)
Definition Parse (v : option (rtype * value)) : outcome :=
  early.ParseBy turn v.

End untagged.
End untagged.

Module tagged.
Section tagged.

Context `{Platform} `{Text}.

(** The body of the loop of [Parse] in [part_002]. *)
Definition turn (field : StructField) (fieldVal : value) : result :=
  let varName := Name field in
  let customName := Tag.Get (Tag field) "envvar" in
  let varName := if negb (String.eqb customName "") then customName
                 else varName in
  let defaultVal := Tag.Get (Tag field) "default" in
  let '(varVal, found) := syscall_Getenv varName in
  if negb found && String.eqb defaultVal "" then
    {| val := fieldVal;
       err := Some (errorString ("Missing required environment variable: "
                                   ++ varName));
       asked := [varName] |}
  else
    let varVal :=
      if negb (String.eqb defaultVal "") && String.eqb varVal ""
      then defaultVal else varVal in
    let '(d, err) :=
      early.setFieldVal (mkValue (Type_ field) fieldVal true) varName varVal in
    {| val := d; err := err; asked := [varName] |}.

(** [Parse] of [part_002]. *)
Definition Parse (v : option (rtype * value)) : outcome :=
  early.ParseBy turn v.

End tagged.
End tagged.

Module unnested.
Section unnested.

Context `{Platform}.

(** [setFieldVal] of the first text of [envvar.go]: the type, then a
    pointer to it when the field is addressable, is asked for
    [UnmarshalText] ([Type().Implements], a test of the static type); an
    unsupported kind is an [InvalidArgumentError]. *)
Definition setFieldVal (structField : Value) (name v : string)
  : value * option error :=
  let d := data structField in
  let call (m : TextUnmarshaler) : value * option error :=
    let '(d, err) := m v d in
    match err with
    | Some err => (d, Some (InvalidVariableError name v err))
    | None => (d, None)
    end in
  let primitive : value * option error :=
    match Value'.Kind structField with
    | String => (VString v, None)
    | Int | Int8 | Int16 | Int32 | Int64 =>
        if isDuration (Type_of structField) then
          let '(dur, err) := time_ParseDuration v in
          match err with
          | Some err => (d, Some (InvalidVariableError name v err))
          | None => (Value'.SetInt structField dur, None)
          end
        else
          let '(vInt, err) := strconv.Atoi v in
          match err with
          | Some err => (d, Some (InvalidVariableError name v err))
          | None => (Value'.SetInt structField vInt, None)
          end
    | Uint | Uint8 | Uint16 | Uint32 | Uint64 =>
        let '(vUint, err) := strconv.ParseUint v 64 in
        match err with
        | Some err => (d, Some (InvalidVariableError name v err))
        | None => (Value'.SetUint structField vUint, None)
        end
    | Float32 | Float64 =>
        let '(vFloat, err) := strconv_ParseFloat v 64 in
        match err with
        | Some err => (d, Some (InvalidVariableError name v err))
        | None =>
            (VFloat (match Value'.Kind structField with
                     | Float32 => float32_of_float64 vFloat
                     | _ => vFloat
                     end), None)
        end
    | Bool =>
        let '(vBool, err) := strconv.ParseBool v in
        match err with
        | Some err => (d, Some (InvalidVariableError name v err))
        | None => (VBool vBool, None)
        end
    | _ =>
        (d, Some (InvalidArgumentError
                    ("Unsupported struct field type: "
                       ++ Type'.String (Type_of structField))))
    end in
  match Type'.Methods (Type_of structField) with
  | Implements m => call m
  | PtrImplements m => if CanAddr structField then call m else primitive
  | NoUnmarshalText => primitive
  end.

(** [parse]: one field, from the process environment. *)
Definition parse (field : StructField) (fieldVal : value) : result :=
  let varName := Name field in
  let customName := Tag.Get (Tag field) "envvar" in
  let varName := if negb (String.eqb customName "") then customName
                 else varName in
  let '(defaultVal, foundDefault) := Tag.Lookup (Tag field) "default" in
  let '(envVal, foundEnv) := syscall_Getenv varName in
  let set (varVal : string) : result :=
    let '(d, err) :=
      setFieldVal (mkValue (Type_ field) fieldVal true) varName varVal in
    {| val := d; err := err; asked := [varName] |} in
  if foundEnv then set envVal
  else if foundDefault then set defaultVal
  else {| val := fieldVal; err := Some (UnsetVariableError varName);
          asked := [varName] |}.

(** The loop of [Parse]: every field is set and every error is kept. *)
Fixpoint parseAll (fields : list StructField) (vals : list value)
    (errors : list error) : list value * list error * list string :=
  match fields, vals with
  | field :: fields', fieldVal :: vals' =>
      let r := parse field fieldVal in
      let errors := match err r with
                    | Some err => (errors ++ [err])%list
                    | None => errors
                    end in
      let '(vals'', errors, keys) := parseAll fields' vals' errors in
      (val r :: vals'', errors, (asked r ++ keys)%list)
  | _, _ => (vals, errors, [])
  end.

(** [Parse] of the first text of [envvar.go]. *)
Definition Parse (v : option (rtype * value)) : outcome :=
  match v with
  | None =>
      Panic "runtime error: invalid memory address or nil pointer dereference"
  | Some (typ, d) =>
      match typ with
      | PtrTo _ (StructOf _ _ fields) =>
          if Value'.IsNil d then
            Return {| val := d;
                      err := Some (InvalidArgumentError
                                     "Error in Parse: argument cannot be nil");
                      asked := [] |}
          else
            let '(vals, errors, keys) :=
              parseAll fields (Value'.Fields (Value'.Elem d)) [] in
            Return {| val := VPtr (Some (VStruct vals));
                      err := if (Z.of_nat (List.length errors) >? 0)
                             then Some (ErrorList errors) else None;
                      asked := keys |}
      | _ =>
          Return {| val := d;
                    err := Some (InvalidArgumentError
                                   ("Error in Parse: type must be a pointer to a struct. Got: "
                                      ++ Type'.String typ));
                    asked := [] |}
      end
  end.

End unnested.
End unnested.

(** A field every version after [tagged] binds the same way: a leaf with
    a custom parser or of a kind [setFieldVal] has a case for, and neither
    of interface type (where the first text tests the type and the current
    one the value held) nor a pointer (which can be nil when its parser is
    called). *)
Definition flatField (field : StructField) : bool :=
  isLeaf field
  && negb (Kind_eqb (Type'.Kind (Type_ field)) Interface)
  && negb (Kind_eqb (Type'.Kind (Type_ field)) Ptr)
  && (match customParser (Type_ field) with Some _ => true | None => false end
      || supportedKind (Type'.Kind (Type_ field))).

(** An argument that points to a record of such fields, or that is no
    pointer to a record. *)
Definition flatArgument (v : option (rtype * value)) : bool :=
  match v with
  | Some (PtrTo _ (StructOf _ _ fields), _) => forallb flatField fields
  | _ => true
  end.

(** A record without tags that matter: no name override and no default
    that is not empty. *)
Definition untaggedArgument (v : option (rtype * value)) : bool :=
  match v with
  | Some (PtrTo _ (StructOf _ _ fields), _) =>
      forallb (fun f => String.eqb (Tag.Get (Tag f) "envvar") ""
                        && String.eqb (Tag.Get (Tag f) "default") "") fields
  | _ => true
  end.

(* ------------------------------------------------------------------ *)
(** ** More records and environments for the examples *)

(** A process whose environment is [cenv], otherwise as [barePlatform]. *)
Definition processWith (cenv : customenv) : Platform :=
  {| syscall_Getenv := getenv cenv;
     strconv_ParseFloat := fun s _ => (0, Some (NumError "ParseFloat" s ErrSyntax));
     float32_of_float64 := fun x => x;
     time_ParseDuration :=
       fun s => (0, Some (errorString ("time: invalid duration " ++ s))) |}.

(** [strconv.Quote] on a text that needs no escape, which is all the
    examples quote: the text between two quotation marks. The
    Unicode-aware trimmers are not reached on ASCII text. *)
Definition bareText : Text :=
  {| strconv_Quote :=
       fun s => String.String quotationMark
                  (s ++ String.String quotationMark EmptyString);
     strings_TrimFunc_IsSpace := fun s => s;
     strings_TrimRightFunc_IsSpace := fun s => s |}.

(** [type config struct { A int; B int; C string }], and its zero value. *)
Definition untaggedRecord : rtype :=
  StructOf "envvar.config" NoUnmarshalText
    [mkStructField "A" [] int_t;
     mkStructField "B" [] int_t;
     mkStructField "C" [] string_t].

(** A field of slice type, and a string field with an empty default. *)
Definition Tags : StructField :=
  mkStructField "Tags" [] (Basic Slice "[]string" NoUnmarshalText).
Definition Nick : StructField :=
  mkStructField "Nick" [("default", "")] string_t.

(** The environment seen from inside a prefix: what is [k] inside is
    [prefix ++ k] outside. *)
Definition within (prefix : string) (lookup : GetenvFn) : GetenvFn :=
  fun k => lookup (prefix ++ k)%string.

(* ------------------------------------------------------------------ *)
(** ** The shape of types *)

Lemma Kind_Struct_inv (t : rtype) :
  Type'.Kind t = Struct -> exists name m fields, t = StructOf name m fields.
Proof.
  destruct t as [k name m | name m fields | m elem | name declares held];
    simpl.
  - destruct k; discriminate.
  - intros _. now exists name, m, fields.
  - discriminate.
  - discriminate.
Qed.

Lemma Kind_Ptr_inv (t : rtype) :
  Type'.Kind t = Ptr -> exists m elem, t = PtrTo m elem.
Proof.
  destruct t as [k name m | name m fields | m elem | name declares held];
    simpl.
  - destruct k; discriminate.
  - discriminate.
  - intros _. now exists m, elem.
  - discriminate.
Qed.

Lemma Kind_eqb_eq (a b : Kind) : Kind_eqb a b = true <-> a = b.
Proof.
  split.
  - destruct a, b; simpl; intros E; try discriminate E; reflexivity.
  - intros ->. destruct b; reflexivity.
Qed.

(** A record type is a struct type or a pointer to one, and [recordOf]
    gives the struct type. *)
Lemma recordOf_inv (t elem : rtype) :
  recordOf t = Some elem ->
  exists name m fields,
    elem = StructOf name m fields /\ (t = elem \/ exists m', t = PtrTo m' elem).
Proof.
  unfold recordOf. intros E.
  destruct (Type'.Kind t) eqn:K; try discriminate E.
  - destruct (Kind_Ptr_inv t K) as (m' & e & ->). simpl in E.
    destruct (Kind_eqb (Type'.Kind e) Struct) eqn:KE; inversion E; subst.
    apply Kind_eqb_eq in KE.
    destruct (Kind_Struct_inv _ KE) as (name & m & fields & ->).
    exists name, m, fields. split; [reflexivity | right; now exists m'].
  - inversion E; subst.
    destruct (Kind_Struct_inv _ K) as (name & m & fields & ->).
    exists name, m, fields. split; [reflexivity | now left].
Qed.

Lemma string_app_nil_r (s : string) : (s ++ "")%string = s.
Proof. induction s as [| c s IH]; simpl; [reflexivity | now rewrite IH]. Qed.

Lemma string_app_assoc (a b c : string) :
  ((a ++ b) ++ c)%string = (a ++ (b ++ c))%string.
Proof. induction a as [| x a IH]; simpl; [reflexivity | now rewrite IH]. Qed.

(* ------------------------------------------------------------------ *)
(** ** The loop of [parseStruct] *)

Section loop_facts.

Variable pf : StructField -> value -> result.

(** The loop calls [parseField] on every field that has a value, in
    order, whatever the earlier calls returned, and appends what each
    call reports. *)
Lemma parseFields_spec (fields : list StructField) :
  forall (vals : list value) (errors : list error),
    parseFields pf fields vals errors
    = (map (fun fv => val (visit pf fv)) (combine fields vals)
         ++ skipn (List.length fields) vals,
       errors ++ flat_map (fun fv => errorsOf (visit pf fv)) (combine fields vals),
       flat_map (fun fv => asked (visit pf fv)) (combine fields vals))%list.
Proof.
  induction fields as [| field fields IH]; intros vals errors.
  - simpl. destruct vals; now rewrite app_nil_r.
  - destruct vals as [| fieldVal vals].
    + simpl. now rewrite app_nil_r.
    + cbn [parseFields]. rewrite IH. cbn [combine map flat_map skipn List.length].
      unfold visit at 4 5 6. cbn [fst snd].
      unfold errorsOf at 2. cbn [fst snd].
      destruct (err (pf field fieldVal)) as [e |].
      * destruct e; cbn [app]; rewrite <- ?app_assoc; reflexivity.
      * rewrite app_nil_l. reflexivity.
Qed.

Lemma parseStructWith_spec (fields : list StructField) (structVal : value) :
  parseStructWith pf fields structVal
  = {| val := VStruct (map (fun fv => val (visit pf fv))
                         (combine fields (Value'.Fields structVal))
                       ++ skipn (List.length fields) (Value'.Fields structVal));
       err := match collected pf fields structVal with
              | [] => None
              | errors => Some (ErrorList errors)
              end;
       asked := flat_map (fun fv => asked (visit pf fv))
                  (combine fields (Value'.Fields structVal)) |}.
Proof.
  unfold parseStructWith. rewrite parseFields_spec. cbn [app].
  unfold collected. f_equal.
  destruct (flat_map _ _) as [| e es]; [reflexivity |].
  cbn [List.length]. destruct (Z.of_nat (S (List.length es)) >? 0) eqn:E.
  - reflexivity.
  - exfalso. rewrite Z.gtb_ltb in E. apply Z.ltb_ge in E. lia.
Qed.

End loop_facts.

(* ------------------------------------------------------------------ *)
(** ** [parseField], case by case *)

Section parseField_facts.

Context `{Platform}.

(** A field value the engine reaches is addressable, so the two-step test
    of [cleverMaybeTextUnmarshaler] finds the parser of the type or of
    its reference form, unless the field is of interface type: there the
    test is on what the field holds. *)
Lemma cleverMaybeTextUnmarshaler_addressable (t : rtype) (d : value) :
  Type'.Kind t <> Interface ->
  cleverMaybeTextUnmarshaler (mkValue t d true) = customParser t.
Proof.
  unfold cleverMaybeTextUnmarshaler, maybeTextUnmarshaler,
    maybeTextUnmarshalerAddr, customParser. cbn [Type_of data CanAddr].
  destruct t as [k n m | n m fields | m elem | n declares held];
    cbn [Type'.Methods]; try (intros _; now destruct m).
  intros K. now destruct K.
Qed.

(** A record type is not an interface type. *)
Lemma recordOf_not_interface (t elem : rtype) :
  recordOf t = Some elem -> Type'.Kind t <> Interface.
Proof.
  unfold recordOf. intros R K. rewrite K in R. discriminate R.
Qed.

(** The test of a field of interface type: it succeeds when the field
    holds a value whose type has the method. *)
Lemma cleverMaybeTextUnmarshaler_interface (name : string) (declares : bool)
    (held : methods) (d : value) (c : bool) :
  cleverMaybeTextUnmarshaler (mkValue (InterfaceOf name declares held) d c)
  = match d, held with
    | VIface (Some _), Implements _ => Some (through held)
    | _, _ => None
    end.
Proof.
  unfold cleverMaybeTextUnmarshaler, maybeTextUnmarshaler,
    maybeTextUnmarshalerAddr. cbn [Type_of data CanAddr].
  destruct d as [| | | | | | | [x |] |]; try (now destruct c).
  destruct held; now destruct c.
Qed.

Lemma parseField_leaf (ss : structStack) (field : StructField)
    (fieldVal : value) :
  isLeaf field = true ->
  parseField ss field fieldVal = parseLeaf ss field fieldVal (keyName field).
Proof.
  unfold isLeaf, isNested. intros L.
  destruct field as [name tag t]. cbn [Type_] in L.
  cbn [parseField]. cbn [Type_].
  destruct (cleverMaybeTextUnmarshaler (mkValue t fieldVal true)) as [m |]
    eqn:C; [reflexivity |].
  destruct t as [k n m | n m fields
                | m [k n m' | n m' fields | m' e | n' declares' held']
                | n declares held];
    try reflexivity;
    rewrite cleverMaybeTextUnmarshaler_addressable in C by discriminate;
    rewrite C in L; simpl in L; discriminate L.
Qed.

Lemma parseField_nested (ss : structStack) (field : StructField)
    (fieldVal : value) (elem : rtype) :
  customParser (Type_ field) = None ->
  recordOf (Type_ field) = Some elem ->
  parseField ss field fieldVal
  = match foundDefaultTagError field with
    | Some e => {| val := allocated field fieldVal; err := Some e; asked := [] |}
    | None =>
        outer field
          (parseStruct (push ss (Tag.Get (Tag field) "envvar") elem
                          (innerRecord field fieldVal)))
    end.
Proof.
  intros C R.
  destruct (recordOf_inv _ _ R) as (n & m & fields & -> & [E | [m' E]]);
    destruct field as [name tag t]; cbn [Type_] in *; subst t;
    cbn [parseField]; cbn [Type_];
    rewrite cleverMaybeTextUnmarshaler_addressable, C by discriminate;
    unfold allocated, innerRecord, outer, parseStruct; cbn [Type_];
    destruct (foundDefaultTagError _); reflexivity.
Qed.

Lemma isNested_inv (field : StructField) :
  isNested field = true ->
  customParser (Type_ field) = None
  /\ exists elem, recordOf (Type_ field) = Some elem.
Proof.
  unfold isNested.
  destruct (customParser (Type_ field)); [discriminate |].
  destruct (recordOf (Type_ field)) as [elem |]; [| discriminate].
  intros _. split; [reflexivity | now exists elem].
Qed.

Lemma foundDefaultTagError_spec (field : StructField) :
  foundDefaultTagError field
  = if snd (Tag.Lookup (Tag field) "default")
    then Some (defaultTagError field) else None.
Proof.
  unfold foundDefaultTagError.
  destruct (Tag.Lookup (Tag field) "default") as [d found]. reflexivity.
Qed.

(** A leaf field asks for exactly one key. *)
Lemma parseLeaf_asked (ss : structStack) (field : StructField)
    (fieldVal : value) (varName : string) :
  asked (parseLeaf ss field fieldVal varName) = [(envPrefix ss ++ varName)%string].
Proof.
  unfold parseLeaf.
  destruct (Tag.Lookup (Tag field) "default") as [defaultVal foundDefault].
  destruct (config ss _) as [envVal foundEnv].
  destruct foundEnv; [| destruct foundDefault];
    try destruct (setFieldVal _ _ _); reflexivity.
Qed.

(** A leaf field that is neither set nor defaulted is reported unset,
    under its key, and keeps its value. *)
Lemma parseField_unset (ss : structStack) (field : StructField)
    (fieldVal : value) :
  isLeaf field = true ->
  snd (Tag.Lookup (Tag field) "default") = false ->
  snd (config ss (envPrefix ss ++ keyName field)%string) = false ->
  parseField ss field fieldVal
  = {| val := fieldVal;
       err := Some (UnsetVariableError (envPrefix ss ++ keyName field));
       asked := [(envPrefix ss ++ keyName field)%string] |}.
Proof.
  intros L D G. rewrite (parseField_leaf ss field fieldVal L).
  unfold parseLeaf.
  destruct (Tag.Lookup (Tag field) "default") as [dv df].
  destruct (config ss _) as [x found]. cbn [snd] in D, G. now subst df found.
Qed.

End parseField_facts.

(* ------------------------------------------------------------------ *)
(** ** Field resolver and custom parsers *)

Lemma Lookup_absent (tag : StructTag) (key : string) :
  snd (Tag.Lookup tag key) = false -> Tag.Lookup tag key = ("", false).
Proof.
  induction tag as [| [k v] tag IH]; simpl; [reflexivity |].
  destruct (String.eqb k key); [discriminate | exact IH].
Qed.

Section resolver.

Context `{Platform}.

(** C1. Resolution of a leaf field follows a three-way policy on the key
    [prefix ++ (override or identifier)]: a value found by the lookup is
    the raw value, whatever it is (the empty string too) and whatever the
    default annotation says; otherwise a default annotation, even an
    empty one, is the raw value; otherwise the field fails with
    [UnsetVariableError] carrying the key. *)
Theorem leaf_resolution_policy (ss : structStack) (field : StructField)
    (fieldVal : value) :
  isLeaf field = true ->
  let key := (envPrefix ss ++ keyName field)%string in
  (forall v, config ss key = (v, true) ->
     parseField ss field fieldVal = bound field fieldVal key v)
  /\ (forall v d, config ss key = (v, false) ->
        Tag.Lookup (Tag field) "default" = (d, true) ->
        parseField ss field fieldVal = bound field fieldVal key d)
  /\ (forall v d, config ss key = (v, false) ->
        Tag.Lookup (Tag field) "default" = (d, false) ->
        parseField ss field fieldVal
        = {| val := fieldVal; err := Some (UnsetVariableError key);
             asked := [key] |}).
Proof.
  intros L key. rewrite (parseField_leaf ss field fieldVal L).
  unfold parseLeaf, bound. fold key.
  repeat split.
  - intros v E. rewrite E.
    destruct (Tag.Lookup (Tag field) "default") as [d found].
    destruct (setFieldVal _ _ _); reflexivity.
  - intros v d E D. rewrite E, D.
    destruct (setFieldVal _ _ _); reflexivity.
  - intros v d E D. rewrite E, D. reflexivity.
Qed.

(** C3, as the code has it. Whether a field has a custom parser is
    tested on the value, seen as an interface, and then on the pointer to
    it: for a field that can be addressed and is not of interface type the
    test finds the parser of the type or of its single-level reference
    form; for a field of interface type it finds the parser of the value
    the field holds, and none when the field holds nothing, whatever the
    type declares. A field for which the test succeeds (and whose parser
    is not reached through a nil pointer) is set by that parser and by
    nothing else: [setFieldVal] returns what the parser returns whatever
    the kind of the field, a failure of the parser comes back as
    [InvalidVariableError] with the key, the raw value and the cause, and
    [parseField] treats the field as a leaf (one lookup, no recursion)
    even when its type is a struct. *)
Theorem custom_parser_is_leaf_and_first :
  (forall (t : rtype) (d : value),
      Type'.Kind t <> Interface ->
      cleverMaybeTextUnmarshaler (mkValue t d true) = customParser t)
  /\ (forall (name : string) (declares : bool) (held : methods) (d : value)
             (c : bool),
        cleverMaybeTextUnmarshaler
          (mkValue (InterfaceOf name declares held) d c)
        = match d, held with
          | VIface (Some _), Implements _ => Some (through held)
          | _, _ => None
          end)
  /\ (forall (structField : Value) (m : TextUnmarshaler) (name raw : string),
        cleverMaybeTextUnmarshaler structField = Some m ->
        nilReceiver structField = false ->
        setFieldVal structField name raw
        = (fst (m raw (data structField)),
           option_map (InvalidVariableError name raw)
             (snd (m raw (data structField)))))
  /\ (forall (ss : structStack) (field : StructField) (fieldVal : value)
             (m : TextUnmarshaler),
        cleverMaybeTextUnmarshaler (mkValue (Type_ field) fieldVal true)
        = Some m ->
        nilReceiver (mkValue (Type_ field) fieldVal true) = false ->
        let key := (envPrefix ss ++ keyName field)%string in
        isLeaf field = true
        /\ parseField ss field fieldVal
           = parseLeaf ss field fieldVal (keyName field)
        /\ asked (parseField ss field fieldVal) = [key]
        /\ (forall raw d cause,
              config ss key = (raw, true)
              \/ (snd (config ss key) = false
                  /\ Tag.Lookup (Tag field) "default" = (raw, true)) ->
              m raw fieldVal = (d, Some cause) ->
              parseField ss field fieldVal
              = {| val := d;
                   err := Some (InvalidVariableError key raw cause);
                   asked := [key] |})).
Proof.
  assert (first : forall structField m name raw,
             cleverMaybeTextUnmarshaler structField = Some m ->
             setFieldVal structField name raw
             = (fst (m raw (data structField)),
                option_map (InvalidVariableError name raw)
                  (snd (m raw (data structField))))).
  { intros structField m name raw C.
    unfold setFieldVal, setUnmarshFieldVal. rewrite C.
    destruct (m raw (data structField)) as [d [e |]]; reflexivity. }
  split; [exact cleverMaybeTextUnmarshaler_addressable |].
  split; [exact cleverMaybeTextUnmarshaler_interface |].
  split.
  - intros structField m name raw C _. now apply first.
  - intros ss field fieldVal m C _ key.
    assert (L : isLeaf field = true).
    { unfold isLeaf, isNested.
      destruct (recordOf (Type_ field)) as [elem |] eqn:R;
        [| now destruct (customParser (Type_ field))].
      rewrite cleverMaybeTextUnmarshaler_addressable in C
        by exact (recordOf_not_interface _ _ R).
      now rewrite C. }
    rewrite (parseField_leaf ss field fieldVal L).
    split; [exact L |]. split; [reflexivity |].
    split; [apply parseLeaf_asked |].
    intros raw d cause Hraw Hm.
    assert (S : setFieldVal (mkValue (Type_ field) fieldVal true) key raw
                = (d, Some (InvalidVariableError key raw cause))).
    { rewrite (first _ m _ _ C). cbn [data]. now rewrite Hm. }
    unfold parseLeaf. fold key.
    destruct Hraw as [E | [E D]].
    + rewrite E. destruct (Tag.Lookup (Tag field) "default").
      now rewrite S.
    + destruct (config ss key) as [v found]. cbn [snd] in E. subst found.
      rewrite D. now rewrite S.
Qed.

End resolver.

(* ------------------------------------------------------------------ *)
(** ** The keys the walk asks for *)

Lemma conforms_cons (name : string) (m : methods) (field : StructField)
    (fields : list StructField) (v : value) (vals : list value) :
  conforms (StructOf name m (field :: fields)) (VStruct (v :: vals))
  = conforms (Type_ field) v && conforms (StructOf name m fields) (VStruct vals).
Proof. destruct field; reflexivity. Qed.

Lemma conforms_struct_inv (name : string) (m : methods)
    (fields : list StructField) (d : value) :
  conforms (StructOf name m fields) d = true ->
  exists vals, d = VStruct vals /\ List.length fields = List.length vals.
Proof.
  destruct d as [| | | | | vals | | |]; try discriminate.
  intros C. exists vals. split; [reflexivity |].
  revert vals C. induction fields as [| field fields IH]; intros [| v vals] C.
  - reflexivity.
  - discriminate C.
  - destruct field; discriminate C.
  - rewrite conforms_cons in C. apply andb_prop in C as [_ C].
    simpl. f_equal. now apply IH.
Qed.

Lemma conforms_zero (t : rtype) : conforms t (zero t) = true.
Proof.
  induction t as [k name m | name m fields IH | m elem IH | name declares held]
    using rtype_fields_ind; [reflexivity | | reflexivity | reflexivity].
  induction IH as [| field fields Hf _ IHfs]; [reflexivity |].
  destruct field as [fname ftag ft].
  change (zero (StructOf name m (mkStructField fname ftag ft :: fields)))
    with (VStruct (zero ft :: Value'.Fields (zero (StructOf name m fields)))).
  rewrite conforms_cons. cbn [Type_] in Hf |- *. rewrite Hf. exact IHfs.
Qed.

Section asked_keys.

Context `{Platform}.

(** The keys asked for while a field is set are the keys of the leaf
    fields in its tree, in depth-first declaration order, without those
    below a nested record with a default annotation. *)
Lemma parseField_asked_keys (t : rtype) :
  (forall name tag ss d,
      conforms t d = true ->
      asked (parseField ss (mkStructField name tag t) d)
      = keysOf true (envPrefix ss) (mkStructField name tag t))
  /\ (forall ss d,
        conforms t d = true ->
        asked (parseStructWith (parseField ss) (Type'.Fields t) d)
        = flat_map (keysOf true (envPrefix ss)) (Type'.Fields t)).
Proof.
  induction t as [k n m | n m fields IH | m elem IH | n declares held]
    using rtype_fields_ind.
  - split.
    + intros name tag ss d _.
      rewrite parseField_leaf, parseLeaf_asked.
      * simpl. unfold customParser; simpl. destruct m; reflexivity.
      * unfold isLeaf, isNested, recordOf. simpl.
        destruct (customParser _); [reflexivity |]. destruct k; reflexivity.
    + intros ss d _. reflexivity.
  - assert (Q : forall ss d,
               conforms (StructOf n m fields) d = true ->
               asked (parseStructWith (parseField ss) fields d)
               = flat_map (keysOf true (envPrefix ss)) fields).
    { intros ss d C. rewrite parseStructWith_spec. cbn [asked].
      destruct (conforms_struct_inv _ _ _ _ C) as (vals & -> & _).
      cbn [Value'.Fields]. revert vals C.
      induction IH as [| field fields [Hf _] _ IHfs]; intros vals C.
      - reflexivity.
      - destruct vals as [| v vals]; [destruct field; discriminate C |].
        rewrite conforms_cons in C. apply andb_prop in C as [Cv C].
        cbn [combine flat_map]. rewrite (IHfs vals C). f_equal.
        unfold visit. cbn [fst snd]. destruct field as [fname ftag ft].
        now apply Hf. }
    split; [| exact Q].
    intros name tag ss d C.
    destruct (customParser (StructOf n m fields)) as [p |] eqn:CP.
    + rewrite parseField_leaf, parseLeaf_asked.
      * cbn [keysOf Type_]. now rewrite CP.
      * unfold isLeaf, isNested. cbn [Type_]. now rewrite CP.
    + rewrite (parseField_nested ss (mkStructField name tag (StructOf n m fields))
                 d (StructOf n m fields) CP eq_refl).
      rewrite foundDefaultTagError_spec.
      cbn [keysOf Type_ Tag]. rewrite CP. cbn [andb].
      destruct (snd (Tag.Lookup tag "default")); [reflexivity |].
      unfold outer, innerRecord, parseStruct. cbn [Type_ push structType structVal Type'.Fields].
      now rewrite Q.
  - destruct IH as [_ Q]. split; [| intros ss d _; reflexivity].
    intros name tag ss d C.
    destruct (customParser (PtrTo m elem)) as [p |] eqn:CP.
    + rewrite parseField_leaf, parseLeaf_asked.
      * cbn [keysOf Type_]. now rewrite CP.
      * unfold isLeaf, isNested. cbn [Type_]. now rewrite CP.
    + assert (L : forall leafT,
                 customParser leafT = None -> recordOf leafT = None ->
                 isLeaf (mkStructField name tag leafT) = true).
      { intros leafT CL RL. unfold isLeaf, isNested. cbn [Type_].
        now rewrite CL, RL. }
      destruct elem as [k' n' m' | sn sm sfields | m' e' | n' declares' held'].
      * rewrite parseField_leaf, parseLeaf_asked
          by (apply L; [exact CP | destruct k'; reflexivity]).
        cbn [keysOf Type_]. now rewrite CP.
      * rewrite (parseField_nested ss
                   (mkStructField name tag (PtrTo m (StructOf sn sm sfields)))
                   d _ CP eq_refl).
        rewrite foundDefaultTagError_spec.
        cbn [keysOf Type_ Tag]. rewrite CP. cbn [andb].
        destruct (snd (Tag.Lookup tag "default")); [reflexivity |].
        unfold outer, innerRecord, allocated, parseStruct.
        cbn [Type_ push structType structVal Type'.Fields asked].
        rewrite Q; [reflexivity |].
        destruct d as [| | | | | | [x |] | |]; try discriminate C.
        -- exact C.
        -- apply conforms_zero.
      * rewrite parseField_leaf, parseLeaf_asked
          by (apply L; [exact CP | reflexivity]).
        cbn [keysOf Type_]. now rewrite CP.
      * rewrite parseField_leaf, parseLeaf_asked
          by (apply L; [exact CP | reflexivity]).
        cbn [keysOf Type_]. now rewrite CP.
  - split; [| intros ss d _; reflexivity].
    intros name tag ss d _.
    rewrite parseField_leaf, parseLeaf_asked.
    + cbn [keysOf Type_]. now destruct (customParser _).
    + unfold isLeaf, isNested, recordOf. cbn [Type_ Type'.Kind].
      now destruct (customParser _).
Qed.

End asked_keys.

(* ------------------------------------------------------------------ *)
(** ** Nested records *)

Lemma combine_app_same_length {A B : Type} (l1 l2 : list A)
    (r1 r2 : list B) :
  List.length l1 = List.length r1 ->
  combine (l1 ++ l2) (r1 ++ r2) = (combine l1 r1 ++ combine l2 r2)%list.
Proof.
  revert r1. induction l1 as [| a l1 IH]; intros [| b r1] E;
    simpl in *; try discriminate; [reflexivity |].
  f_equal. apply IH. now injection E.
Qed.

Section nested.

Context `{Platform}.

(** C4. The recursion into a nested record runs [parseStruct] on a stack
    whose prefix is the enclosing prefix followed by the name override of
    the nested field; an absent or empty override adds nothing; a leaf
    field met there is looked up under that prefix followed by its own
    override or identifier; and the keys asked for below the field are
    those of its descendant leaves, each under the prefix accumulated on
    the way down to it. *)
Theorem nested_prefix_accumulates (ss : structStack) (field : StructField)
    (fieldVal : value) :
  isNested field = true ->
  snd (Tag.Lookup (Tag field) "default") = false ->
  exists (newSS : structStack),
    parseField ss field fieldVal = outer field (parseStruct newSS)
    /\ recordOf (Type_ field) = Some (structType newSS)
    /\ config newSS = config ss
    /\ envPrefix newSS
       = (envPrefix ss ++ Tag.Get (Tag field) "envvar")%string
    /\ (snd (Tag.Lookup (Tag field) "envvar") = false
        \/ Tag.Get (Tag field) "envvar" = "" ->
        envPrefix newSS = envPrefix ss)
    /\ (forall inner innerVal,
          isLeaf inner = true ->
          asked (parseField newSS inner innerVal)
          = [(envPrefix ss ++ Tag.Get (Tag field) "envvar"
                ++ keyName inner)%string])
    /\ (conforms (Type_ field) fieldVal = true ->
        asked (parseField ss field fieldVal)
        = flat_map (keysOf true (envPrefix newSS))
            (Type'.Fields (structType newSS))).
Proof.
  intros N D. destruct (isNested_inv field N) as (C & elem & R).
  exists (push ss (Tag.Get (Tag field) "envvar") elem
            (innerRecord field fieldVal)).
  rewrite (parseField_nested ss field fieldVal elem C R).
  rewrite foundDefaultTagError_spec, D. cbn [push envPrefix structType config].
  repeat split; try assumption.
  - intros [A | E].
    + unfold Tag.Get. rewrite (Lookup_absent _ _ A). apply string_app_nil_r.
    + rewrite E. apply string_app_nil_r.
  - intros inner innerVal L.
    rewrite (parseField_leaf _ inner innerVal L), parseLeaf_asked.
    cbn [push envPrefix]. now rewrite string_app_assoc.
  - intros Cf.
    replace (asked (outer field _))
      with (asked (parseStruct (push ss (Tag.Get (Tag field) "envvar") elem
                                  (innerRecord field fieldVal))))
      by (unfold outer; destruct (Type_ field); reflexivity).
    destruct (parseField_asked_keys elem) as [_ Q]. apply Q.
    cbn [push structVal]. unfold innerRecord, allocated.
    destruct (recordOf_inv _ _ R) as (sn & sm & sfields & -> & [E | [m' E]]);
      rewrite E in Cf |- *; [exact Cf |].
    destruct fieldVal as [| | | | | | [x |] | |]; try discriminate Cf.
    + exact Cf.
    + apply conforms_zero.
Qed.

(** C6. A nested-record field, by value or by reference, that carries a
    default annotation makes [parseField] return the usage error and
    nothing else: no key is asked for, the record is not recursed into,
    and this does not depend on the environment. In the enclosing record
    the error is one of the errors reported. *)
Theorem default_on_nested_record_is_usage_error (ss : structStack)
    (field : StructField) (fieldVal : value) :
  isNested field = true ->
  snd (Tag.Lookup (Tag field) "default") = true ->
  parseField ss field fieldVal
  = {| val := allocated field fieldVal;
       err := Some (InvalidFieldError (Name field)
                      "default tag is not supported for nested structs.");
       asked := [] |}
  /\ (forall before after valsBefore valsAfter name m envPrefix getenv,
        List.length before = List.length valsBefore ->
        exists errors,
          err (parseStruct
                 {| envPrefix := envPrefix;
                    structType := StructOf name m (before ++ field :: after);
                    structVal := VStruct (valsBefore ++ fieldVal :: valsAfter);
                    config := getenv |})
          = Some (ErrorList errors)
          /\ In (InvalidFieldError (Name field)
                   "default tag is not supported for nested structs.")
                errors).
Proof.
  intros N D. destruct (isNested_inv field N) as (C & elem & R).
  assert (E : forall ss', parseField ss' field fieldVal
              = {| val := allocated field fieldVal;
                   err := Some (defaultTagError field); asked := [] |}).
  { intros ss'. rewrite (parseField_nested ss' field fieldVal elem C R).
    now rewrite foundDefaultTagError_spec, D. }
  split; [apply E |].
  intros before after valsBefore valsAfter name m prefix getenv Len.
  unfold parseStruct. cbn [structType structVal Type'.Fields].
  rewrite parseStructWith_spec.
  assert (I : In (defaultTagError field)
                (collected
                   (parseField {| envPrefix := prefix;
                                  structType := StructOf name m (before ++ field :: after);
                                  structVal := VStruct (valsBefore ++ fieldVal :: valsAfter);
                                  config := getenv |})
                   (before ++ field :: after)
                   (VStruct (valsBefore ++ fieldVal :: valsAfter)))).
  { unfold collected. cbn [Value'.Fields].
    rewrite (combine_app_same_length _ _ _ _ Len), flat_map_app.
    apply in_or_app. right. cbn [combine flat_map].
    apply in_or_app. left. unfold visit. cbn [fst snd].
    rewrite E. unfold errorsOf. cbn [err defaultTagError]. now left. }
  cbn [err]. destruct (collected _ _ _) as [| e es]; [destruct I |].
  exists (e :: es). split; [reflexivity | exact I].
Qed.

(** C8. A nested-record field that is a nil reference, without a default
    annotation, is first given a zero record; the engine recurses into
    that record, and the field then points to what the recursion made of
    it. *)
Theorem nil_reference_is_allocated (ss : structStack) (field : StructField)
    (m : methods) (elem : rtype) :
  Type_ field = PtrTo m elem ->
  isNested field = true ->
  snd (Tag.Lookup (Tag field) "default") = false ->
  let inner := parseStruct (push ss (Tag.Get (Tag field) "envvar") elem
                              (zero elem)) in
  parseField ss field (VPtr None)
  = {| val := VPtr (Some (val inner)); err := err inner;
       asked := asked inner |}
  /\ structVal (push ss (Tag.Get (Tag field) "envvar") elem (zero elem))
     = zero elem
  /\ (err (parseField ss field (VPtr None)) = None ->
      val (parseField ss field (VPtr None)) = VPtr (Some (val inner))
      /\ err inner = None).
Proof.
  intros T N D inner. destruct (isNested_inv field N) as (C & elem' & R).
  assert (elem' = elem) as ->.
  { rewrite T in R. unfold recordOf in R. cbn in R.
    destruct (Kind_eqb (Type'.Kind elem) Struct); now inversion R. }
  assert (E : parseField ss field (VPtr None)
              = {| val := VPtr (Some (val inner)); err := err inner;
                   asked := asked inner |}).
  { rewrite (parseField_nested ss field (VPtr None) elem C R).
    rewrite foundDefaultTagError_spec, D.
    unfold outer, innerRecord, allocated. rewrite T. reflexivity. }
  split; [exact E |]. split; [reflexivity |].
  rewrite E. cbn [err val]. intros ->. now split.
Qed.

(** C9. A nested-record field that is a nil reference and carries a
    default annotation is allocated before the annotation is checked:
    the call returns the usage error and leaves the field pointing to a
    zero record. *)
Theorem nil_reference_allocated_before_default_check (ss : structStack)
    (field : StructField) (m : methods) (elem : rtype) :
  Type_ field = PtrTo m elem ->
  isNested field = true ->
  snd (Tag.Lookup (Tag field) "default") = true ->
  parseField ss field (VPtr None)
  = {| val := VPtr (Some (zero elem));
       err := Some (InvalidFieldError (Name field)
                      "default tag is not supported for nested structs.");
       asked := [] |}
  /\ val (parseField ss field (VPtr None)) <> VPtr None.
Proof.
  intros T N D. destruct (isNested_inv field N) as (C & elem' & R).
  assert (E : parseField ss field (VPtr None)
              = {| val := VPtr (Some (zero elem));
                   err := Some (defaultTagError field); asked := [] |}).
  { rewrite (parseField_nested ss field (VPtr None) elem' C R).
    rewrite foundDefaultTagError_spec, D.
    unfold allocated. rewrite T. reflexivity. }
  split; [exact E |]. rewrite E. discriminate.
Qed.

End nested.

(* ------------------------------------------------------------------ *)
(** ** The report of a call *)

Section report.

Context `{Platform}.

(** On a pointer to a struct that is not nil the entry point returns
    what [parseStruct] returns on the initial stack. *)
Lemma ParseWithConfig_valid (pm : methods) (name : string) (m : methods)
    (fields : list StructField) (d : value) (config : Config) :
  ParseWithConfig
    (Some (PtrTo pm (StructOf name m fields), VPtr (Some d))) config
  = Return (outer (mkStructField "" [] (PtrTo pm (StructOf name m fields)))
              (parseStruct (topStack config (StructOf name m fields) d))).
Proof. reflexivity. Qed.

Lemma errorsOf_outer (field : StructField) (r : result) :
  errorsOf (outer field r) = errorsOf r.
Proof. unfold outer. destruct (Type_ field); reflexivity. Qed.

Lemma parseStruct_errorsOf (ss : structStack) :
  errorsOf (parseStruct ss)
  = collected (parseField ss) (Type'.Fields (structType ss)) (structVal ss).
Proof.
  unfold parseStruct. rewrite parseStructWith_spec. unfold errorsOf.
  cbn [err]. destruct (collected _ _ _); reflexivity.
Qed.

(** C2, as the code has it. A call on a record [d] of struct type
    returns; every field of every record it walks is visited, whatever
    the earlier fields returned, so the keys asked for are those of all
    leaf fields of the tree in depth-first declaration order, except the
    fields below a nested record that carries a default annotation; the
    call succeeds if and only if no field reported an error, and
    otherwise returns one [ErrorList], never empty, holding the errors of
    the fields in declaration order, with the errors of a nested record
    in the place of its field; three required leaf fields that are not
    set give exactly their three [UnsetVariableError]s in order. *)
Theorem report_collects_every_error (name : string) (m : methods)
    (fields : list StructField) (d : value) (cfg : Config) :
  conforms (StructOf name m fields) d = true ->
  let t := StructOf name m fields in
  let ss := topStack cfg t d in
  let errors := collected (parseField ss) fields d in
  exists r,
    ParseWithConfig (addressOf t d) cfg = Return r
    /\ asked r = reachableKeys (Prefix cfg) t
    /\ (err r = None <-> errors = [])
    /\ (forall e, err r = Some e -> e = ErrorList errors /\ errors <> [])
    /\ (forall ss' field fieldVal elem,
          isNested field = true ->
          snd (Tag.Lookup (Tag field) "default") = false ->
          recordOf (Type_ field) = Some elem ->
          let newSS := push ss' (Tag.Get (Tag field) "envvar") elem
                         (innerRecord field fieldVal) in
          errorsOf (parseField ss' field fieldVal)
          = collected (parseField newSS) (Type'.Fields elem)
              (innerRecord field fieldVal))
    /\ (forall f1 f2 f3 v1 v2 v3,
          fields = [f1; f2; f3] -> d = VStruct [v1; v2; v3] ->
          (forall f, In f fields ->
                     isLeaf f = true
                     /\ snd (Tag.Lookup (Tag f) "default") = false
                     /\ snd (config ss (Prefix cfg ++ keyName f)%string)
                        = false) ->
          err r = Some (ErrorList
                          [UnsetVariableError (Prefix cfg ++ keyName f1);
                           UnsetVariableError (Prefix cfg ++ keyName f2);
                           UnsetVariableError (Prefix cfg ++ keyName f3)])).
Proof.
  intros C t ss errors.
  exists (outer (mkStructField "" [] (PtrTo NoUnmarshalText t))
            (parseStruct ss)).
  split; [reflexivity |].
  assert (E : err (parseStruct ss)
              = match errors with [] => None | _ => Some (ErrorList errors) end).
  { unfold parseStruct. rewrite parseStructWith_spec. cbn [err].
    change (collected _ _ _) with errors. now destruct errors. }
  cbn [outer Type_ asked err].
  split; [| split; [| split; [| split]]].
  - unfold parseStruct.
    destruct (parseField_asked_keys t) as [_ Q].
    apply (Q ss d C).
  - rewrite E. destruct errors; split; intros; congruence.
  - intros e. rewrite E. destruct errors; [discriminate |].
    intros [= <-]. split; [reflexivity | discriminate].
  - intros ss' field fieldVal elem N D R.
    destruct (isNested_inv field N) as (CP & _).
    rewrite (parseField_nested ss' field fieldVal elem CP R).
    rewrite foundDefaultTagError_spec, D, errorsOf_outer.
    apply parseStruct_errorsOf.
  - intros f1 f2 f3 v1 v2 v3 -> -> U.
    assert (Unset : forall f v, In f [f1; f2; f3] ->
              parseField ss f v
              = {| val := v;
                   err := Some (UnsetVariableError (Prefix cfg ++ keyName f));
                   asked := [(Prefix cfg ++ keyName f)%string] |}).
    { intros f v I. destruct (U f I) as (L & D & G).
      now apply parseField_unset. }
    rewrite E. subst errors. unfold collected. cbn [Value'.Fields combine flat_map].
    unfold visit. cbn [fst snd].
    rewrite !Unset by (cbn [In]; tauto). reflexivity.
Qed.

(** C10. A name override that is the empty string behaves as no override
    at all: two fields that differ only in that give the same result on
    every stack and value; a leaf is looked up under the prefix followed
    by the field identifier, and a nested record is walked under the
    prefix unchanged. *)
Theorem empty_override_is_no_override (ss : structStack)
    (withEmpty without : StructField) (fieldVal : value) :
  Name withEmpty = Name without ->
  Type_ withEmpty = Type_ without ->
  Tag.Lookup (Tag withEmpty) "default" = Tag.Lookup (Tag without) "default" ->
  Tag.Lookup (Tag withEmpty) "envvar" = ("", true) ->
  snd (Tag.Lookup (Tag without) "envvar") = false ->
  parseField ss withEmpty fieldVal = parseField ss without fieldVal
  /\ (isLeaf withEmpty = true ->
      asked (parseField ss withEmpty fieldVal)
      = [(envPrefix ss ++ Name withEmpty)%string])
  /\ (isNested withEmpty = true ->
      snd (Tag.Lookup (Tag withEmpty) "default") = false ->
      exists newSS,
        parseField ss withEmpty fieldVal = outer withEmpty (parseStruct newSS)
        /\ envPrefix newSS = envPrefix ss).
Proof.
  intros EN ET ED EE EA.
  assert (G1 : Tag.Get (Tag withEmpty) "envvar" = "").
  { unfold Tag.Get. now rewrite EE. }
  assert (G2 : Tag.Get (Tag without) "envvar" = "").
  { unfold Tag.Get. now rewrite (Lookup_absent _ _ EA). }
  assert (K1 : keyName withEmpty = Name withEmpty).
  { unfold keyName. now rewrite G1. }
  assert (K2 : keyName without = Name withEmpty).
  { unfold keyName. now rewrite G2, EN. }
  split; [| split].
  - destruct (isNested withEmpty) eqn:N.
    + assert (N2 : isNested without = true).
      { unfold isNested in *. now rewrite <- ET. }
      destruct (isNested_inv _ N) as (C1 & elem & R1).
      destruct (isNested_inv _ N2) as (C2 & elem2 & R2).
      rewrite (parseField_nested ss _ fieldVal elem C1 R1).
      rewrite (parseField_nested ss _ fieldVal elem2 C2 R2).
      assert (elem2 = elem) as -> by (rewrite ET in R1; congruence).
      rewrite !foundDefaultTagError_spec, ED, G1, G2.
      unfold defaultTagError, allocated, outer, innerRecord, allocated.
      now rewrite EN, ET.
    + assert (L1 : isLeaf withEmpty = true) by (unfold isLeaf; now rewrite N).
      assert (L2 : isLeaf without = true).
      { unfold isLeaf, isNested in *. now rewrite <- ET. }
      rewrite (parseField_leaf ss _ fieldVal L1), (parseField_leaf ss _ fieldVal L2).
      rewrite K1, K2. unfold parseLeaf. now rewrite ED, ET.
  - intros L. now rewrite (parseField_leaf ss _ fieldVal L), parseLeaf_asked, K1.
  - intros N D. destruct (isNested_inv _ N) as (C1 & elem & R1).
    exists (push ss (Tag.Get (Tag withEmpty) "envvar") elem
              (innerRecord withEmpty fieldVal)).
    rewrite (parseField_nested ss _ fieldVal elem C1 R1).
    rewrite foundDefaultTagError_spec, D. split; [reflexivity |].
    cbn [push envPrefix]. rewrite G1. apply string_app_nil_r.
Qed.

End report.

(* ------------------------------------------------------------------ *)
(** ** [strconv] against the base-10 reading *)

Module strconv_facts.
Import strconv.

Lemma byte_range (c : ascii) : 0 <= byte c < 256.
Proof.
  unfold byte. pose proof (N_ascii_bounded c) as B. lia.
Qed.

(** The test of the fast path of [Atoi], [ch - '0' > 9] on bytes, is the
    test for a digit. *)
Lemma atoi_digit_test (c : ascii) :
  ((byte c - byte "0") mod 256 >? 9) = negb (isDigit c)
  /\ (isDigit c = true -> (byte c - byte "0") mod 256 = byte c - byte "0").
Proof.
  pose proof (byte_range c) as B. unfold isDigit.
  change (byte "0") with 48. change (byte "9") with 57.
  destruct (Z.leb_spec 48 (byte c)) as [L | L].
  - rewrite (Z.mod_small (byte c - 48) 256) by lia.
    destruct (Z.leb_spec (byte c) 57) as [U | U]; cbn [andb negb].
    + split; [| reflexivity]. rewrite Z.gtb_ltb. apply Z.ltb_ge. lia.
    + split; [| discriminate]. rewrite Z.gtb_ltb. apply Z.ltb_lt. lia.
  - cbn [andb negb]. split; [| discriminate].
    replace ((byte c - 48) mod 256) with (byte c - 48 + 256).
    + rewrite Z.gtb_ltb. apply Z.ltb_lt. lia.
    + apply (Z.mod_unique _ _ (-1)); lia.
Qed.

Lemma atoiLoop_spec (s0 s : string) :
  forall n,
    atoiLoop s0 s n
    = match digitsValue s n with
      | Some m => (m, None)
      | None => (0, Some (syntaxError "Atoi" s0))
      end.
Proof.
  induction s as [| c s IH]; intros n; [reflexivity |].
  cbn [atoiLoop digitsValue].
  destruct (atoi_digit_test c) as [T V]. rewrite T.
  destruct (isDigit c); cbn [negb]; [| reflexivity].
  rewrite IH, V; reflexivity.
Qed.

Lemma digit_range (c : ascii) :
  isDigit c = true -> 0 <= byte c - byte "0" <= 9.
Proof.
  unfold isDigit. change (byte "0") with 48. change (byte "9") with 57.
  intros D. apply andb_prop in D as [L U].
  apply Z.leb_le in L. apply Z.leb_le in U. lia.
Qed.

(** Digits only add to the accumulator, and at most a power of ten. *)
Lemma digitsValue_bounds (s : string) :
  forall n m,
    0 <= n -> digitsValue s n = Some m ->
    n * 10 ^ len s <= m < (n + 1) * 10 ^ len s.
Proof.
  unfold len. induction s as [| c s IH]; intros n m N E.
  - simpl in E. injection E as <-. simpl. lia.
  - cbn [digitsValue] in E. destruct (isDigit c) eqn:D; [| discriminate].
    pose proof (digit_range c D) as R.
    apply IH in E; [| lia].
    cbn [String.length]. rewrite Nat2Z.inj_succ, Z.pow_succ_r by lia.
    pose proof (Z.pow_pos_nonneg 10 (Z.of_nat (String.length s))) as P.
    nia.
Qed.

Lemma strconv_facts_nonneg (c : ascii) (s : string) (m : Z) :
  decimalUint (String.String c s) = Some m -> 0 <= m.
Proof.
  unfold decimalUint. intros D. apply digitsValue_bounds in D; [| lia].
  pose proof (Z.pow_pos_nonneg 10 (len (String.String c s))) as Q.
  unfold len in *. nia.
Qed.

(** The loop of [ParseUint] on a [uint64] accumulator: it returns the
    value of the digits when that fits 64 bits, a range error as soon as
    it does not, and a syntax error at a byte that is not a digit. *)
Lemma parseUintLoop_cases (s0 s : string) :
  forall n,
    0 <= n <= maxUint64 ->
    (exists m, digitsValue s n = Some m /\ m <= maxUint64
               /\ parseUintLoop s0 maxUint64 s n = (m, None))
    \/ (parseUintLoop s0 maxUint64 s n
        = (maxUint64, Some (rangeError "ParseUint" s0))
        /\ forall m, digitsValue s n = Some m -> maxUint64 < m)
    \/ (parseUintLoop s0 maxUint64 s n
        = (0, Some (syntaxError "ParseUint" s0))
        /\ digitsValue s n = None).
Proof.
  induction s as [| c s IH]; intros n N.
  - left. exists n. repeat split; [lia].
  - cbn [parseUintLoop digitsValue]. fold (isDigit c).
    destruct (isDigit c) eqn:D; [| right; right; now split].
    pose proof (digit_range c D) as R.
    assert (M : maxUint64 = 18446744073709551615) by reflexivity.
    assert (P : 2 ^ 64 = 18446744073709551616) by reflexivity.
    replace (maxUint64 / 10 + 1) with 1844674407370955162 by reflexivity.
    destruct (Z.ltb_spec n 1844674407370955162) as [Lt | Ge].
    + replace (n >=? 1844674407370955162) with false
        by (symmetry; rewrite Z.geb_leb; apply Z.leb_gt; lia).
      rewrite (Z.mod_small (n * 10)) by lia.
      set (d := byte c - byte "0") in *.
      destruct (Z.ltb_spec (n * 10 + d) (2 ^ 64)) as [Fit | Over].
      * rewrite (Z.mod_small (n * 10 + d)) by lia.
        replace (n * 10 + d <? n * 10) with false
          by (symmetry; apply Z.ltb_ge; lia).
        replace (n * 10 + d >? maxUint64) with false
          by (symmetry; rewrite Z.gtb_ltb; apply Z.ltb_ge; lia).
        cbn [orb]. apply IH. lia.
      * replace ((n * 10 + d) mod 2 ^ 64) with (n * 10 + d - 2 ^ 64)
          by (apply (Z.mod_unique _ _ 1); lia).
        replace (n * 10 + d - 2 ^ 64 <? n * 10) with true
          by (symmetry; apply Z.ltb_lt; lia).
        cbn [orb]. right. left. split; [reflexivity |].
        intros m E. apply digitsValue_bounds in E; [| lia].
        pose proof (Z.pow_pos_nonneg 10 (len s)) as Q.
        unfold len in *. nia.
    + replace (n >=? 1844674407370955162) with true
        by (symmetry; rewrite Z.geb_leb; apply Z.leb_le; lia).
      right. left. split; [reflexivity |].
      intros m E. apply digitsValue_bounds in E; [| lia].
      pose proof (Z.pow_pos_nonneg 10 (len s)) as Q.
      unfold len in *. nia.
Qed.

(** [ParseUint(s, 10, 64)] and [ParseUint(s, 10, 0)] against the base-10
    reading. *)
Lemma ParseUint_cases (s : string) (bitSize : Z) :
  bitSize = 64 \/ bitSize = 0 ->
  (exists m, decimalUint s = Some m /\ m <= maxUint64
             /\ ParseUint s bitSize = (m, None))
  \/ (ParseUint s bitSize = (maxUint64, Some (rangeError "ParseUint" s))
      /\ forall m, decimalUint s = Some m -> maxUint64 < m)
  \/ (ParseUint s bitSize = (0, Some (syntaxError "ParseUint" s))
      /\ decimalUint s = None).
Proof.
  intros B. destruct s as [| c s]; [right; right; now split |].
  unfold ParseUint, decimalUint.
  replace (2 ^ (if bitSize =? 0 then IntSize else bitSize) - 1)
    with maxUint64 by (destruct B as [-> | ->]; reflexivity).
  apply parseUintLoop_cases. unfold maxUint64. lia.
Qed.

(** [ParseInt(s, 10, 0)] against the base-10 reading. *)
Lemma ParseInt_cases (s : string) :
  (exists n, decimalInt s = Some n /\ fitsInt64 n
             /\ ParseInt s 0 = (n, None))
  \/ (exists i, ParseInt s 0 = (i, Some (rangeError "ParseInt" s))
                /\ forall n, decimalInt s = Some n -> ~ fitsInt64 n)
  \/ (ParseInt s 0 = (0, Some (syntaxError "ParseInt" s))
      /\ decimalInt s = None).
Proof.
  unfold fitsInt64.
  assert (M : maxUint64 = 18446744073709551615) by reflexivity.
  assert (P : 2 ^ 63 = 9223372036854775808) by reflexivity.
  destruct s as [| c s]; [right; right; now split |].
  unfold ParseInt, decimalInt.
  change (2 ^ ((if 0 =? 0 then IntSize else 0) - 1)) with (2 ^ 63).
  destruct (Ascii.eqb c "+") eqn:Plus;
    [| destruct (Ascii.eqb c "-") eqn:Minus].
  - destruct (ParseUint_cases s 0 (or_intror eq_refl))
      as [(m & D & Fit & ->) | [(-> & Over) | (-> & D)]].
    + rewrite D. cbn [negb andb].
      assert (0 <= m).
      { destruct s; [discriminate D |].
        apply strconv_facts_nonneg in D. exact D. }
      destruct (Z.leb_spec (2 ^ 63) m) as [Big | Small].
      * replace (m >=? 2 ^ 63) with true
          by (symmetry; rewrite Z.geb_leb; now apply Z.leb_le).
        right. left. eexists. split; [reflexivity |].
        intros n [= <-]. lia.
      * replace (m >=? 2 ^ 63) with false
          by (symmetry; rewrite Z.geb_leb; now apply Z.leb_gt).
        left. exists m. repeat split; lia.
    + cbn [negb andb]. rewrite M.
      replace (18446744073709551615 >=? 2 ^ 63) with true by reflexivity.
      right. left. eexists. split; [reflexivity |].
      intros n D. apply Over in D. lia.
    + right. right. now split.
  - destruct (ParseUint_cases s 0 (or_intror eq_refl))
      as [(m & D & Fit & ->) | [(-> & Over) | (-> & D)]].
    + rewrite D. cbn [negb andb option_map].
      assert (0 <= m).
      { destruct s; [discriminate D |].
        apply strconv_facts_nonneg in D. exact D. }
      destruct (Z.leb_spec m (2 ^ 63)) as [Small | Big].
      * replace (m >? 2 ^ 63) with false
          by (symmetry; rewrite Z.gtb_ltb; now apply Z.ltb_ge).
        left. exists (- m). repeat split; lia.
      * replace (m >? 2 ^ 63) with true
          by (symmetry; rewrite Z.gtb_ltb; now apply Z.ltb_lt).
        right. left. eexists. split; [reflexivity |].
        intros n [= <-]. lia.
    + cbn [negb andb]. rewrite M.
      replace (18446744073709551615 >? 2 ^ 63) with true by reflexivity.
      right. left. eexists. split; [reflexivity |].
      intros n D. destruct (decimalUint s) as [m |]; [| discriminate D].
      injection D as <-. specialize (Over m eq_refl). lia.
    + rewrite D. right. right. now split.
  - destruct (ParseUint_cases (String.String c s) 0 (or_intror eq_refl))
      as [(m & D & Fit & ->) | [(-> & Over) | (-> & D)]].
    + rewrite D. cbn [negb andb].
      assert (0 <= m) by (apply strconv_facts_nonneg in D; exact D).
      destruct (Z.leb_spec (2 ^ 63) m) as [Big | Small].
      * replace (m >=? 2 ^ 63) with true
          by (symmetry; rewrite Z.geb_leb; now apply Z.leb_le).
        right. left. eexists. split; [reflexivity |].
        intros n [= <-]. lia.
      * replace (m >=? 2 ^ 63) with false
          by (symmetry; rewrite Z.geb_leb; now apply Z.leb_gt).
        left. exists m. repeat split; lia.
    + cbn [negb andb]. rewrite M.
      replace (18446744073709551615 >=? 2 ^ 63) with true by reflexivity.
      right. left. eexists. split; [reflexivity |].
      intros n D. apply Over in D. lia.
    + right. right. now split.
Qed.

Lemma len_cons (c : ascii) (s : string) : len (String.String c s) = len s + 1.
Proof. unfold len. cbn [String.length]. lia. Qed.

(** [Atoi] against the base-10 reading: the value when the text is a
    numeral that fits 64 bits, a range error when it is one that does
    not, and an error in every other case. *)
Lemma Atoi_cases (s : string) :
  (exists n, decimalInt s = Some n /\ fitsInt64 n /\ Atoi s = (n, None))
  \/ (exists i, Atoi s = (i, Some (NumError "Atoi" s ErrRange))
                /\ forall n, decimalInt s = Some n -> ~ fitsInt64 n)
  \/ (Atoi s = (0, Some (NumError "Atoi" s ErrSyntax))
      /\ decimalInt s = None).
Proof.
  unfold Atoi.
  destruct ((0 <? len s) && (len s <? 19)) eqn:Fast.
  - apply andb_prop in Fast as [Pos Short].
    apply Z.ltb_lt in Pos. apply Z.ltb_lt in Short.
    destruct s as [| c s]; [right; right; now split |].
    rewrite len_cons in Short.
    assert (Small : forall t m, len t <= 18 -> digitsValue t 0 = Some m ->
                                0 <= m < 10 ^ 18).
    { intros t m Lt D. apply digitsValue_bounds in D; [| lia].
      pose proof (Z.pow_le_mono_r 10 (len t) 18) as Q.
      unfold len in *. lia. }
    assert (P : 2 ^ 63 = 9223372036854775808) by reflexivity.
    assert (T : 10 ^ 18 = 1000000000000000000) by reflexivity.
    unfold decimalInt, fitsInt64.
    destruct (Ascii.eqb c "-") eqn:Minus.
    + replace (Ascii.eqb c "+") with false
        by (apply Ascii.eqb_eq in Minus; now subst c).
      cbn [orb andb]. destruct s as [| c' s].
      * right. right. now split.
      * rewrite len_cons. replace (len s + 1 <? 1) with false
          by (symmetry; apply Z.ltb_ge; unfold len; lia).
        rewrite atoiLoop_spec. unfold decimalUint.
        destruct (digitsValue (String.String c' s) 0) as [m |] eqn:D.
        -- apply Small in D; [| lia]. left. exists (- m).
           cbn [option_map]. repeat split; lia.
        -- right. right. now split.
    + destruct (Ascii.eqb c "+") eqn:Plus.
      * cbn [orb andb]. destruct s as [| c' s].
        -- right. right. now split.
        -- rewrite len_cons. replace (len s + 1 <? 1) with false
             by (symmetry; apply Z.ltb_ge; unfold len; lia).
           rewrite atoiLoop_spec. unfold decimalUint.
           destruct (digitsValue (String.String c' s) 0) as [m |] eqn:D.
           ++ apply Small in D; [| lia]. left. exists m. repeat split; lia.
           ++ right. right. now split.
      * cbn [orb andb]. rewrite atoiLoop_spec. unfold decimalUint.
        destruct (digitsValue (String.String c s) 0) as [m |] eqn:D.
        -- apply Small in D; [| rewrite len_cons; lia].
           left. exists m. repeat split; lia.
        -- right. right. now split.
  - destruct (ParseInt_cases s)
      as [(n & D & Fit & ->) | [(i & -> & Over) | (-> & D)]].
    + left. exists n. split; [exact D | split; [exact Fit | reflexivity]].
    + right. left. exists i. split; [reflexivity | exact Over].
    + right. right. split; [reflexivity | exact D].
Qed.

End strconv_facts.

(* ------------------------------------------------------------------ *)
(** ** Value converter: integers *)

Section integers.

Context `{Platform}.

(** The conversion of integer fields, which C5 is about, as the code has
    it. An integer field without a custom parser
    (and, for a signed one, not a [time.Duration]) is parsed in base 10 at
    64 bits whatever its width: the conversion fails with
    [InvalidVariableError] when the text is not a numeral (for an unsigned
    field a sign makes it so, negative numbers included) or when the
    number does not fit 64 bits; otherwise it succeeds and stores the
    number reduced to the width of the field, which is the number itself
    when it fits that width. *)
Theorem integer_conversion_checks_64_bits (structField : Value)
    (name raw : string) (w : Z) :
  cleverMaybeTextUnmarshaler structField = None ->
  let fails :=
    exists cause,
      setFieldVal structField name raw
      = (data structField, Some (InvalidVariableError name raw cause)) in
  (intWidth (Value'.Kind structField) = Some w ->
   isDuration (Type_of structField) = false ->
   (decimalInt raw = None -> fails)
   /\ (forall n, decimalInt raw = Some n -> ~ fitsInt64 n -> fails)
   /\ (forall n, decimalInt raw = Some n -> fitsInt64 n ->
         setFieldVal structField name raw = (VInt (Value'.int w n), None))
   /\ (forall n, - 2 ^ (w - 1) <= n < 2 ^ (w - 1) -> Value'.int w n = n))
  /\ (uintWidth (Value'.Kind structField) = Some w ->
      (decimalUint raw = None -> fails)
      /\ (forall rest, raw = String.String "-" rest -> fails)
      /\ (forall n, decimalUint raw = Some n -> 2 ^ 64 <= n -> fails)
      /\ (forall n, decimalUint raw = Some n -> n < 2 ^ 64 ->
            setFieldVal structField name raw
            = (VUint (Value'.uint w n), None))
      /\ (forall n, 0 <= n < 2 ^ w -> Value'.uint w n = n)).
Proof.
  intros C fails.
  assert (S : setUnmarshFieldVal structField name raw
              = (data structField, (false, None))).
  { unfold setUnmarshFieldVal. now rewrite C. }
  split.
  - intros W D.
    assert (E : setFieldVal structField name raw
                = let '(vInt, err) := strconv.Atoi raw in
                  match err with
                  | Some err =>
                      (data structField,
                       Some (InvalidVariableError name raw err))
                  | None => (VInt (Value'.int w vInt), None)
                  end).
    { unfold setFieldVal. rewrite S, D. unfold Value'.SetInt.
      destruct (Value'.Kind structField); try discriminate W;
        injection W as <-; reflexivity. }
    subst fails. cbv zeta. rewrite E.
    destruct (strconv_facts.Atoi_cases raw)
      as [(n & Dn & Fit & ->) | [(i & -> & Over) | (-> & Dn)]].
    + repeat split.
      * intros N. congruence.
      * intros n' N Out. exfalso. apply Out. congruence.
      * intros n' N _. congruence.
      * intros n' R. unfold Value'.int.
        destruct (Value'.Kind structField); try discriminate W;
          injection W as <-; rewrite Z.mod_small; lia.
    + repeat split.
      * intros _. eexists. reflexivity.
      * intros n' _ _. eexists. reflexivity.
      * intros n' N Fit. exfalso. exact (Over n' N Fit).
      * intros n' R. unfold Value'.int.
        destruct (Value'.Kind structField); try discriminate W;
          injection W as <-; rewrite Z.mod_small; lia.
    + repeat split.
      * intros _. eexists. reflexivity.
      * intros n' _ _. eexists. reflexivity.
      * intros n' N. congruence.
      * intros n' R. unfold Value'.int.
        destruct (Value'.Kind structField); try discriminate W;
          injection W as <-; rewrite Z.mod_small; lia.
  - intros W.
    assert (E : setFieldVal structField name raw
                = let '(vUint, err) := strconv.ParseUint raw 64 in
                  match err with
                  | Some err =>
                      (data structField,
                       Some (InvalidVariableError name raw err))
                  | None => (VUint (Value'.uint w vUint), None)
                  end).
    { unfold setFieldVal. rewrite S. unfold Value'.SetUint.
      destruct (Value'.Kind structField); try discriminate W;
        injection W as <-; reflexivity. }
    subst fails. cbv zeta. rewrite E.
    assert (M : strconv.maxUint64 = 2 ^ 64 - 1) by reflexivity.
    assert (U : forall n', 0 <= n' < 2 ^ w -> Value'.uint w n' = n').
    { intros n' R. unfold Value'.uint. now apply Z.mod_small. }
    assert (Neg : forall rest, raw = String.String "-" rest ->
                               decimalUint raw = None).
    { intros rest ->. reflexivity. }
    destruct (strconv_facts.ParseUint_cases raw 64 (or_introl eq_refl))
      as [(n & Dn & Fit & ->) | [(-> & Over) | (-> & Dn)]].
    + repeat split; try exact U.
      * intros N. congruence.
      * intros rest R. apply Neg in R. congruence.
      * intros n' N Out. exfalso. assert (n' = n) by congruence. lia.
      * intros n' N _. congruence.
    + repeat split; try exact U.
      * intros _. eexists. reflexivity.
      * intros rest _. eexists. reflexivity.
      * intros n' _ _. eexists. reflexivity.
      * intros n' N Fit. exfalso. apply Over in N. lia.
    + repeat split; try exact U.
      * intros _. eexists. reflexivity.
      * intros rest _. eexists. reflexivity.
      * intros n' _ _. eexists. reflexivity.
      * intros n' N. congruence.
Qed.

End integers.

(* ------------------------------------------------------------------ *)
(** ** The argument of the entry point *)

Section argument.

Context `{Platform}.

(** A typed argument that is not a pointer to a struct, or that is a nil
    pointer to one, is refused with one [InvalidArgumentError]; no key is
    asked for and the argument is left as it was. *)
Lemma ParseWithConfig_not_pointer_to_struct (typ : rtype) (d : value)
    (cfg : Config) :
  (notPointerToStruct typ = true ->
   ParseWithConfig (Some (typ, d)) cfg
   = Return {| val := d;
               err := Some (InvalidArgumentError
                              ("Error in Parse: type must be a pointer to a struct. Got: "
                                 ++ Type'.String typ));
               asked := [] |})
  /\ (notPointerToStruct typ = false -> Value'.IsNil d = true ->
      ParseWithConfig (Some (typ, d)) cfg
      = Return {| val := d;
                  err := Some (InvalidArgumentError
                                 "Error in Parse: argument cannot be nil");
                  asked := [] |}).
Proof.
  unfold notPointerToStruct.
  destruct typ as [k n m | n m fields
                  | m [k n m' | n m' fields | m' e | n' declares' held']
                  | n declares held];
    split; intros A; try intros B; try destruct k;
    try discriminate A; try reflexivity.
  cbn [ParseWithConfig]. now rewrite B.
Qed.

(** The typed arguments that pass the first test are the pointers to a
    struct type. *)
Lemma notPointerToStruct_false (typ : rtype) :
  notPointerToStruct typ = false ->
  exists m name sm fields, typ = PtrTo m (StructOf name sm fields).
Proof.
  unfold notPointerToStruct. intros N.
  apply orb_false_elim in N as [P S].
  apply negb_false_iff, Kind_eqb_eq in P.
  destruct (Kind_Ptr_inv typ P) as (m & elem & ->). cbn [Type'.Elem] in S.
  apply negb_false_iff, Kind_eqb_eq in S.
  destruct (Kind_Struct_inv elem S) as (name & sm & fields & ->).
  now exists m, name, sm, fields.
Qed.

(** C7 at the input the code misses: the nil interface. [reflect.TypeOf]
    gives the nil [Type] for it, and the call of [Kind] on that panics
    before the test that would refuse the argument: neither
    [ParseWithConfig] nor [Parse] returns an error, or anything. *)
Theorem untyped_nil_argument_panics (cfg : Config) :
  ParseWithConfig None cfg
  = Panic "runtime error: invalid memory address or nil pointer dereference"
  /\ (forall r, ParseWithConfig None cfg <> Return r)
  /\ Parse None = ParseWithConfig None cfg.
Proof.
  split; [reflexivity |]. split; [| reflexivity].
  intros r E. discriminate E.
Qed.

End argument.

(* ------------------------------------------------------------------ *)
(** ** Induction along the walk of [parseField] *)

Section walk_induction.

Context `{Platform}.

Variable P : structStack -> StructField -> value -> result -> Prop.

Hypothesis P_leaf : forall ss field fieldVal,
    isLeaf field = true ->
    P ss field fieldVal (parseLeaf ss field fieldVal (keyName field)).

Hypothesis P_default : forall ss field fieldVal,
    isNested field = true ->
    snd (Tag.Lookup (Tag field) "default") = true ->
    P ss field fieldVal
      {| val := allocated field fieldVal;
         err := Some (defaultTagError field); asked := [] |}.

Hypothesis P_nested : forall ss field fieldVal elem,
    isNested field = true ->
    snd (Tag.Lookup (Tag field) "default") = false ->
    recordOf (Type_ field) = Some elem ->
    let newSS := push ss (Tag.Get (Tag field) "envvar") elem
                   (innerRecord field fieldVal) in
    (forall f v,
        In (f, v) (combine (Type'.Fields elem)
                     (Value'.Fields (innerRecord field fieldVal))) ->
        P newSS f v (parseField newSS f v)) ->
    P ss field fieldVal (outer field (parseStruct newSS)).

(** What holds of a leaf, of a refused nested record, and of a nested
    record once it holds of the fields walked below it, holds of every
    call of [parseField]. *)
Lemma parseField_walk_ind (ss : structStack) (field : StructField)
    (fieldVal : value) :
  P ss field fieldVal (parseField ss field fieldVal).
Proof.
  assert (W : forall t,
             (forall name tag ss v,
                 P ss (mkStructField name tag t) v
                   (parseField ss (mkStructField name tag t) v))
             /\ (forall f, In f (Type'.Fields t) ->
                           forall ss v, P ss f v (parseField ss f v))).
  { assert (step : forall t name tag ss v,
               (forall elem, recordOf t = Some elem ->
                             forall f, In f (Type'.Fields elem) ->
                                       forall ss v, P ss f v (parseField ss f v)) ->
               P ss (mkStructField name tag t) v
                 (parseField ss (mkStructField name tag t) v)).
    { intros t name tag ss0 v Below.
      destruct (isNested (mkStructField name tag t)) eqn:N.
      - destruct (isNested_inv _ N) as (C & elem & R).
        rewrite (parseField_nested ss0 _ v elem C R), foundDefaultTagError_spec.
        destruct (snd (Tag.Lookup (Tag (mkStructField name tag t)) "default"))
          eqn:D.
        + now apply P_default.
        + apply (P_nested ss0 _ v elem N D R).
          intros f v' I. apply (Below elem R f).
          exact (in_combine_l _ _ _ _ I).
      - assert (L : isLeaf (mkStructField name tag t) = true)
          by (unfold isLeaf; now rewrite N).
        rewrite (parseField_leaf ss0 _ v L). now apply P_leaf. }
    induction t as [k n m | n m fields IH | m elem IH | n declares held]
      using rtype_fields_ind.
    - split; [| intros f []].
      intros name tag ss0 v. apply step.
      intros elem R. destruct (recordOf_inv _ _ R) as (? & ? & ? & -> & [E | [? E]]);
        discriminate E.
    - assert (Q : forall f, In f fields ->
                            forall ss v, P ss f v (parseField ss f v)).
      { intros f I. rewrite Forall_forall in IH.
        destruct (IH f I) as [Pf _]. destruct f as [fn ft fty]. apply Pf. }
      split; [| exact Q].
      intros name tag ss0 v. apply step.
      intros elem R.
      destruct (recordOf_inv _ _ R) as (? & ? & ? & -> & [E | [? E]]);
        [| discriminate E].
      injection E as -> -> ->. exact Q.
    - destruct IH as [_ Q]. split; [| intros f []].
      intros name tag ss0 v. apply step.
      intros e R.
      destruct (recordOf_inv _ _ R) as (? & ? & ? & -> & [E | [? E]]);
        [discriminate E |].
      injection E as -> ->. exact Q.
    - split; [| intros f []].
      intros name tag ss0 v. apply step.
      intros elem R. destruct (recordOf_inv _ _ R) as (? & ? & ? & -> & [E | [? E]]);
        discriminate E. }
  destruct field as [name tag t]. apply (proj1 (W t)).
Qed.

End walk_induction.

(* ------------------------------------------------------------------ *)
(** ** What a call asks for and what its report holds *)

Lemma prefix_app (p s : string) : String.prefix p (p ++ s) = true.
Proof.
  induction p as [| c p IH]; simpl; [now destruct s |].
  destruct (ascii_dec c c) as [_ | N]; [exact IH | now destruct N].
Qed.

Lemma prefix_app_l (p q s : string) :
  String.prefix (p ++ q) s = true -> String.prefix p s = true.
Proof.
  revert s. induction p as [| c p IH]; intros s E; [now destruct s |].
  destruct s as [| c' s]; [discriminate E |]. simpl in E |- *.
  destruct (ascii_dec c c'); [now apply IH | discriminate E].
Qed.

Section report_facts.

Context `{Platform}.

(** The outcomes of the entry point on a typed argument: a refusal that
    touches nothing, or the walk of the record the argument points to. *)
Lemma ParseWithConfig_cases (typ : rtype) (d : value) (cfg : Config)
    (r : result) :
  ParseWithConfig (Some (typ, d)) cfg = Return r ->
  (asked r = [] /\ val r = d
   /\ exists msg, err r = Some (InvalidArgumentError msg))
  \/ (exists m name sm fields,
         typ = PtrTo m (StructOf name sm fields)
         /\ Value'.IsNil d = false
         /\ r = outer (mkStructField "" [] typ)
                  (parseStruct (topStack cfg (StructOf name sm fields)
                                  (Value'.Elem d)))).
Proof.
  intros E.
  destruct (notPointerToStruct typ) eqn:N.
  - rewrite (proj1 (ParseWithConfig_not_pointer_to_struct typ d cfg) N) in E.
    injection E as <-. left. repeat split. now eexists.
  - destruct (Value'.IsNil d) eqn:Nil.
    + rewrite (proj2 (ParseWithConfig_not_pointer_to_struct typ d cfg) N Nil)
        in E.
      injection E as <-. left. repeat split. now eexists.
    + destruct (notPointerToStruct_false typ N) as (m & name & sm & fields & ->).
      right. exists m, name, sm, fields. split; [reflexivity |].
      split; [reflexivity |].
      cbn [ParseWithConfig] in E. rewrite Nil in E. now injection E as <-.
Qed.

Lemma asked_outer (field : StructField) (r : result) :
  asked (outer field r) = asked r.
Proof. unfold outer. destruct (Type_ field); reflexivity. Qed.

Lemma err_outer (field : StructField) (r : result) :
  err (outer field r) = err r.
Proof. unfold outer. destruct (Type_ field); reflexivity. Qed.

Lemma parseStruct_asked (ss : structStack) :
  asked (parseStruct ss)
  = flat_map (fun fv => asked (visit (parseField ss) fv))
      (combine (Type'.Fields (structType ss)) (Value'.Fields (structVal ss))).
Proof. unfold parseStruct. now rewrite parseStructWith_spec. Qed.

Lemma parseStruct_err (ss : structStack) :
  err (parseStruct ss)
  = match errorsOf (parseStruct ss) with
    | [] => None
    | errors => Some (ErrorList errors)
    end.
Proof.
  rewrite parseStruct_errorsOf. unfold parseStruct.
  now rewrite parseStructWith_spec.
Qed.

(** Every key [parseField] asks for starts with the prefix of the stack. *)
Lemma parseField_asked_prefix (ss : structStack) (field : StructField)
    (fieldVal : value) (k : string) :
  In k (asked (parseField ss field fieldVal)) ->
  String.prefix (envPrefix ss) k = true.
Proof.
  revert k.
  apply (parseField_walk_ind
           (fun ss _ _ r => forall k, In k (asked r) ->
                                      String.prefix (envPrefix ss) k = true)).
  - intros ss0 f v _ k. rewrite parseLeaf_asked.
    intros [<- | []]. apply prefix_app.
  - intros ss0 f v _ _ k [].
  - intros ss0 f v elem _ _ _ newSS IH k. rewrite asked_outer, parseStruct_asked.
    intros I. apply in_flat_map in I as ([f' v'] & I & K).
    apply (prefix_app_l _ (Tag.Get (Tag f) "envvar")).
    exact (IH f' v' I k K).
Qed.

(** X1. Every key a call asks [Getenv] for starts with the prefix of its
    [Config]. *)
Theorem asked_keys_start_with_the_prefix (v : option (rtype * value))
    (cfg : Config) (r : result) (k : string) :
  ParseWithConfig v cfg = Return r ->
  In k (asked r) ->
  String.prefix (Prefix cfg) k = true.
Proof.
  destruct v as [[typ d] |]; [| discriminate].
  intros E I.
  destruct (ParseWithConfig_cases typ d cfg r E)
    as [(A & _) | (m & name & sm & fields & -> & _ & ->)].
  - rewrite A in I. destruct I.
  - rewrite asked_outer, parseStruct_asked in I.
    apply in_flat_map in I as ([f' v'] & _ & K).
    exact (parseField_asked_prefix _ f' v' k K).
Qed.

(** What [setFieldVal] can return as an error. *)
Lemma setFieldVal_error_shape (structField : Value) (name raw : string)
    (e : error) :
  snd (setFieldVal structField name raw) = Some e ->
  (exists cause, e = InvalidVariableError name raw cause)
  \/ (exists msg, e = InvalidFieldError name msg).
Proof.
  unfold setFieldVal, setUnmarshFieldVal.
  destruct (cleverMaybeTextUnmarshaler structField) as [m |].
  - destruct (m raw (data structField)) as [d [c |]]; cbn [snd];
      [intros [= <-]; left; now eexists | discriminate].
  - destruct (Value'.Kind structField);
      try (cbn [snd]; intros [= <-]; right; now eexists);
      try destruct (isDuration _);
      try destruct (time_ParseDuration raw) as [? [? |]];
      try destruct (strconv.Atoi raw) as [? [? |]];
      try destruct (strconv.ParseUint raw 64) as [? [? |]];
      try destruct (strconv_ParseFloat raw 64) as [? [? |]];
      try destruct (strconv.ParseBool raw) as [? [? |]];
      cbn [snd]; try discriminate; intros [= <-]; left; now eexists.
Qed.

(** The error of a leaf, against the lookup. *)
Lemma parseLeaf_error (ss : structStack) (field : StructField)
    (fieldVal : value) (varName : string) (e : error) :
  err (parseLeaf ss field fieldVal varName) = Some e ->
  let key := (envPrefix ss ++ varName)%string in
  (e = UnsetVariableError key /\ snd (config ss key) = false)
  \/ ((exists cause raw,
          e = InvalidVariableError key raw cause
          /\ (config ss key = (raw, true) \/ snd (config ss key) = false))
      \/ exists msg, e = InvalidFieldError key msg).
Proof.
  unfold parseLeaf. intros E. cbv zeta in E |- *.
  set (key := (envPrefix ss ++ varName)%string) in *.
  destruct (Tag.Lookup (Tag field) "default") as [dv df].
  destruct (config ss key) as [ev found] eqn:G.
  assert (S : forall raw,
             (found = true -> raw = ev) ->
             snd (setFieldVal (mkValue (Type_ field) fieldVal true) key raw)
             = Some e ->
             (exists cause raw0,
                 e = InvalidVariableError key raw0 cause
                 /\ ((ev, found) = (raw0, true) \/ snd (ev, found) = false))
             \/ exists msg, e = InvalidFieldError key msg).
  { intros raw Hraw Se.
    destruct (setFieldVal_error_shape _ _ _ _ Se) as [[c ->] | [msg ->]].
    - left. exists c, raw. split; [reflexivity |].
      destruct found; [left; now rewrite (Hraw eq_refl) | now right].
    - right. now exists msg. }
  destruct found.
  - right. apply (S ev); [easy |].
    destruct (setFieldVal _ _ _); exact E.
  - destruct df.
    + right. apply (S dv); [discriminate |].
      destruct (setFieldVal _ _ _); exact E.
    + left. cbn [err] in E. injection E as <-. now split.
Qed.

(** The errors of one call of [parseField] are field-level errors, and
    each is justified by the lookup of a key the call asked for. *)
Lemma parseField_errors (ss : structStack) (field : StructField)
    (fieldVal : value) (e : error) :
  In e (errorsOf (parseField ss field fieldVal)) ->
  fieldLevel e = true
  /\ justified (config ss) (asked (parseField ss field fieldVal)) e.
Proof.
  revert e.
  apply (parseField_walk_ind
           (fun ss _ _ r => forall e, In e (errorsOf r) ->
                                      fieldLevel e = true
                                      /\ justified (config ss) (asked r) e)).
  - intros ss0 f v _ e I. rewrite parseLeaf_asked.
    unfold errorsOf in I.
    destruct (err (parseLeaf ss0 f v (keyName f))) as [e0 |] eqn:E;
      [| destruct I].
    destruct (parseLeaf_error _ _ _ _ _ E)
      as [(-> & U) | [(c & raw & -> & G) | (msg & ->)]];
      destruct I as [<- | []]; cbn [fieldLevel justified];
      repeat split; auto; now left.
  - intros ss0 f v _ _ e [<- | []]. now split.
  - intros ss0 f v elem _ _ _ newSS IH e.
    rewrite errorsOf_outer, parseStruct_errorsOf, asked_outer, parseStruct_asked.
    unfold collected. intros I.
    apply in_flat_map in I as ([f' v'] & I & K).
    destruct (IH f' v' I e K) as [F J]. split; [exact F |].
    assert (Sub : forall k, In k (asked (parseField newSS f' v')) ->
                            In k (flat_map
                                    (fun fv => asked (visit (parseField newSS) fv))
                                    (combine (Type'.Fields (structType newSS))
                                       (Value'.Fields (structVal newSS))))).
    { intros k Ik. apply in_flat_map. now exists (f', v'). }
    destruct e; cbn [justified] in J |- *; trivial;
      destruct J as [Ik G]; (split; [now apply Sub | exact G]).
Qed.

(** X2. What a call returns as an error is either one structural
    [InvalidArgumentError], with nothing asked for and the argument left as
    it was, or one [ErrorList] that is not empty and holds only field-level
    errors: no list within the list, no structural error. *)
Theorem returned_error_is_structural_or_flat_report (typ : rtype) (d : value)
    (cfg : Config) (r : result) (e : error) :
  ParseWithConfig (Some (typ, d)) cfg = Return r ->
  err r = Some e ->
  (exists msg, e = InvalidArgumentError msg /\ asked r = [] /\ val r = d)
  \/ (exists errors,
         e = ErrorList errors /\ errors <> []
         /\ forall e', In e' errors -> fieldLevel e' = true).
Proof.
  intros E Er.
  destruct (ParseWithConfig_cases typ d cfg r E)
    as [(A & V & msg & M) | (m & name & sm & fields & -> & _ & ->)].
  - left. exists msg. rewrite M in Er. injection Er as <-. now repeat split.
  - right. rewrite err_outer, parseStruct_err in Er.
    destruct (errorsOf (parseStruct _)) as [| e0 es] eqn:Es; [discriminate |].
    injection Er as <-. exists (e0 :: es).
    split; [reflexivity |]. split; [discriminate |].
    intros e' I. rewrite <- Es, parseStruct_errorsOf in I. unfold collected in I.
    apply in_flat_map in I as ([f' v'] & _ & K).
    exact (proj1 (parseField_errors _ f' v' e' K)).
Qed.

(** X3. The report does not accuse wrongly: an [UnsetVariableError] names
    a key the call asked for and the environment does not have, and an
    [InvalidVariableError] names a key the call asked for, with the value
    the environment has for it unless it has none (then the value is a
    default). *)
Theorem report_is_justified_by_the_lookups (typ : rtype) (d : value)
    (cfg : Config) (r : result) (errors : list error) (e : error) :
  ParseWithConfig (Some (typ, d)) cfg = Return r ->
  err r = Some (ErrorList errors) ->
  In e errors ->
  justified (lookupOf cfg) (asked r) e.
Proof.
  intros E Er I.
  destruct (ParseWithConfig_cases typ d cfg r E)
    as [(_ & _ & msg & M) | (m & name & sm & fields & -> & _ & ->)].
  - rewrite M in Er. discriminate Er.
  - rewrite err_outer, parseStruct_err in Er.
    destruct (errorsOf (parseStruct _)) as [| e0 es] eqn:Es; [discriminate |].
    injection Er as <-. rewrite <- Es, parseStruct_errorsOf in I.
    unfold collected in I.
    apply in_flat_map in I as ([f' v'] & I & K).
    destruct (parseField_errors _ f' v' e K) as [_ J].
    rewrite asked_outer, parseStruct_asked.
    assert (Sub : forall k, In k (asked (parseField
                                           (topStack cfg (StructOf name sm fields)
                                              (Value'.Elem d)) f' v')) ->
                            In k (flat_map
                                    (fun fv => asked (visit (parseField
                                           (topStack cfg (StructOf name sm fields)
                                              (Value'.Elem d))) fv))
                                    (combine (Type'.Fields (structType
                                           (topStack cfg (StructOf name sm fields)
                                              (Value'.Elem d))))
                                       (Value'.Fields (structVal
                                           (topStack cfg (StructOf name sm fields)
                                              (Value'.Elem d))))))).
    { intros k Ik. apply in_flat_map. now exists (f', v'). }
    destruct e; cbn [justified] in J |- *; trivial;
      destruct J as [Ik G]; (split; [now apply Sub | exact G]).
Qed.

End report_facts.

(* ------------------------------------------------------------------ *)
(** ** The environment a call depends on, and a second call *)

Lemma flat_map_ext_in {A B : Type} (f g : A -> list B) (l : list A) :
  (forall a, In a l -> f a = g a) -> flat_map f l = flat_map g l.
Proof.
  induction l as [| a l IH]; intros E; [reflexivity |].
  cbn [flat_map]. rewrite (E a (or_introl eq_refl)), IH; [reflexivity |].
  intros b I. apply E. now right.
Qed.

(** The loop gives the same result for two ways to set a field that agree
    on the fields it visits. *)
Lemma parseStructWith_ext (pf1 pf2 : StructField -> value -> result)
    (fields : list StructField) (structVal : value) :
  (forall f v, In (f, v) (combine fields (Value'.Fields structVal)) ->
               pf1 f v = pf2 f v) ->
  parseStructWith pf1 fields structVal = parseStructWith pf2 fields structVal.
Proof.
  intros E. rewrite !parseStructWith_spec. unfold collected.
  assert (V : forall fv, In fv (combine fields (Value'.Fields structVal)) ->
                         visit pf1 fv = visit pf2 fv).
  { intros [f v] I. exact (E f v I). }
  f_equal.
  - f_equal. f_equal. apply map_ext_in. intros fv I. now rewrite (V fv I).
  - replace (flat_map (fun fv => errorsOf (visit pf1 fv))
               (combine fields (Value'.Fields structVal)))
      with (flat_map (fun fv => errorsOf (visit pf2 fv))
              (combine fields (Value'.Fields structVal))); [reflexivity |].
    apply flat_map_ext_in. intros fv I. now rewrite (V fv I).
  - apply flat_map_ext_in. intros fv I. now rewrite (V fv I).
Qed.

(** Setting the fields again, from the values the loop left, visits the
    same fields. *)
Lemma combine_after_loop {A B : Type} (g : A * B -> B) (l : list A) :
  forall r : list B,
    combine l (map g (combine l r) ++ skipn (List.length l) r)
    = map (fun ab => (fst ab, g ab)) (combine l r).
Proof.
  induction l as [| a l IH]; intros [| b r]; try reflexivity.
  cbn [combine map skipn List.length app fst]. now rewrite IH.
Qed.

Lemma skipn_after_loop {A B : Type} (g : A * B -> B) (l : list A) :
  forall r : list B,
    skipn (List.length l) (map g (combine l r) ++ skipn (List.length l) r)
    = skipn (List.length l) r.
Proof.
  induction l as [| a l IH]; intros [| b r]; try reflexivity.
  cbn [combine map skipn List.length app]. apply IH.
Qed.

Lemma parseStructWith_again (pf : StructField -> value -> result)
    (fields : list StructField) (structVal : value) :
  (forall f v, In (f, v) (combine fields (Value'.Fields structVal)) ->
               pf f (val (pf f v)) = pf f v) ->
  parseStructWith pf fields (val (parseStructWith pf fields structVal))
  = parseStructWith pf fields structVal.
Proof.
  intros E. rewrite (parseStructWith_spec pf fields structVal).
  rewrite parseStructWith_spec. unfold collected. cbn [val Value'.Fields].
  rewrite combine_after_loop, skipn_after_loop.
  assert (V : forall fv, In fv (combine fields (Value'.Fields structVal)) ->
                         visit pf (fst fv, val (visit pf fv)) = visit pf fv).
  { intros [f v] I. unfold visit. cbn [fst snd]. exact (E f v I). }
  rewrite map_map, !flat_map_concat_map, !map_map.
  f_equal.
  - f_equal. f_equal. apply map_ext_in. intros fv I. now rewrite (V fv I).
  - replace (map (fun x => errorsOf (visit pf (fst x, val (visit pf x))))
               (combine fields (Value'.Fields structVal)))
      with (map (fun x => errorsOf (visit pf x))
              (combine fields (Value'.Fields structVal))); [reflexivity |].
    apply map_ext_in. intros fv I. now rewrite (V fv I).
  - f_equal. apply map_ext_in. intros fv I. now rewrite (V fv I).
Qed.

Lemma plain_no_parser (t : rtype) :
  plain t = true -> customParser t = None.
Proof.
  unfold customParser.
  destruct t as [k n m | n m fields | m elem | n [|] m]; destruct m;
    try discriminate; reflexivity.
Qed.

Section plain_types.

Context `{Platform}.

(** The test for a custom parser fails on a plain type whatever the field
    holds. *)
Lemma plain_no_test (t : rtype) (d : value) (c : bool) :
  plain t = true -> cleverMaybeTextUnmarshaler (mkValue t d c) = None.
Proof.
  intros Pl.
  destruct t as [k n m | n m fields | m elem | n declares held].
  - destruct m; try discriminate Pl. now destruct c.
  - destruct m; try discriminate Pl. now destruct c.
  - destruct m; try discriminate Pl. now destruct c.
  - rewrite cleverMaybeTextUnmarshaler_interface.
    destruct declares; try discriminate Pl.
    destruct held; try discriminate Pl.
    now destruct d as [| | | | | | | [x |] |].
Qed.

End plain_types.

Lemma plain_fields (name : string) (m : methods) (fields : list StructField)
    (f : StructField) :
  plain (StructOf name m fields) = true -> In f fields ->
  plain (Type_ f) = true.
Proof.
  destruct m; try discriminate. cbn [plain].
  induction fields as [| [fn ft fty] fields IH]; intros Pl []; subst;
    apply andb_prop in Pl as [Pf Pfs]; [exact Pf | now apply IH].
Qed.

Lemma plain_record (t elem : rtype) (f : StructField) :
  plain t = true -> recordOf t = Some elem -> In f (Type'.Fields elem) ->
  plain (Type_ f) = true.
Proof.
  intros Pl R I.
  destruct (recordOf_inv _ _ R) as (n & m & fields & -> & [-> | [m' ->]]).
  - exact (plain_fields n m fields f Pl I).
  - destruct m'; try discriminate Pl. exact (plain_fields n m fields f Pl I).
Qed.

Section frame.

Context `{Platform}.

(** [parseField] reads the stack through its prefix and through the answers
    of [Getenv] to the keys it asks for, and through nothing else. *)
Lemma parseField_frame (ss : structStack) (field : StructField)
    (fieldVal : value) :
  forall ss2,
    envPrefix ss2 = envPrefix ss ->
    (forall k, In k (asked (parseField ss field fieldVal)) ->
               config ss2 k = config ss k) ->
    parseField ss2 field fieldVal = parseField ss field fieldVal.
Proof.
  apply (parseField_walk_ind
           (fun ss f v r => forall ss2,
                envPrefix ss2 = envPrefix ss ->
                (forall k, In k (asked r) -> config ss2 k = config ss k) ->
                parseField ss2 f v = r)).
  - intros ss0 f v L ss2 Ep G. rewrite (parseField_leaf ss2 f v L).
    rewrite parseLeaf_asked in G. unfold parseLeaf.
    now rewrite Ep, (G _ (or_introl eq_refl)).
  - intros ss0 f v N D ss2 _ _. destruct (isNested_inv f N) as (C & elem & R).
    rewrite (parseField_nested ss2 f v elem C R), foundDefaultTagError_spec.
    now rewrite D.
  - intros ss0 f v elem N D R newSS IH ss2 Ep G.
    destruct (isNested_inv f N) as (C & _).
    rewrite (parseField_nested ss2 f v elem C R), foundDefaultTagError_spec, D.
    f_equal. unfold parseStruct. cbn [push structType structVal].
    apply parseStructWith_ext. intros f' v' I. apply (IH f' v' I).
    + cbn [push envPrefix]. now rewrite Ep.
    + intros k K. cbn [push config]. apply G.
      rewrite asked_outer, parseStruct_asked. apply in_flat_map.
      now exists (f', v').
Qed.

(** X4. A call depends on the environment only through the keys it asks
    for: with the same prefix and a [Getenv] that answers those keys alike,
    the call returns the same error and leaves the same record. *)
Theorem result_depends_on_the_asked_keys_only (v : option (rtype * value))
    (cfg1 cfg2 : Config) (r : result) :
  Prefix cfg1 = Prefix cfg2 ->
  ParseWithConfig v cfg1 = Return r ->
  (forall k, In k (asked r) -> lookupOf cfg2 k = lookupOf cfg1 k) ->
  ParseWithConfig v cfg2 = Return r.
Proof.
  destruct v as [[typ d] |]; [| discriminate].
  intros Ep E G.
  destruct (notPointerToStruct typ) eqn:N.
  - rewrite (proj1 (ParseWithConfig_not_pointer_to_struct typ d cfg1) N) in E.
    now rewrite (proj1 (ParseWithConfig_not_pointer_to_struct typ d cfg2) N).
  - destruct (Value'.IsNil d) eqn:Nil.
    + rewrite (proj2 (ParseWithConfig_not_pointer_to_struct typ d cfg1) N Nil)
        in E.
      now rewrite (proj2 (ParseWithConfig_not_pointer_to_struct typ d cfg2)
                     N Nil).
    + destruct (notPointerToStruct_false typ N) as (m & name & sm & fields & ->).
      cbn [ParseWithConfig] in E |- *. rewrite Nil in E |- *.
      injection E as <-. cbn [asked] in G.
      assert (S : parseStruct
                    {| envPrefix := Prefix cfg2;
                       structType := StructOf name sm fields;
                       structVal := Value'.Elem d;
                       config := lookupOf cfg2 |}
                  = parseStruct
                      {| envPrefix := Prefix cfg1;
                         structType := StructOf name sm fields;
                         structVal := Value'.Elem d;
                         config := lookupOf cfg1 |}).
      { unfold parseStruct. cbn [structType structVal].
        apply parseStructWith_ext. intros f' v' I. apply parseField_frame.
        - cbn [envPrefix]. now symmetry.
        - intros k K. cbn [config]. apply G.
          rewrite parseStruct_asked. apply in_flat_map. now exists (f', v'). }
      unfold lookupOf in S. now rewrite S.
Qed.

(** What [setFieldVal] returns without a custom parser does not depend on
    what the field holds, except that a failure leaves it there. *)
Lemma setFieldVal_plain (t : rtype) (d : value) (c : bool) (name raw : string) :
  (forall d', cleverMaybeTextUnmarshaler (mkValue t d' c) = None) ->
  (snd (setFieldVal (mkValue t d c) name raw) <> None ->
   fst (setFieldVal (mkValue t d c) name raw) = d)
  /\ forall d',
      snd (setFieldVal (mkValue t d' c) name raw)
      = snd (setFieldVal (mkValue t d c) name raw)
      /\ (snd (setFieldVal (mkValue t d c) name raw) = None ->
          fst (setFieldVal (mkValue t d' c) name raw)
          = fst (setFieldVal (mkValue t d c) name raw)).
Proof.
  intros C'. pose proof (C' d) as C.
  unfold setFieldVal, setUnmarshFieldVal. rewrite C.
  unfold Value'.SetInt, Value'.SetUint, Value'.Kind. cbn [Type_of data].
  split.
  - destruct (Type'.Kind t);
      try destruct (isDuration t);
      try destruct (time_ParseDuration raw) as [? [? |]];
      try destruct (strconv.Atoi raw) as [? [? |]];
      try destruct (strconv.ParseUint raw 64) as [? [? |]];
      try destruct (strconv_ParseFloat raw 64) as [? [? |]];
      try destruct (strconv.ParseBool raw) as [? [? |]];
      cbn [fst snd]; intros E; try reflexivity; now destruct E.
  - intros d'. rewrite (C' d'). cbn [Type_of data].
    destruct (Type'.Kind t);
      try destruct (isDuration t);
      try destruct (time_ParseDuration raw) as [? [? |]];
      try destruct (strconv.Atoi raw) as [? [? |]];
      try destruct (strconv.ParseUint raw 64) as [? [? |]];
      try destruct (strconv_ParseFloat raw 64) as [? [? |]];
      try destruct (strconv.ParseBool raw) as [? [? |]];
      cbn [fst snd]; split; try reflexivity; try discriminate.
Qed.

Lemma parseLeaf_again (ss : structStack) (field : StructField)
    (fieldVal : value) (varName : string) :
  (forall d, cleverMaybeTextUnmarshaler (mkValue (Type_ field) d true)
             = None) ->
  parseLeaf ss field (val (parseLeaf ss field fieldVal varName)) varName
  = parseLeaf ss field fieldVal varName.
Proof.
  intros C. unfold parseLeaf.
  destruct (Tag.Lookup (Tag field) "default") as [dv df].
  destruct (config ss _) as [ev found].
  assert (S : forall raw key,
             (let '(d, e) :=
                setFieldVal
                  (mkValue (Type_ field)
                     (val (let '(d, e) :=
                             setFieldVal (mkValue (Type_ field) fieldVal true)
                               key raw in
                           {| val := d; err := e; asked := [key] |})) true)
                  key raw in
              {| val := d; err := e; asked := [key] |})
             = (let '(d, e) :=
                  setFieldVal (mkValue (Type_ field) fieldVal true) key raw in
                {| val := d; err := e; asked := [key] |})).
  { intros raw key.
    destruct (setFieldVal_plain (Type_ field) fieldVal true key raw C)
      as [Keep Indep].
    destruct (setFieldVal (mkValue (Type_ field) fieldVal true) key raw)
      as [d1 e1] eqn:S1. cbn [val fst snd] in *.
    destruct (Indep d1) as [Se Sv].
    destruct (setFieldVal (mkValue (Type_ field) d1 true) key raw)
      as [d2 e2] eqn:S2. cbn [fst snd] in *. subst e2.
    destruct e1 as [e |].
    - rewrite (Keep ltac:(discriminate)) in S2.
      rewrite S1 in S2. now injection S2 as <-.
    - now rewrite (Sv eq_refl). }
  destruct found; [apply S |]. destruct df; [apply S | reflexivity].
Qed.

(** A second call of [parseField] on the value the first one left, for a
    type without custom parsers, returns what the first one returned. *)
Lemma parseField_again (ss : structStack) (field : StructField)
    (fieldVal : value) :
  plain (Type_ field) = true ->
  parseField ss field (val (parseField ss field fieldVal))
  = parseField ss field fieldVal.
Proof.
  apply (parseField_walk_ind
           (fun ss f v r => plain (Type_ f) = true -> parseField ss f (val r) = r)).
  - intros ss0 f v L Pl. rewrite (parseField_leaf ss0 f _ L).
    apply parseLeaf_again. intros d. now apply plain_no_test.
  - intros ss0 f v N D _. destruct (isNested_inv f N) as (C & elem & R).
    rewrite (parseField_nested ss0 f _ elem C R), foundDefaultTagError_spec, D.
    cbn [val]. f_equal. unfold allocated.
    destruct (Type_ f); try reflexivity.
    destruct (Value'.IsNil v) eqn:Nil; [reflexivity | now rewrite Nil].
  - intros ss0 f v elem N D R newSS IH Pl.
    destruct (isNested_inv f N) as (C & _).
    rewrite (parseField_nested ss0 f _ elem C R), foundDefaultTagError_spec, D.
    assert (In' : innerRecord f (val (outer f (parseStruct newSS)))
                  = val (parseStruct newSS)).
    { unfold innerRecord, allocated, outer.
      destruct (recordOf_inv _ _ R) as (n & m & fields & -> & [-> | [m' ->]]);
        reflexivity. }
    rewrite In'. f_equal. unfold parseStruct.
    cbn [push structType structVal].
    transitivity (parseStructWith (parseField newSS) (Type'.Fields elem)
                    (val (parseStructWith (parseField newSS)
                            (Type'.Fields elem) (innerRecord f v)))).
    + apply parseStructWith_ext. intros f' v' I.
      apply parseField_frame; reflexivity.
    + apply parseStructWith_again. intros f' v' I. apply (IH f' v' I).
      apply (plain_record _ _ _ Pl R). exact (in_combine_l _ _ _ _ I).
Qed.

(** X5. For a record type without custom parsers (and whose fields of
    interface type hold no value that has one) a call is idempotent: a
    second call with the same configuration, on the record the first call
    left, returns the same error, leaves the record as it is and asks for
    the same keys. *)
Theorem second_call_changes_nothing (typ : rtype) (d : value) (cfg : Config)
    (r : result) :
  plain typ = true ->
  ParseWithConfig (Some (typ, d)) cfg = Return r ->
  ParseWithConfig (Some (typ, val r)) cfg = Return r.
Proof.
  intros Pl E.
  destruct (ParseWithConfig_cases typ d cfg r E)
    as [(_ & V & _) | (m & name & sm & fields & -> & Nil & ->)].
  - now rewrite V.
  - assert (S : parseStruct
                  (topStack cfg (StructOf name sm fields)
                     (val (parseStruct (topStack cfg (StructOf name sm fields)
                                          (Value'.Elem d)))))
                = parseStruct (topStack cfg (StructOf name sm fields)
                                 (Value'.Elem d))).
    { unfold parseStruct. cbn [topStack structType structVal Type'.Fields].
      transitivity
        (parseStructWith
           (parseField (topStack cfg (StructOf name sm fields) (Value'.Elem d)))
           fields
           (val (parseStructWith
                   (parseField (topStack cfg (StructOf name sm fields)
                                  (Value'.Elem d)))
                   fields (Value'.Elem d)))).
      - apply parseStructWith_ext. intros f' v' I.
        apply parseField_frame; reflexivity.
      - apply parseStructWith_again. intros f' v' I. apply parseField_again.
        destruct m; try discriminate Pl.
        exact (plain_fields name sm fields f' Pl (in_combine_l _ _ _ _ I)). }
    cbn [outer Type_ val ParseWithConfig Value'.IsNil Value'.Elem].
    unfold topStack in S |- *. now rewrite S.
Qed.

End frame.

(* ------------------------------------------------------------------ *)
(** ** Fields that cannot be bound *)

Section unbound.

Context `{Platform}.

(** X6. A field of a kind [setFieldVal] has no case for (a slice, a map, a
    pointer to something that is not a struct, an interface, ...) and for
    which the test finds no custom parser (for a field of interface type:
    it holds nothing, or a value without one) is looked up like any leaf:
    with no value and no default it is reported unset, and only when there
    is a raw value is it reported as unsupported, under its key and with
    the name of its type. The field is never written. *)
Theorem unsupported_field_is_reported_once_it_has_a_value (ss : structStack)
    (field : StructField) (fieldVal : value) :
  cleverMaybeTextUnmarshaler (mkValue (Type_ field) fieldVal true) = None ->
  recordOf (Type_ field) = None ->
  supportedKind (Type'.Kind (Type_ field)) = false ->
  let key := (envPrefix ss ++ keyName field)%string in
  parseField ss field fieldVal
  = {| val := fieldVal;
       err := Some (if snd (config ss key)
                       || snd (Tag.Lookup (Tag field) "default")
                    then InvalidFieldError key
                           ("Unsupported struct field type: "
                              ++ Type'.String (Type_ field))
                    else UnsetVariableError key);
       asked := [key] |}.
Proof.
  intros C R S key.
  assert (L : isLeaf field = true).
  { unfold isLeaf, isNested. rewrite R.
    now destruct (customParser (Type_ field)). }
  rewrite (parseField_leaf ss field fieldVal L). unfold parseLeaf. fold key.
  assert (U : forall raw,
             setFieldVal (mkValue (Type_ field) fieldVal true) key raw
             = (fieldVal,
                Some (InvalidFieldError key
                        ("Unsupported struct field type: "
                           ++ Type'.String (Type_ field))))).
  { intros raw. unfold setFieldVal, setUnmarshFieldVal. rewrite C.
    unfold Value'.Kind. cbn [Type_of data].
    destruct (Type'.Kind (Type_ field)); try discriminate S; reflexivity. }
  destruct (Tag.Lookup (Tag field) "default") as [dv df].
  destruct (config ss key) as [ev found]. cbn [snd].
  destruct found; [now rewrite U |]. destruct df; [now rewrite U | reflexivity].
Qed.

(** X7. A leaf field whose type has no custom parser and is not an
    interface type ends up with a value that the environment decides: a
    failure leaves the field as it was, and whether the call fails, with
    which error, and what a success stores do not depend on what the field
    held before. *)
Theorem leaf_value_is_decided_by_the_environment (ss : structStack)
    (field : StructField) (fieldVal : value) :
  isLeaf field = true ->
  customParser (Type_ field) = None ->
  Type'.Kind (Type_ field) <> Interface ->
  (err (parseField ss field fieldVal) <> None ->
   val (parseField ss field fieldVal) = fieldVal)
  /\ forall other,
      err (parseField ss field other) = err (parseField ss field fieldVal)
      /\ (err (parseField ss field fieldVal) = None ->
          val (parseField ss field other)
          = val (parseField ss field fieldVal)).
Proof.
  intros L C K.
  assert (CM : forall d, cleverMaybeTextUnmarshaler
                           (mkValue (Type_ field) d true) = None).
  { intros d. now rewrite cleverMaybeTextUnmarshaler_addressable. }
  clear K.
  split; [| intros other; rewrite (parseField_leaf ss field other L)];
    rewrite (parseField_leaf ss field fieldVal L); unfold parseLeaf;
    destruct (Tag.Lookup (Tag field) "default") as [dv df];
    destruct (config ss _) as [ev found].
  - assert (S : forall raw key,
               err (let '(d, e) :=
                      setFieldVal (mkValue (Type_ field) fieldVal true) key raw
                    in {| val := d; err := e; asked := [key] |}) <> None ->
               val (let '(d, e) :=
                      setFieldVal (mkValue (Type_ field) fieldVal true) key raw
                    in {| val := d; err := e; asked := [key] |}) = fieldVal).
    { intros raw key.
      pose proof (proj1 (setFieldVal_plain _ fieldVal true key raw CM)) as K.
      destruct (setFieldVal _ _ _) as [d e]. exact K. }
    destruct found; [apply S |]. destruct df; [apply S | reflexivity].
  - assert (S : forall raw key,
               err (let '(d, e) :=
                      setFieldVal (mkValue (Type_ field) other true) key raw
                    in {| val := d; err := e; asked := [key] |})
               = err (let '(d, e) :=
                        setFieldVal (mkValue (Type_ field) fieldVal true)
                          key raw
                      in {| val := d; err := e; asked := [key] |})
               /\ (err (let '(d, e) :=
                          setFieldVal (mkValue (Type_ field) fieldVal true)
                            key raw
                        in {| val := d; err := e; asked := [key] |}) = None ->
                   val (let '(d, e) :=
                          setFieldVal (mkValue (Type_ field) other true) key raw
                        in {| val := d; err := e; asked := [key] |})
                   = val (let '(d, e) :=
                            setFieldVal (mkValue (Type_ field) fieldVal true)
                              key raw
                          in {| val := d; err := e; asked := [key] |}))).
    { intros raw key.
      pose proof (proj2 (setFieldVal_plain _ fieldVal true key raw CM)
                    other) as K.
      destruct (setFieldVal (mkValue (Type_ field) other true) key raw)
        as [d1 e1].
      destruct (setFieldVal (mkValue (Type_ field) fieldVal true) key raw)
        as [d2 e2]. exact K. }
    destruct found; [apply S |]. destruct df; [apply S |].
    split; [reflexivity | discriminate].
Qed.

End unbound.

(* ------------------------------------------------------------------ *)
(** ** The messages *)

Lemma hasByte_app (c : ascii) (a b : string) :
  hasByte c (a ++ b) = hasByte c a || hasByte c b.
Proof.
  induction a as [| x a IH]; [reflexivity |].
  cbn [append hasByte]. now rewrite IH, orb_assoc.
Qed.

Lemma lines_without_newline (s : string) :
  hasByte (ascii_of_nat 10) s = false -> lines s = [s].
Proof.
  induction s as [| c s IH]; [reflexivity |].
  cbn [hasByte lines]. intros E. apply orb_false_elim in E as [C S].
  now rewrite C, (IH S).
Qed.

Lemma lines_app_newline (a rest : string) :
  hasByte (ascii_of_nat 10) a = false ->
  lines (a ++ newline ++ rest) = a :: lines rest.
Proof.
  induction a as [| c a IH]; [reflexivity |].
  cbn [hasByte]. intros E. apply orb_false_elim in E as [C S].
  cbn [append lines]. rewrite C.
  change (a ++ String.String (ascii_of_nat 10) rest)
    with (a ++ newline ++ rest).
  now rewrite (IH S).
Qed.

(** [strings.Join] with a line feed and [strings.Split] at line feeds are
    inverse on texts without line feeds. *)
Lemma lines_Join (elems : list string) :
  elems <> [] ->
  (forall e, In e elems -> hasByte (ascii_of_nat 10) e = false) ->
  lines (strings.Join elems newline) = elems.
Proof.
  induction elems as [| e elems IH]; [easy |]. intros _ N.
  destruct elems as [| e' elems].
  - apply lines_without_newline, N. now left.
  - change (strings.Join (e :: e' :: elems) newline)
      with (e ++ newline ++ strings.Join (e' :: elems) newline).
    rewrite lines_app_newline by (apply N; now left).
    f_equal. apply IH; [discriminate |]. intros x I. apply N. now right.
Qed.

Lemma Join_starts_with_first (e : string) (elems : list string)
    (sep : string) :
  exists rest, strings.Join (e :: elems) sep = (e ++ rest)%string.
Proof.
  destruct elems as [| e' elems].
  - exists "". cbn [strings.Join]. now rewrite string_app_nil_r.
  - now exists (sep ++ strings.Join (e' :: elems) sep)%string.
Qed.

Section message_facts.

Context `{Platform} `{Text}.

(** X8. The message of a report has one line for each error, in the order
    of the report, made of ["envvar: "] and the message of the error,
    provided no message has a line feed in it. *)
Theorem report_message_has_one_line_per_error (errors : list error) :
  errors <> [] ->
  (forall e, In e errors -> hasByte (ascii_of_nat 10) (Error e) = false) ->
  lines (Error (ErrorList errors))
  = map (fun e => "envvar: " ++ Error e)%string errors.
Proof.
  intros NE N. cbn [Error]. apply lines_Join.
  - destruct errors; [easy | discriminate].
  - intros x I. apply in_map_iff in I as (e & <- & Ie).
    rewrite hasByte_app, (N e Ie). reflexivity.
Qed.

(** X9. Whatever error a call returns, its message starts with
    ["envvar: "]. *)
Theorem returned_message_starts_with_envvar (typ : rtype) (d : value)
    (cfg : Config) (r : result) (e : error) :
  ParseWithConfig (Some (typ, d)) cfg = Return r ->
  err r = Some e ->
  String.prefix "envvar: " (Error e) = true.
Proof.
  intros E Er.
  destruct (ParseWithConfig_cases typ d cfg r E)
    as [(_ & _ & msg & M) | (m & name & sm & fields & -> & _ & ->)].
  - rewrite M in Er. injection Er as <-. apply prefix_app.
  - rewrite err_outer, parseStruct_err in Er.
    destruct (errorsOf (parseStruct _)) as [| e0 es]; [discriminate |].
    injection Er as <-. cbn [Error map].
    destruct (Join_starts_with_first ("envvar: " ++ Error e0)
                (map (fun err0 => ("envvar: " ++ Error err0)%string) es)
                newline) as [rest ->].
    rewrite string_app_assoc. apply prefix_app.
Qed.

End message_facts.

(* ------------------------------------------------------------------ *)
(** ** The tag scanner *)

Lemma string_length_app (a b : string) :
  String.length (a ++ b) = (String.length a + String.length b)%nat.
Proof. induction a as [| c a IH]; [reflexivity |]. simpl. now rewrite IH. Qed.

Lemma ReadString_found (a rest : string) (delim : ascii) :
  hasByte delim a = false ->
  bytes.ReadString (a ++ String.String delim rest) delim
  = (a ++ String.String delim EmptyString, None, rest)%string.
Proof.
  induction a as [| c a IH]; intros N.
  - cbn [append bytes.ReadString]. now rewrite Ascii.eqb_refl.
  - cbn [hasByte] in N. apply orb_false_elim in N as [C N].
    cbn [append bytes.ReadString]. now rewrite C, (IH N).
Qed.

Lemma ReadString_eof (s : string) (delim : ascii) :
  hasByte delim s = false ->
  bytes.ReadString s delim = (s, Some io_EOF, EmptyString).
Proof.
  induction s as [| c s IH]; intros N; [reflexivity |].
  cbn [hasByte] in N. apply orb_false_elim in N as [C N].
  cbn [bytes.ReadString]. now rewrite C, (IH N).
Qed.

(** A read that finds its delimiter takes at least one byte off the
    buffer; a read that does not reports [io.EOF]. *)
Lemma ReadString_cases (buf : string) (delim : ascii) :
  (exists line rest,
      bytes.ReadString buf delim = (line, None, rest)
      /\ (String.length rest < String.length buf)%nat)
  \/ (exists line rest,
         bytes.ReadString buf delim = (line, Some io_EOF, rest)).
Proof.
  induction buf as [| c buf IH]; [right; now eexists; eexists |].
  cbn [bytes.ReadString]. destruct (Ascii.eqb c delim).
  - left. eexists. eexists. split; [reflexivity |]. simpl. lia.
  - destruct IH as [(line & rest & -> & L) | (line & rest & ->)].
    + left. eexists. eexists. split; [reflexivity |]. simpl. lia.
    + right. now eexists; eexists.
Qed.

Lemma dropLast_snoc (a : string) (c : ascii) :
  dropLast (a ++ String.String c EmptyString) = a.
Proof.
  induction a as [| x a IH]; [reflexivity |].
  cbn [append]. cbn [dropLast].
  destruct (a ++ String.String c EmptyString)%string eqn:E.
  - destruct a; discriminate E.
  - now rewrite IH.
Qed.

Lemma rev_app (a b : string) :
  strings.rev (a ++ b) = (strings.rev b ++ strings.rev a)%string.
Proof.
  induction a as [| c a IH]; cbn [append strings.rev].
  - now rewrite string_app_nil_r.
  - now rewrite IH, string_app_assoc.
Qed.

Lemma rev_rev (s : string) : strings.rev (strings.rev s) = s.
Proof.
  induction s as [| c s IH]; [reflexivity |].
  cbn [strings.rev]. rewrite rev_app, IH. reflexivity.
Qed.

Section tagscan_facts.

Context `{Text}.

(** [TrimSpace] leaves a key as it is and takes the space before it off. *)
Lemma TrimSpace_key (k : string) :
  tagKey k = true ->
  strings.TrimSpace k = k /\ strings.TrimSpace (" " ++ k) = k.
Proof.
  unfold tagKey. intros K.
  apply andb_prop in K as [K Last]. apply andb_prop in K as [_ First].
  assert (T : strings.TrimSpace k = k).
  { destruct k as [| c k]; [discriminate First |].
    cbn [firstByteOk] in First. apply andb_prop in First as [A S].
    cbn [strings.TrimSpace].
    replace (strconv.byte c >=? strings.RuneSelf) with false
      by (symmetry; rewrite Z.geb_leb; apply Z.leb_gt; now apply Z.ltb_lt).
    rewrite S.
    destruct (strings.rev (String.String c k)) as [| c' r] eqn:R;
      [discriminate Last |].
    cbn [firstByteOk] in Last. apply andb_prop in Last as [A' S'].
    cbn [strings.trimStop].
    replace (strconv.byte c' >=? strings.RuneSelf) with false
      by (symmetry; rewrite Z.geb_leb; apply Z.leb_gt; now apply Z.ltb_lt).
    rewrite S', <- R. apply rev_rev. }
  split; [exact T |]. exact T.
Qed.

(** The scanner on a tag that starts with a well-formed pair: the value of
    the pair if its key is the one looked for, else the scan of the rest. *)
Lemma getStructTagFrom_pair (fuel : nat) (fieldName lead k v rest key : string) :
  lead = "" \/ lead = " " ->
  tagKey k = true -> tagValue v = true ->
  getStructTagFrom (S fuel) fieldName (tagPair lead (k, v) ++ rest) key
  = if String.eqb k key then Some (v, true, None)
    else getStructTagFrom fuel fieldName rest key.
Proof.
  intros Lead K V. unfold tagPair. cbn [fst snd].
  assert (Kc : hasByte ":" (lead ++ k) = false).
  { rewrite hasByte_app. unfold tagKey in K.
    apply andb_prop in K as [K _]. apply andb_prop in K as [K _].
    apply negb_true_iff in K. rewrite K.
    destruct Lead as [-> | ->]; reflexivity. }
  replace ((lead ++ k ++ ":" ++ String.String quotationMark v
              ++ String.String quotationMark EmptyString) ++ rest)%string
    with ((lead ++ k)
            ++ String.String ":"
                 (EmptyString
                    ++ String.String quotationMark
                         (v ++ String.String quotationMark rest)))%string
    by (rewrite !string_app_assoc; cbn [append];
        now rewrite ?string_app_assoc).
  cbn [getStructTagFrom].
  rewrite (ReadString_found _ _ ":" Kc).
  rewrite (ReadString_found EmptyString _ quotationMark eq_refl).
  unfold tagValue in V. apply negb_true_iff in V.
  rewrite (ReadString_found v rest quotationMark V).
  rewrite !dropLast_snoc.
  destruct (TrimSpace_key k K) as [T0 T1].
  destruct Lead as [-> | ->];
    [change ("" ++ k)%string with k; rewrite T0 | rewrite T1]; reflexivity.
Qed.

Lemma getStructTagFrom_rest (fieldName key : string)
    (pairs : list (string * string)) :
  (forall kv, In kv pairs -> tagKey (fst kv) = true /\ tagValue (snd kv) = true) ->
  forall fuel,
    (List.length pairs < fuel)%nat ->
    getStructTagFrom fuel fieldName (tagRest pairs) key
    = Some (Tag.Lookup pairs key, None).
Proof.
  induction pairs as [| [k v] pairs IH]; intros G fuel L.
  - destruct fuel; [lia | reflexivity].
  - destruct fuel; [cbn [List.length] in L; lia |].
    destruct (G (k, v) (or_introl eq_refl)) as [K V].
    cbn [tagRest Tag.Lookup].
    rewrite (getStructTagFrom_pair fuel fieldName " " k v _ key
               (or_intror eq_refl) K V).
    destruct (String.eqb k key); [reflexivity |].
    apply IH; [| cbn [List.length] in L; lia].
    intros kv I. apply G. now right.
Qed.

Lemma tagRest_length (pairs : list (string * string)) :
  (List.length pairs <= String.length (tagRest pairs))%nat.
Proof.
  induction pairs as [| kv pairs IH]; [reflexivity |].
  cbn [tagRest List.length]. unfold tagPair.
  rewrite string_length_app. cbn [append String.length]. lia.
Qed.

(** The scanner returns for every tag: the fuel [getStructTag] starts with
    is never used up. *)
Lemma getStructTagFrom_returns (fieldName key : string) (fuel : nat) :
  forall buf,
    (String.length buf < fuel)%nat ->
    exists res, getStructTagFrom fuel fieldName buf key = Some res.
Proof.
  induction fuel as [| fuel IH]; intros buf L; [lia |].
  cbn [getStructTagFrom].
  destruct (ReadString_cases buf ":") as [(k & b1 & -> & L1) | (k & b1 & ->)];
    [| now eexists].
  destruct (ReadString_cases b1 quotationMark)
    as [(q & b2 & -> & L2) | (q & b2 & ->)]; [| now eexists].
  destruct (ReadString_cases b2 quotationMark)
    as [(v & b3 & -> & L3) | (v & b3 & ->)]; [| now eexists].
  destruct (String.eqb _ key); [now eexists |].
  apply IH. lia.
Qed.

(** X10. Against the pairs of a tag, the scanner is [Lookup]: on the text
    of well-formed pairs it returns the value of the first pair with the
    key looked for and [true], or [false] when there is none, and no error.
    So it tells an empty default from no default. *)
Theorem getStructTag_finds_the_first_pair (fieldName key : string)
    (pairs : list (string * string)) :
  (forall kv, In kv pairs -> tagKey (fst kv) = true /\ tagValue (snd kv) = true) ->
  getStructTag fieldName (tagText pairs) key
  = Some (Tag.Lookup pairs key, None).
Proof.
  intros G. unfold getStructTag. destruct pairs as [| [k v] pairs].
  - reflexivity.
  - destruct (G (k, v) (or_introl eq_refl)) as [K V].
    cbn [tagText Tag.Lookup].
    rewrite (getStructTagFrom_pair _ fieldName "" k v _ key
               (or_introl eq_refl) K V).
    destruct (String.eqb k key); [reflexivity |].
    apply getStructTagFrom_rest; [intros kv I; apply G; now right |].
    pose proof (tagRest_length pairs). unfold tagPair.
    rewrite !string_length_app. cbn [append String.length]. lia.
Qed.

(** X11. The scanner always returns; a tag without a colon has no key at
    all, and every key is reported as not found, without error. *)
Theorem getStructTag_returns_and_needs_a_colon (fieldName tag key : string) :
  (exists res, getStructTag fieldName tag key = Some res)
  /\ (hasByte ":" tag = false ->
      getStructTag fieldName tag key = Some ("", false, None)).
Proof.
  split.
  - apply getStructTagFrom_returns. lia.
  - intros N. unfold getStructTag. cbn [getStructTagFrom].
    now rewrite (ReadString_eof tag ":" N).
Qed.

(** X12. A tag whose first colon is not followed by two quotation marks
    is refused whatever key is looked for: the result is the error
    "envvar: Invalid struct tag for field named [fieldName]. EOF". *)
Theorem getStructTag_refuses_an_unquoted_value (fieldName before after key
    : string) :
  hasByte ":" before = false ->
  hasByte quotationMark after = false
  \/ (exists a b,
         after = (a ++ String.String quotationMark b)%string
         /\ hasByte quotationMark a = false
         /\ hasByte quotationMark b = false) ->
  getStructTag fieldName (before ++ String.String ":" after) key
  = Some ("", false,
          Some (errorString
                  ("envvar: Invalid struct tag for field named " ++ fieldName
                     ++ ". EOF"))).
Proof.
  intros B Q. unfold getStructTag. cbn [getStructTagFrom].
  rewrite (ReadString_found before after ":" B).
  destruct Q as [N | (a & b & -> & Na & Nb)].
  - now rewrite (ReadString_eof after quotationMark N).
  - rewrite (ReadString_found a b quotationMark Na).
    now rewrite (ReadString_eof b quotationMark Nb).
Qed.

End tagscan_facts.

(* ------------------------------------------------------------------ *)
(** ** The earlier versions *)

Section early_facts.

Context `{Platform} `{Text}.

Lemma fieldsLoop_ext (turn1 turn2 : StructField -> value -> result)
    (fields : list StructField) :
  (forall f, In f fields -> forall v, turn1 f v = turn2 f v) ->
  forall vals, early.fieldsLoop turn1 fields vals
               = early.fieldsLoop turn2 fields vals.
Proof.
  induction fields as [| f fields IH]; intros E vals; [reflexivity |].
  destruct vals as [| v vals]; [reflexivity |].
  cbn [early.fieldsLoop]. rewrite (E f (or_introl eq_refl) v).
  rewrite IH; [reflexivity |]. intros f' I. apply E. now right.
Qed.

(** The loop returns at the first field that fails: the fields before it
    are set, the fields after it are neither asked for nor changed. *)
Lemma fieldsLoop_first_error (turn : StructField -> value -> result)
    (before : list StructField) :
  forall (valsBefore : list value) (field : StructField) (fieldVal : value)
         (after : list StructField) (valsAfter : list value) (e : error),
    List.length before = List.length valsBefore ->
    (forall fv, In fv (combine before valsBefore) ->
                err (visit turn fv) = None) ->
    err (turn field fieldVal) = Some e ->
    early.fieldsLoop turn (before ++ field :: after)
      (valsBefore ++ fieldVal :: valsAfter)
    = ((map (fun fv => val (visit turn fv)) (combine before valsBefore)
          ++ val (turn field fieldVal) :: valsAfter)%list,
       Some e,
       (flat_map (fun fv => asked (visit turn fv)) (combine before valsBefore)
          ++ asked (turn field fieldVal))%list).
Proof.
  induction before as [| f before IH];
    intros [| v valsBefore] field fieldVal after valsAfter e L Ok Bad;
    try discriminate L.
  - cbn [app early.fieldsLoop combine map flat_map]. now rewrite Bad.
  - cbn [app early.fieldsLoop combine map flat_map].
    pose proof (Ok (f, v) (or_introl eq_refl)) as Okf.
    unfold visit in Okf. cbn [fst snd] in Okf. rewrite Okf.
    rewrite (IH valsBefore field fieldVal after valsAfter e);
      [| now injection L | | exact Bad].
    + unfold visit at 3 5. cbn [fst snd]. now rewrite <- app_assoc.
    + intros fv I. apply Ok. now right.
Qed.

(** A failure of the early [setFieldVal] leaves the field as it was. *)
Lemma early_setFieldVal_failure (structField : Value) (name v : string) :
  snd (early.setFieldVal structField name v) <> None ->
  fst (early.setFieldVal structField name v) = data structField.
Proof.
  unfold early.setFieldVal.
  destruct (Value'.Kind structField);
    try destruct (strconv.Atoi v) as [? [? |]];
    try destruct (strconv.ParseUint v 64) as [? [? |]];
    try destruct (strconv_ParseFloat v 64) as [? [? |]];
    try destruct (strconv.ParseBool v) as [? [? |]];
    cbn [fst snd]; intros E; try reflexivity; now destruct E.
Qed.

Lemma tagged_turn_failure (field : StructField) (fieldVal : value) :
  err (tagged.turn field fieldVal) <> None ->
  val (tagged.turn field fieldVal) = fieldVal.
Proof.
  unfold tagged.turn. destruct (syscall_Getenv _) as [varVal found].
  destruct (negb found && _); [reflexivity |].
  match goal with
  | |- context [early.setFieldVal ?sf ?n ?x] =>
      pose proof (early_setFieldVal_failure sf n x) as K;
      destruct (early.setFieldVal sf n x) as [d e]
  end.
  exact K.
Qed.

(** X13. [Parse] of [part_002] stops at the first field that fails: it
    returns the error of that field, the fields before it are set, and
    the failing field and the fields after it keep their values; no
    variable of a later field is asked for. *)
Theorem tagged_Parse_returns_at_the_first_error (m sm : methods)
    (name : string) (before after : list StructField)
    (valsBefore valsAfter : list value) (field : StructField)
    (fieldVal : value) (e : error) :
  List.length before = List.length valsBefore ->
  (forall fv, In fv (combine before valsBefore) ->
              err (visit tagged.turn fv) = None) ->
  err (tagged.turn field fieldVal) = Some e ->
  tagged.Parse
    (Some (PtrTo m (StructOf name sm (before ++ field :: after)),
           VPtr (Some (VStruct (valsBefore ++ fieldVal :: valsAfter)))))
  = Return
      {| val := VPtr (Some (VStruct
                              (map (fun fv => val (visit tagged.turn fv))
                                 (combine before valsBefore)
                                 ++ fieldVal :: valsAfter)));
         err := Some e;
         asked := flat_map (fun fv => asked (visit tagged.turn fv))
                    (combine before valsBefore)
                    ++ asked (tagged.turn field fieldVal) |}.
Proof.
  intros L Ok Bad. unfold tagged.Parse.
  cbn [early.ParseBy Value'.IsNil Value'.Elem Value'.Fields].
  rewrite (fieldsLoop_first_error tagged.turn before valsBefore field
             fieldVal after valsAfter e L Ok Bad).
  rewrite tagged_turn_failure by (rewrite Bad; discriminate). reflexivity.
Qed.

(** X14. On a record whose fields carry no name override and no default
    (or empty ones), [Parse] of [part_002] is [Parse] of [part_003]: the
    tags changed nothing for the records written before them. *)
Theorem tagged_Parse_agrees_with_untagged (v : option (rtype * value)) :
  untaggedArgument v = true ->
  tagged.Parse v = untagged.Parse v.
Proof.
  intros U. unfold tagged.Parse, untagged.Parse.
  destruct v as [[typ d] |]; [| reflexivity].
  destruct typ as [k n m | n m fields
                  | m [k n m' | n m' fields | m' e | n' declares' held']
                  | n declares held];
    try reflexivity.
  cbn [early.ParseBy]. destruct (Value'.IsNil d); [reflexivity |].
  cbn [untaggedArgument] in U. rewrite forallb_forall in U.
  rewrite (fieldsLoop_ext tagged.turn untagged.turn); [reflexivity |].
  intros f I fv. apply U in I. apply andb_prop in I as [E D].
  apply String.eqb_eq in E. apply String.eqb_eq in D.
  unfold tagged.turn, untagged.turn. rewrite E, D. cbn [String.eqb negb andb].
  destruct (syscall_Getenv (Name f)) as [vString found].
  rewrite andb_true_r. destruct (negb found); reflexivity.
Qed.

End early_facts.

(* ------------------------------------------------------------------ *)
(** ** The version without nested structs *)

Section unnested_facts.

Context `{Platform}.

(** The process environment as a stack: no prefix, [syscall.Getenv]. *)
Lemma unnested_setFieldVal_flat (t : rtype) (d : value) (name v : string) :
  Type'.Kind t <> Interface ->
  (match customParser t with Some _ => true | None => false end
   || supportedKind (Type'.Kind t)) = true ->
  unnested.setFieldVal (mkValue t d true) name v
  = setFieldVal (mkValue t d true) name v.
Proof.
  intros K. unfold setFieldVal, setUnmarshFieldVal.
  rewrite (cleverMaybeTextUnmarshaler_addressable t d K).
  unfold unnested.setFieldVal, customParser, Value'.Kind.
  cbn [Type_of data CanAddr].
  destruct (Type'.Methods t) as [| m | m]; cbn [orb].
  - intros S. destruct (Type'.Kind t); try reflexivity; discriminate S.
  - intros _. now destruct (m v d) as [d' [e |]].
  - intros _. now destruct (m v d) as [d' [e |]].
Qed.

Lemma unnested_parse_flat (structType : rtype) (structVal : value)
    (field : StructField) (fieldVal : value) :
  flatField field = true ->
  unnested.parse field fieldVal
  = parseField {| envPrefix := ""; structType := structType;
                  structVal := structVal; config := syscall_Getenv |}
      field fieldVal.
Proof.
  unfold flatField. intros F. apply andb_prop in F as [F S].
  apply andb_prop in F as [F _]. apply andb_prop in F as [L K].
  assert (K' : Type'.Kind (Type_ field) <> Interface).
  { intros E. rewrite E in K. discriminate K. }
  rewrite (parseField_leaf _ _ _ L).
  unfold unnested.parse, parseLeaf, keyName. cbn [envPrefix config append].
  destruct (Tag.Lookup (Tag field) "default") as [dv df].
  destruct (syscall_Getenv _) as [ev fe].
  now rewrite !(unnested_setFieldVal_flat _ _ _ _ K' S).
Qed.

Lemma parseLeaf_no_list (ss : structStack) (field : StructField)
    (fieldVal : value) (varName : string) (errors : list error) :
  err (parseLeaf ss field fieldVal varName) <> Some (ErrorList errors).
Proof.
  intros E. apply parseLeaf_error in E. cbv zeta in E.
  destruct E as [[E _] | [(c & raw & E & _) | [msg E]]]; discriminate E.
Qed.

Lemma parseAll_parseFields (pf : StructField -> value -> result)
    (fields : list StructField) :
  (forall f, In f fields -> forall v,
       unnested.parse f v = pf f v
       /\ forall errors, err (pf f v) <> Some (ErrorList errors)) ->
  forall (vals : list value) (errors : list error),
    unnested.parseAll fields vals errors = parseFields pf fields vals errors.
Proof.
  induction fields as [| f fields IH]; intros A vals errors; [reflexivity |].
  destruct vals as [| v vals]; [reflexivity |].
  cbn [unnested.parseAll parseFields].
  destruct (A f (or_introl eq_refl) v) as [E N]. rewrite E.
  assert (K : match err (pf f v) with
              | Some e => (errors ++ [e])%list
              | None => errors
              end
              = match err (pf f v) with
                | Some (ErrorList suberrors) => (errors ++ suberrors)%list
                | Some e => (errors ++ [e])%list
                | None => errors
                end).
  { destruct (err (pf f v)) as [[] |]; try reflexivity.
    now destruct (N Errors). }
  rewrite K. rewrite IH; [reflexivity |].
  intros f' I. apply A. now right.
Qed.

(** X15. On a record of leaf fields that have a custom parser or a
    supported kind and are neither interfaces nor pointers, [Parse] of the
    first text of [envvar.go] (no nested structs, no [Config]) does what
    [Parse] does now: the same fields are set, the same report is returned
    and the same variables are asked for. *)
Theorem unnested_Parse_agrees_with_Parse (v : option (rtype * value)) :
  flatArgument v = true ->
  unnested.Parse v = Parse v.
Proof.
  intros F. unfold unnested.Parse, Parse, ParseWithConfig.
  destruct v as [[typ d] |]; [| reflexivity].
  destruct typ as [k n m | n m fields
                  | m [k n m' | n m' fields | m' e | n' declares' held']
                  | n declares held];
    try reflexivity.
  destruct (Value'.IsNil d); [reflexivity |].
  cbn [Getenv Prefix]. unfold parseStruct, parseStructWith.
  cbn [structType structVal Type'.Fields].
  cbn [flatArgument] in F. rewrite forallb_forall in F.
  rewrite (parseAll_parseFields
             (parseField {| envPrefix := ""; structType := StructOf n m' fields;
                            structVal := Value'.Elem d;
                            config := syscall_Getenv |})).
  - now destruct (parseFields _ _ _ _) as [[vals errors] keys].
  - intros f I fv. split.
    + apply unnested_parse_flat. now apply F.
    + intros errors. specialize (F f I). unfold flatField in F.
      apply andb_prop in F as [F _]. apply andb_prop in F as [F _].
      apply andb_prop in F as [L _]. rewrite (parseField_leaf _ _ _ L).
      apply parseLeaf_no_list.
Qed.

(** X16. The first text of [envvar.go] does not look inside a field: for
    every field, a struct included, it asks for the one variable named by
    the field; and a field with no custom parser and of a kind
    [setFieldVal] has no case for (a struct, a pointer to one) is an
    [InvalidArgumentError] once that variable or a default is there, and
    keeps its value. *)
Theorem unnested_parse_does_not_descend (field : StructField)
    (fieldVal : value) :
  asked (unnested.parse field fieldVal) = [keyName field]
  /\ (customParser (Type_ field) = None ->
      supportedKind (Type'.Kind (Type_ field)) = false ->
      val (unnested.parse field fieldVal) = fieldVal
      /\ err (unnested.parse field fieldVal)
         = Some (if snd (syscall_Getenv (keyName field))
                    || snd (Tag.Lookup (Tag field) "default")
                 then InvalidArgumentError
                        ("Unsupported struct field type: "
                           ++ Type'.String (Type_ field))
                 else UnsetVariableError (keyName field))).
Proof.
  unfold unnested.parse, keyName.
  destruct (Tag.Lookup (Tag field) "default") as [dv df].
  destruct (syscall_Getenv _) as [ev fe]. cbn [snd].
  split.
  - destruct fe; [| destruct df]; try reflexivity;
      now destruct (unnested.setFieldVal _ _ _).
  - intros P S.
    assert (U : forall name raw,
               unnested.setFieldVal (mkValue (Type_ field) fieldVal true)
                 name raw
               = (fieldVal,
                  Some (InvalidArgumentError
                          ("Unsupported struct field type: "
                             ++ Type'.String (Type_ field))))).
    { intros name raw.
      unfold unnested.setFieldVal, maybeTextUnmarshaler,
        maybeTextUnmarshalerAddr, Value'.Kind.
      unfold customParser in P. cbn [Type_of data CanAddr].
      destruct (Type'.Methods (Type_ field)); try discriminate P.
      destruct (Type'.Kind (Type_ field)); try discriminate S; reflexivity. }
    destruct fe; [| destruct df]; cbn [orb]; rewrite ?U; now split.
Qed.

End unnested_facts.

(* ------------------------------------------------------------------ *)
(** ** What changed between the versions *)

Section version_facts.

Context `{Platform} `{Text}.

(** X17. In [part_002] a variable that is set to the empty string counts
    as not set when the field has a non-empty default: the field is bound
    from the default, whether or not the variable was found. *)
Theorem tagged_empty_value_gives_way_to_the_default (field : StructField)
    (fieldVal : value) :
  Tag.Get (Tag field) "default" <> "" ->
  fst (syscall_Getenv (keyName field)) = "" ->
  tagged.turn field fieldVal
  = let '(d, e) :=
      early.setFieldVal (mkValue (Type_ field) fieldVal true) (keyName field)
        (Tag.Get (Tag field) "default") in
    {| val := d; err := e; asked := [keyName field] |}.
Proof.
  intros D E. unfold tagged.turn. fold (keyName field).
  destruct (syscall_Getenv (keyName field)) as [varVal found].
  cbn [fst] in E. subst varVal.
  apply String.eqb_neq in D. rewrite D. cbn [negb andb String.eqb].
  rewrite andb_false_r. reflexivity.
Qed.

(** X18. A default written as the empty string: [part_002], which reads it
    with [Tag.Get], takes the field for required and returns the missing
    variable; the first text of [envvar.go], which reads it with
    [Tag.Lookup], sets a string field to the empty string and reports
    nothing. *)
Theorem empty_default_became_a_default (field : StructField)
    (fieldVal : value) :
  Tag.Lookup (Tag field) "default" = ("", true) ->
  snd (syscall_Getenv (keyName field)) = false ->
  Type'.Kind (Type_ field) = String ->
  customParser (Type_ field) = None ->
  tagged.turn field fieldVal
  = {| val := fieldVal;
       err := Some (errorString ("Missing required environment variable: "
                                   ++ keyName field));
       asked := [keyName field] |}
  /\ unnested.parse field fieldVal
     = {| val := VString ""; err := None; asked := [keyName field] |}.
Proof.
  intros D E K P. split.
  - unfold tagged.turn. fold (keyName field). unfold Tag.Get. rewrite D.
    destruct (syscall_Getenv (keyName field)) as [varVal found].
    cbn [snd] in E. subst found. reflexivity.
  - unfold unnested.parse. fold (keyName field). rewrite D.
    destruct (syscall_Getenv (keyName field)) as [varVal found].
    cbn [snd] in E. subst found.
    unfold unnested.setFieldVal, maybeTextUnmarshaler,
      maybeTextUnmarshalerAddr, Value'.Kind.
    unfold customParser in P. cbn [Type_of data CanAddr].
    destruct (Type'.Methods (Type_ field)); try discriminate P.
    now rewrite K.
Qed.

End version_facts.

(* ------------------------------------------------------------------ *)
(** ** The prefix as a name space *)

Lemma val_outer (field : StructField) (r1 r2 : result) :
  val r1 = val r2 -> val (outer field r1) = val (outer field r2).
Proof. unfold outer. intros E. destruct (Type_ field); cbn [val]; now rewrite E. Qed.

(** Two ways to set a field that agree field by field on the value, on
    the keys up to a prefix, and on whether there is an error, agree so
    on the struct. *)
Lemma parseStructWith_within (prefix : string)
    (pf1 pf2 : StructField -> value -> result) (fields : list StructField)
    (structVal : value) :
  (forall f v, In (f, v) (combine fields (Value'.Fields structVal)) ->
               val (pf2 f v) = val (pf1 f v)
               /\ asked (pf1 f v) = map (append prefix) (asked (pf2 f v))
               /\ (errorsOf (pf1 f v) = [] <-> errorsOf (pf2 f v) = [])) ->
  val (parseStructWith pf2 fields structVal)
  = val (parseStructWith pf1 fields structVal)
  /\ asked (parseStructWith pf1 fields structVal)
     = map (append prefix) (asked (parseStructWith pf2 fields structVal))
  /\ (collected pf1 fields structVal = []
      <-> collected pf2 fields structVal = []).
Proof.
  rewrite !parseStructWith_spec. cbn [val asked]. unfold collected.
  generalize (skipn (List.length fields) (Value'.Fields structVal)).
  induction (combine fields (Value'.Fields structVal)) as [| [f v] l IH];
    intros rest A.
  - cbn [map flat_map]. repeat split; trivial.
  - destruct (A f v (or_introl eq_refl)) as (V & K & E).
    destruct (IH rest (fun f' v' I => A f' v' (or_intror I)))
      as (Vs & Ks & Es).
    cbn [map flat_map app]. unfold visit at 1 3 5 7 9 11. cbn [fst snd].
    repeat split.
    + injection Vs as Vs. now rewrite V, Vs.
    + now rewrite map_app, K, Ks.
    + intros N. apply app_eq_nil in N as [N1 N2].
      now rewrite (proj1 E N1), (proj1 Es N2).
    + intros N. apply app_eq_nil in N as [N1 N2].
      now rewrite (proj2 E N1), (proj2 Es N2).
Qed.

Section namespace.

Context `{Platform}.

(** The name [setFieldVal] is given goes into the error and nowhere
    else. *)
Lemma setFieldVal_name (structField : Value) (name1 name2 raw : string) :
  fst (setFieldVal structField name1 raw)
  = fst (setFieldVal structField name2 raw)
  /\ (snd (setFieldVal structField name1 raw) = None
      <-> snd (setFieldVal structField name2 raw) = None).
Proof.
  unfold setFieldVal, setUnmarshFieldVal.
  destruct (cleverMaybeTextUnmarshaler structField) as [m |].
  - destruct (m raw (data structField)) as [d [c |]]; cbn [fst snd];
      split; try reflexivity; split; discriminate.
  - destruct (Value'.Kind structField);
      try destruct (isDuration _);
      try destruct (time_ParseDuration raw) as [? [? |]];
      try destruct (strconv.Atoi raw) as [? [? |]];
      try destruct (strconv.ParseUint raw 64) as [? [? |]];
      try destruct (strconv_ParseFloat raw 64) as [? [? |]];
      try destruct (strconv.ParseBool raw) as [? [? |]];
      cbn [fst snd]; split; try reflexivity; split; discriminate.
Qed.

Lemma errorsOf_nil (r : result) :
  (forall errors, err r <> Some (ErrorList errors)) ->
  (errorsOf r = [] <-> err r = None).
Proof.
  unfold errorsOf. intros N. destruct (err r) as [e |]; [| easy].
  destruct e; try (split; discriminate). now destruct (N Errors).
Qed.

Lemma parseLeaf_within (prefix : string) (ss1 ss2 : structStack)
    (field : StructField) (fieldVal : value) (varName : string) :
  envPrefix ss1 = (prefix ++ envPrefix ss2)%string ->
  (forall k, config ss2 k = config ss1 (prefix ++ k)%string) ->
  val (parseLeaf ss2 field fieldVal varName)
  = val (parseLeaf ss1 field fieldVal varName)
  /\ asked (parseLeaf ss1 field fieldVal varName)
     = map (append prefix) (asked (parseLeaf ss2 field fieldVal varName))
  /\ (err (parseLeaf ss1 field fieldVal varName) = None
      <-> err (parseLeaf ss2 field fieldVal varName) = None).
Proof.
  intros Ep G. unfold parseLeaf. rewrite Ep, G, string_app_assoc.
  destruct (Tag.Lookup (Tag field) "default") as [dv df].
  destruct (config ss1 _) as [ev fe].
  assert (S : forall raw,
             let r1 := setFieldVal (mkValue (Type_ field) fieldVal true)
                         (prefix ++ envPrefix ss2 ++ varName) raw in
             let r2 := setFieldVal (mkValue (Type_ field) fieldVal true)
                         (envPrefix ss2 ++ varName) raw in
             fst r2 = fst r1 /\ (snd r1 = None <-> snd r2 = None)).
  { intros raw.
    destruct (setFieldVal_name (mkValue (Type_ field) fieldVal true)
                (prefix ++ envPrefix ss2 ++ varName)
                (envPrefix ss2 ++ varName) raw) as [V E].
    split; [now symmetry | exact E]. }
  destruct fe; [| destruct df].
  - specialize (S ev). cbv zeta in S.
    destruct (setFieldVal _ (prefix ++ _) ev), (setFieldVal _ _ ev).
    cbn [fst snd val asked err map] in *. destruct S as [V E].
    repeat split; try assumption; apply E.
  - specialize (S dv). cbv zeta in S.
    destruct (setFieldVal _ (prefix ++ _) dv), (setFieldVal _ _ dv).
    cbn [fst snd val asked err map] in *. destruct S as [V E].
    repeat split; try assumption; apply E.
  - cbn [val asked err map]. repeat split; discriminate.
Qed.

Lemma parseField_within (prefix : string) (ss : structStack)
    (field : StructField) (fieldVal : value) :
  forall ss2,
    envPrefix ss = (prefix ++ envPrefix ss2)%string ->
    (forall k, config ss2 k = config ss (prefix ++ k)%string) ->
    val (parseField ss2 field fieldVal) = val (parseField ss field fieldVal)
    /\ asked (parseField ss field fieldVal)
       = map (append prefix) (asked (parseField ss2 field fieldVal))
    /\ (errorsOf (parseField ss field fieldVal) = []
        <-> errorsOf (parseField ss2 field fieldVal) = []).
Proof.
  apply (parseField_walk_ind
           (fun ss f v r => forall ss2,
                envPrefix ss = (prefix ++ envPrefix ss2)%string ->
                (forall k, config ss2 k = config ss (prefix ++ k)%string) ->
                val (parseField ss2 f v) = val r
                /\ asked r = map (append prefix) (asked (parseField ss2 f v))
                /\ (errorsOf r = [] <-> errorsOf (parseField ss2 f v) = []))).
  - intros ss0 f v L ss2 Ep G. rewrite (parseField_leaf ss2 f v L).
    destruct (parseLeaf_within prefix ss0 ss2 f v (keyName f) Ep G)
      as (V & K & E).
    split; [exact V |]. split; [exact K |].
    rewrite !errorsOf_nil by (intros errors; apply parseLeaf_no_list).
    exact E.
  - intros ss0 f v N D ss2 _ _. destruct (isNested_inv f N) as (C & elem & R).
    rewrite (parseField_nested ss2 f v elem C R), foundDefaultTagError_spec, D.
    repeat split; trivial.
  - intros ss0 f v elem N D R newSS IH ss2 Ep G.
    destruct (isNested_inv f N) as (C & _).
    rewrite (parseField_nested ss2 f v elem C R), foundDefaultTagError_spec, D.
    rewrite !asked_outer, !errorsOf_outer, !parseStruct_errorsOf.
    unfold parseStruct. cbn [push structType structVal].
    destruct (parseStructWith_within prefix
                (parseField newSS)
                (parseField (push ss2 (Tag.Get (Tag f) "envvar") elem
                               (innerRecord f v)))
                (Type'.Fields elem) (innerRecord f v)) as (V & K & E).
    { intros f' v' I. apply (IH f' v' I).
      - subst newSS. cbn [push envPrefix]. now rewrite Ep, string_app_assoc.
      - intros k. subst newSS. cbn [push config]. apply G. }
    split; [now apply val_outer |]. split; [exact K | exact E].
Qed.

(** X19. The prefix is a name space: a call with the prefix [p] does to
    the record what a call without prefix does in the environment seen
    from inside [p]. The record is left the same, the keys asked for are
    the same with [p] in front, and one call reports an error exactly if
    the other does. *)
Theorem prefix_is_a_name_space (typ : rtype) (d : value) (cfg : Config)
    (r : result) :
  ParseWithConfig (Some (typ, d)) cfg = Return r ->
  exists r',
    ParseWithConfig (Some (typ, d))
      {| Getenv := Some (within (Prefix cfg) (lookupOf cfg)); Prefix := "" |}
    = Return r'
    /\ val r' = val r
    /\ asked r = map (append (Prefix cfg)) (asked r')
    /\ (err r = None <-> err r' = None).
Proof.
  intros E.
  destruct (notPointerToStruct typ) eqn:N.
  - rewrite (proj1 (ParseWithConfig_not_pointer_to_struct typ d cfg) N) in E.
    injection E as <-. eexists. split.
    + apply (proj1 (ParseWithConfig_not_pointer_to_struct typ d _) N).
    + repeat split; discriminate.
  - destruct (Value'.IsNil d) eqn:Nil.
    + rewrite (proj2 (ParseWithConfig_not_pointer_to_struct typ d cfg) N Nil)
        in E.
      injection E as <-. eexists. split.
      * apply (proj2 (ParseWithConfig_not_pointer_to_struct typ d _) N Nil).
      * repeat split; discriminate.
    + destruct (notPointerToStruct_false typ N) as (m & name & sm & fields & ->).
      cbn [ParseWithConfig] in E |- *. rewrite Nil in E |- *.
      injection E as <-. eexists. split; [reflexivity |].
      cbn [val asked err Getenv Prefix]. fold (lookupOf cfg).
      rewrite !parseStruct_err, !parseStruct_errorsOf.
      unfold parseStruct. cbn [structType structVal].
      destruct (parseStructWith_within (Prefix cfg)
                  (parseField {| envPrefix := Prefix cfg;
                                 structType := StructOf name sm fields;
                                 structVal := Value'.Elem d;
                                 config := lookupOf cfg |})
                  (parseField {| envPrefix := "";
                                 structType := StructOf name sm fields;
                                 structVal := Value'.Elem d;
                                 config := within (Prefix cfg) (lookupOf cfg) |})
                  (Type'.Fields (StructOf name sm fields)) (Value'.Elem d))
        as (V & K & C).
      { intros f' v' _. apply parseField_within.
        - cbn [envPrefix]. now rewrite string_app_nil_r.
        - intros k. reflexivity. }
      split; [now rewrite V |]. split; [exact K |].
      destruct (collected _ _ _), (collected _ _ _); destruct C as [C1 C2];
        split; intros Z; try reflexivity; try discriminate Z;
        try discriminate (C1 eq_refl); discriminate (C2 eq_refl).
Qed.

End namespace.

(* ------------------------------------------------------------------ *)
(** ** The properties on the records of the test suite *)

#[local] Existing Instance barePlatform.

(** [Foo] has the override ["BAR"] and the default ["biz"]. With [BAR] set
    to the empty string, the empty string is what [Foo] is bound from; with
    [BAR] not set, the default is; and the required [Bar] of [threeRequired]
    is reported unset under its key. *)
Lemma leaf_resolution_policy_witness :
  isLeaf Foo = true
  /\ parseField (stackOn [("BAR", "")] "" string_t VOpaque) Foo (VString "old")
     = bound Foo (VString "old") "BAR" ""
  /\ parseField (stackOn [] "" string_t VOpaque) Foo (VString "old")
     = bound Foo (VString "old") "BAR" "biz"
  /\ parseField (stackOn [] "P_" string_t VOpaque)
       (mkStructField "Bar" [("envvar", "BAR")] int8_t) (VInt 0)
     = {| val := VInt 0; err := Some (UnsetVariableError "P_BAR");
          asked := ["P_BAR"] |}.
Proof.
  split; [reflexivity |]. split; [| split].
  - exact (proj1 (leaf_resolution_policy
                    (stackOn [("BAR", "")] "" string_t VOpaque) Foo
                    (VString "old") eq_refl) "" eq_refl).
  - exact (proj1 (proj2 (leaf_resolution_policy
                           (stackOn [] "" string_t VOpaque) Foo
                           (VString "old") eq_refl)) "" "biz" eq_refl eq_refl).
  - exact (proj2 (proj2 (leaf_resolution_policy
                           (stackOn [] "P_" string_t VOpaque)
                           (mkStructField "Bar" [("envvar", "BAR")] int8_t)
                           (VInt 0) eq_refl)) "" "" eq_refl eq_refl).
Defined.

(** [TestUnmarshalTextError]; a struct with a parser under a prefix: one
    lookup of [P_START], nothing asked for its field [Sec]; and a field of
    type [interface{}] that holds an [alwaysErrorUnmarshaler]: the parser
    of the value it holds is called. *)
Lemma custom_parser_is_leaf_and_first_witness :
  cleverMaybeTextUnmarshaler
    (mkValue alwaysErrorUnmarshaler (VStruct []) false) = Some alwaysError
  /\ setFieldVal (mkValue alwaysErrorUnmarshaler (VStruct []) false)
       "alwaysError" ""
     = (VStruct [],
        Some (InvalidVariableError "alwaysError" ""
                (errorString "this function always returns an error")))
  /\ asked (parseField (stackOn [("P_START", "now")] "P_" stamp VOpaque)
              Started (VStruct [VInt 0]))
     = ["P_START"]
  /\ parseField (stackOn [("Anything", "x")] "" string_t VOpaque) Anything
       (VIface (Some (VStruct [])))
     = {| val := VIface (Some (VStruct []));
          err := Some (InvalidVariableError "Anything" "x"
                         (errorString
                            "this function always returns an error"));
          asked := ["Anything"] |}.
Proof.
  split; [reflexivity |]. split; [| split].
  - exact (proj1 (proj2 (proj2 custom_parser_is_leaf_and_first))
             (mkValue alwaysErrorUnmarshaler (VStruct []) false)
             alwaysError "alwaysError" "" eq_refl eq_refl).
  - exact (proj1 (proj2 (proj2
             (proj2 (proj2 (proj2 custom_parser_is_leaf_and_first))
                (stackOn [("P_START", "now")] "P_" stamp VOpaque)
                Started (VStruct [VInt 0]) alwaysError eq_refl eq_refl)))).
  - exact (proj2 (proj2 (proj2
             (proj2 (proj2 (proj2 custom_parser_is_leaf_and_first))
                (stackOn [("Anything", "x")] "" string_t VOpaque)
                Anything (VIface (Some (VStruct [])))
                (through (Implements alwaysError)) eq_refl eq_refl)))
             "x" (VIface (Some (VStruct [])))
             (errorString "this function always returns an error")
             (or_introl eq_refl) eq_refl).
Defined.

(** C3, where the claim fails: the type of [Unmarshaler] is the interface
    [encoding.TextUnmarshaler], which satisfies the capability, and the
    field holds nothing. The test on the value finds no parser, none is
    called, and with [Unmarshaler] set to ["x"] the field is reported as
    of an unsupported type and not as a variable its parser refused. *)
Lemma nil_interface_field_has_no_parser :
  customParser (Type_ Unmarshaler) <> None
  /\ cleverMaybeTextUnmarshaler
       (mkValue (Type_ Unmarshaler) (VIface None) true) = None
  /\ parseField (stackOn [("Unmarshaler", "x")] "" string_t VOpaque)
       Unmarshaler (VIface None)
     = {| val := VIface None;
          err := Some (InvalidFieldError "Unmarshaler"
                         "Unsupported struct field type: encoding.TextUnmarshaler");
          asked := ["Unmarshaler"] |}.
Proof.
  split; [discriminate |]. split; reflexivity.
Qed.

(** [TestParseNestedAlias]: the field [A] with override ["A_"]. *)
Lemma nested_prefix_accumulates_witness :
  isNested Outer_A = true
  /\ snd (Tag.Lookup (Tag Outer_A) "default") = false
  /\ exists newSS,
       parseField (stackOn [("A_X", "1")] "" OuterAlias VOpaque) Outer_A
         (VStruct [VString ""])
       = parseStruct newSS
       /\ envPrefix newSS = "A_"
       /\ asked (parseField newSS Inner_X (VString "")) = ["A_X"].
Proof.
  split; [reflexivity |]. split; [reflexivity |].
  destruct (nested_prefix_accumulates
              (stackOn [("A_X", "1")] "" OuterAlias VOpaque) Outer_A
              (VStruct [VString ""]) eq_refl eq_refl)
    as (newSS & P & _ & _ & E & _ & L & _).
  exists newSS. split; [exact P |]. split; [exact E |].
  exact (L Inner_X (VString "") eq_refl).
Defined.

(** [TestParseDefaultOnStruct], the field by value, with [A_X] set; and
    the error in the report of the record. *)
Lemma default_on_nested_record_is_usage_error_witness :
  isNested Outer_A_default = true
  /\ snd (Tag.Lookup (Tag Outer_A_default) "default") = true
  /\ parseField (stackOn [("A_X", "1")] "" OuterDefault VOpaque)
       Outer_A_default (VStruct [VString ""])
     = {| val := VStruct [VString ""];
          err := Some (InvalidFieldError "A"
                         "default tag is not supported for nested structs.");
          asked := [] |}
  /\ exists errors,
       err (parseStruct
              (stackOn [("A_X", "1")] ""
                 (StructOf "envvar.Outer" NoUnmarshalText
                    [Outer_Aptr_default; Outer_A_default])
                 (VStruct [VPtr None; VStruct [VString ""]])))
       = Some (ErrorList errors)
       /\ In (InvalidFieldError "A"
                "default tag is not supported for nested structs.") errors.
Proof.
  split; [reflexivity |]. split; [reflexivity |]. split.
  - exact (proj1 (default_on_nested_record_is_usage_error
                    (stackOn [("A_X", "1")] "" OuterDefault VOpaque)
                    Outer_A_default (VStruct [VString ""]) eq_refl eq_refl)).
  - exact (proj2 (default_on_nested_record_is_usage_error
                    (stackOn [("A_X", "1")] "" OuterDefault VOpaque)
                    Outer_A_default (VStruct [VString ""]) eq_refl eq_refl)
             [Outer_Aptr_default] [] [VPtr None] [] "envvar.Outer"
             NoUnmarshalText "" (getenv [("A_X", "1")]) eq_refl).
Defined.

(** [TestParseNestedAliasPointer] with the field [A] left nil. *)
Lemma nil_reference_is_allocated_witness :
  Type_ Outer_Aptr = PtrTo NoUnmarshalText Inner
  /\ isNested Outer_Aptr = true
  /\ snd (Tag.Lookup (Tag Outer_Aptr) "default") = false
  /\ parseField (stackOn [("A_X", "1")] "" OuterAliasPointer VOpaque) Outer_Aptr
       (VPtr None)
     = {| val := VPtr (Some (VStruct [VString "1"])); err := None;
          asked := ["A_X"] |}.
Proof.
  split; [reflexivity |]. split; [reflexivity |]. split; [reflexivity |].
  exact (proj1 (nil_reference_is_allocated
                  (stackOn [("A_X", "1")] "" OuterAliasPointer VOpaque) Outer_Aptr
                  NoUnmarshalText Inner eq_refl eq_refl eq_refl)).
Defined.

(** [TestParseDefaultOnStruct], the field by reference, nil before. *)
Lemma nil_reference_allocated_before_default_check_witness :
  Type_ Outer_Aptr_default = PtrTo NoUnmarshalText Inner
  /\ isNested Outer_Aptr_default = true
  /\ snd (Tag.Lookup (Tag Outer_Aptr_default) "default") = true
  /\ val (parseField (stackOn [] "" OuterDefault VOpaque) Outer_Aptr_default
            (VPtr None))
     <> VPtr None.
Proof.
  split; [reflexivity |]. split; [reflexivity |]. split; [reflexivity |].
  exact (proj2 (nil_reference_allocated_before_default_check
                  (stackOn [] "" OuterDefault VOpaque) Outer_Aptr_default
                  NoUnmarshalText Inner eq_refl eq_refl eq_refl)).
Defined.

(** An [int] field [N] with an empty name override and without one. *)
Lemma empty_override_is_no_override_witness :
  Tag.Lookup (Tag N_empty) "envvar" = ("", true)
  /\ snd (Tag.Lookup (Tag N_plain) "envvar") = false
  /\ parseField (stackOn [("N", "7")] "" int_t VOpaque) N_empty (VInt 0)
     = parseField (stackOn [("N", "7")] "" int_t VOpaque) N_plain (VInt 0)
  /\ asked (parseField (stackOn [("N", "7")] "" int_t VOpaque) N_empty (VInt 0))
     = ["N"].
Proof.
  split; [reflexivity |]. split; [reflexivity |]. split.
  - exact (proj1 (empty_override_is_no_override
                    (stackOn [("N", "7")] "" int_t VOpaque) N_empty N_plain
                    (VInt 0) eq_refl eq_refl eq_refl eq_refl eq_refl)).
  - exact (proj1 (proj2 (empty_override_is_no_override
                           (stackOn [("N", "7")] "" int_t VOpaque) N_empty
                           N_plain (VInt 0) eq_refl eq_refl eq_refl eq_refl
                           eq_refl)) eq_refl).
Defined.

(** Three required fields, none of them set. *)
Lemma report_collects_every_error_witness :
  conforms threeRequired (zero threeRequired) = true
  /\ exists r,
       ParseWithConfig (addressOf threeRequired (zero threeRequired))
         {| Getenv := Some (getenv []); Prefix := "" |}
       = Return r
       /\ err r = Some (ErrorList [UnsetVariableError "STRING";
                                   UnsetVariableError "INT";
                                   UnsetVariableError "BAR"]).
Proof.
  split; [reflexivity |].
  destruct (report_collects_every_error "envvar.three" NoUnmarshalText
              (Type'.Fields threeRequired) (zero threeRequired)
              {| Getenv := Some (getenv []); Prefix := "" |} eq_refl)
    as (r & R & _ & _ & _ & _ & U).
  exists r. split; [exact R |].
  apply (U _ _ _ (VString "") (VInt 0) (VInt 0) eq_refl eq_refl).
  intros f [<- | [<- | [<- | []]]]; repeat split.
Defined.

(** C2, where the claim fails: in [TestParseDefaultOnStruct] the leaf [X] of
    both nested records is a field of the tree, required and not set, and
    the call returns without having asked for it. *)
Lemma defaulted_record_is_not_visited :
  ~ visitsEveryField OuterDefault (zero OuterDefault)
      {| Getenv := Some (getenv []); Prefix := "" |}.
Proof.
  intros V. exact (V _ eq_refl "A_X" (or_introl eq_refl)).
Qed.

(** An [int8] field bound from ["300"], a [uint8] field from ["256"]. *)
Lemma integer_conversion_checks_64_bits_witness :
  cleverMaybeTextUnmarshaler (mkValue int8_t (VInt 0) true) = None
  /\ intWidth (Value'.Kind (mkValue int8_t (VInt 0) true)) = Some 8
  /\ isDuration int8_t = false
  /\ decimalInt "300" = Some 300
  /\ fitsInt64 300
  /\ setFieldVal (mkValue int8_t (VInt 0) true) "INT8" "300"
     = (VInt (Value'.int 8 300), None)
  /\ uintWidth (Value'.Kind (mkValue uint8_t (VUint 0) true)) = Some 8
  /\ decimalUint "256" = Some 256
  /\ setFieldVal (mkValue uint8_t (VUint 0) true) "UINT8" "256"
     = (VUint (Value'.uint 8 256), None).
Proof.
  split; [reflexivity |]. split; [reflexivity |]. split; [reflexivity |].
  split; [reflexivity |].
  assert (F : fitsInt64 300) by (unfold fitsInt64; lia).
  split; [exact F |]. split.
  - exact (proj1 (proj2 (proj2
             (proj1 (integer_conversion_checks_64_bits
                       (mkValue int8_t (VInt 0) true) "INT8" "300" 8 eq_refl)
                eq_refl eq_refl))) 300 eq_refl F).
  - split; [reflexivity |]. split; [reflexivity |].
    assert (L : 256 < 2 ^ 64) by lia.
    exact (proj1 (proj2 (proj2 (proj2
             (proj2 (integer_conversion_checks_64_bits
                       (mkValue uint8_t (VUint 0) true) "UINT8" "256" 8
                       eq_refl)
                eq_refl)))) 256 eq_refl L).
Defined.

(** C5 at the inputs the code misses: 300 does not fit an [int8] and 256
    does not fit a [uint8], and both conversions succeed, storing 44 and 0.
    The range is checked, by [strconv.Atoi] and [ParseUint(v, 10, 64)], but
    at 64 bits whatever the width of the field: 2^63 for the [int8] and
    2^64 for the [uint8] are refused as out of range. *)
Lemma narrow_overflow_is_not_an_error :
  (decimalInt "300" = Some 300
   /\ ~ (- 2 ^ 7 <= 300 < 2 ^ 7)
   /\ setFieldVal (mkValue int8_t (VInt 0) true) "INT8" "300"
      = (VInt 44, None))
  /\ (decimalUint "256" = Some 256
      /\ ~ (256 < 2 ^ 8)
      /\ setFieldVal (mkValue uint8_t (VUint 0) true) "UINT8" "256"
         = (VUint 0, None))
  /\ setFieldVal (mkValue int8_t (VInt 0) true) "INT8" "9223372036854775808"
     = (VInt 0,
        Some (InvalidVariableError "INT8" "9223372036854775808"
                (NumError "Atoi" "9223372036854775808" ErrRange)))
  /\ setFieldVal (mkValue uint8_t (VUint 0) true) "UINT8"
       "18446744073709551616"
     = (VUint 0,
        Some (InvalidVariableError "UINT8" "18446744073709551616"
                (NumError "ParseUint" "18446744073709551616" ErrRange))).
Proof.
  repeat split; try reflexivity; lia.
Qed.

(* ------------------------------------------------------------------ *)
(** ** The further properties on records and environments *)

#[local] Existing Instance bareText.

(** [TestParseNestedAlias] under the prefix ["P_"]: the key of the leaf of
    the second nested record starts with it. *)
Lemma asked_keys_start_with_the_prefix_witness :
  (exists r,
      ParseWithConfig (addressOfZero OuterAlias)
        {| Getenv := Some (getenv []); Prefix := "P_" |} = Return r
      /\ asked r = ["P_A_X"; "P_B_X"])
  /\ String.prefix "P_" "P_B_X" = true.
Proof.
  split; [eexists; split; reflexivity |].
  exact (asked_keys_start_with_the_prefix (addressOfZero OuterAlias)
           {| Getenv := Some (getenv []); Prefix := "P_" |} _ "P_B_X"
           eq_refl (or_intror (or_introl eq_refl))).
Defined.

(** Three required fields, none of them set: a flat report. *)
Lemma returned_error_is_structural_or_flat_report_witness :
  exists r e,
    ParseWithConfig (addressOfZero threeRequired)
      {| Getenv := Some (getenv []); Prefix := "" |} = Return r
    /\ err r = Some e
    /\ ((exists msg,
            e = InvalidArgumentError msg /\ asked r = []
            /\ val r = VPtr (Some (zero threeRequired)))
        \/ (exists errors,
               e = ErrorList errors /\ errors <> []
               /\ forall e', In e' errors -> fieldLevel e' = true)).
Proof.
  eexists. eexists. split; [reflexivity |]. split; [reflexivity |].
  exact (returned_error_is_structural_or_flat_report
           (PtrTo NoUnmarshalText threeRequired)
           (VPtr (Some (zero threeRequired)))
           {| Getenv := Some (getenv []); Prefix := "" |} _ _
           eq_refl eq_refl).
Defined.

(** [INT] is set to ["x"] and [BAR] is not set: both entries of the report
    are justified by the environment. *)
Lemma report_is_justified_by_the_lookups_witness :
  exists r,
    ParseWithConfig (addressOfZero threeRequired)
      {| Getenv := Some (getenv [("STRING", "a"); ("INT", "x")]);
         Prefix := "" |} = Return r
    /\ err r = Some (ErrorList [InvalidVariableError "INT" "x"
                                  (NumError "Atoi" "x" ErrSyntax);
                                UnsetVariableError "BAR"])
    /\ justified (getenv [("STRING", "a"); ("INT", "x")]) (asked r)
         (UnsetVariableError "BAR")
    /\ justified (getenv [("STRING", "a"); ("INT", "x")]) (asked r)
         (InvalidVariableError "INT" "x" (NumError "Atoi" "x" ErrSyntax)).
Proof.
  eexists. split; [reflexivity |]. split; [reflexivity |]. split.
  - exact (report_is_justified_by_the_lookups
             (PtrTo NoUnmarshalText threeRequired)
             (VPtr (Some (zero threeRequired)))
             {| Getenv := Some (getenv [("STRING", "a"); ("INT", "x")]);
                Prefix := "" |} _ _ (UnsetVariableError "BAR")
             eq_refl eq_refl (or_intror (or_introl eq_refl))).
  - split; [right; now left | now left].
Defined.

(** A variable no field names changes nothing. *)
Lemma result_depends_on_the_asked_keys_only_witness :
  exists r,
    ParseWithConfig (addressOfZero threeRequired)
      {| Getenv := Some (getenv [("STRING", "a"); ("INT", "1"); ("BAR", "2")]);
         Prefix := "" |} = Return r
    /\ asked r = ["STRING"; "INT"; "BAR"]
    /\ ParseWithConfig (addressOfZero threeRequired)
         {| Getenv := Some (getenv [("HOME", "/root"); ("STRING", "a");
                                    ("INT", "1"); ("BAR", "2")]);
            Prefix := "" |} = Return r.
Proof.
  eexists. split; [reflexivity |]. split; [reflexivity |].
  apply (result_depends_on_the_asked_keys_only
           (addressOfZero threeRequired)
           {| Getenv := Some (getenv [("STRING", "a"); ("INT", "1");
                                      ("BAR", "2")]);
              Prefix := "" |}
           {| Getenv := Some (getenv [("HOME", "/root"); ("STRING", "a");
                                      ("INT", "1"); ("BAR", "2")]);
              Prefix := "" |} _ eq_refl eq_refl).
  intros k [<- | [<- | [<- | []]]]; reflexivity.
Defined.

(** [TestParseNestedAliasPointer] with [A_X] set: the first call allocates
    both records, sets one leaf and reports the other; the second call, on
    what the first left, does the same and changes nothing. *)
Lemma second_call_changes_nothing_witness :
  plain (PtrTo NoUnmarshalText OuterAliasPointer) = true
  /\ exists r,
       ParseWithConfig (addressOfZero OuterAliasPointer)
         {| Getenv := Some (getenv [("A_X", "a")]); Prefix := "" |} = Return r
       /\ val r = VPtr (Some (VStruct [VPtr (Some (VStruct [VString "a"]));
                                       VPtr (Some (VStruct [VString ""]))]))
       /\ ParseWithConfig (Some (PtrTo NoUnmarshalText OuterAliasPointer, val r))
            {| Getenv := Some (getenv [("A_X", "a")]); Prefix := "" |}
          = Return r.
Proof.
  split; [reflexivity |].
  eexists. split; [reflexivity |]. split; [reflexivity |].
  exact (second_call_changes_nothing
           (PtrTo NoUnmarshalText OuterAliasPointer)
           (VPtr (Some (zero OuterAliasPointer)))
           {| Getenv := Some (getenv [("A_X", "a")]); Prefix := "" |} _
           eq_refl eq_refl).
Defined.

(** A field [Tags []string]: unsupported once [Tags] is set, unset before. *)
Lemma unsupported_field_is_reported_once_it_has_a_value_witness :
  parseField (stackOn [("Tags", "a,b")] "" string_t VOpaque) Tags VOpaque
  = {| val := VOpaque;
       err := Some (InvalidFieldError "Tags"
                      "Unsupported struct field type: []string");
       asked := ["Tags"] |}
  /\ parseField (stackOn [] "" string_t VOpaque) Tags VOpaque
     = {| val := VOpaque; err := Some (UnsetVariableError "Tags");
          asked := ["Tags"] |}.
Proof.
  split.
  - exact (unsupported_field_is_reported_once_it_has_a_value
             (stackOn [("Tags", "a,b")] "" string_t VOpaque) Tags VOpaque
             eq_refl eq_refl eq_refl).
  - exact (unsupported_field_is_reported_once_it_has_a_value
             (stackOn [] "" string_t VOpaque) Tags VOpaque
             eq_refl eq_refl eq_refl).
Defined.

(** The [int] field [N] with [N] set to ["x"]: the field keeps its 5; with
    [N] set to ["7"], a field that held 5 and one that held 9 both end up
    with 7. *)
Lemma leaf_value_is_decided_by_the_environment_witness :
  val (parseField (stackOn [("N", "x")] "" int_t VOpaque) N_plain (VInt 5))
  = VInt 5
  /\ val (parseField (stackOn [("N", "7")] "" int_t VOpaque) N_plain (VInt 9))
     = val (parseField (stackOn [("N", "7")] "" int_t VOpaque) N_plain (VInt 5)).
Proof.
  split.
  - apply (proj1 (leaf_value_is_decided_by_the_environment
                    (stackOn [("N", "x")] "" int_t VOpaque) N_plain (VInt 5)
                    eq_refl eq_refl ltac:(discriminate))).
    discriminate.
  - exact (proj2 (proj2 (leaf_value_is_decided_by_the_environment
                           (stackOn [("N", "7")] "" int_t VOpaque) N_plain
                           (VInt 5) eq_refl eq_refl ltac:(discriminate))
                    (VInt 9)) eq_refl).
Defined.

(** A report of two errors is two lines. *)
Lemma report_message_has_one_line_per_error_witness :
  lines (Error (ErrorList [UnsetVariableError "STRING";
                           InvalidVariableError "INT" "x"
                             (NumError "Atoi" "x" ErrSyntax)]))
  = ["envvar: " ++ Error (UnsetVariableError "STRING");
     "envvar: " ++ Error (InvalidVariableError "INT" "x"
                            (NumError "Atoi" "x" ErrSyntax))]%string.
Proof.
  apply (report_message_has_one_line_per_error
           [UnsetVariableError "STRING";
            InvalidVariableError "INT" "x" (NumError "Atoi" "x" ErrSyntax)]).
  - discriminate.
  - intros e [<- | [<- | []]]; reflexivity.
Defined.

(** The message of the report of three unset fields. *)
Lemma returned_message_starts_with_envvar_witness :
  exists r e,
    ParseWithConfig (addressOfZero threeRequired)
      {| Getenv := Some (getenv []); Prefix := "" |} = Return r
    /\ err r = Some e
    /\ String.prefix "envvar: " (Error e) = true.
Proof.
  eexists. eexists. split; [reflexivity |]. split; [reflexivity |].
  exact (returned_message_starts_with_envvar
           (PtrTo NoUnmarshalText threeRequired)
           (VPtr (Some (zero threeRequired)))
           {| Getenv := Some (getenv []); Prefix := "" |} _ _
           eq_refl eq_refl).
Defined.

(** The tag [envvar:"BAR" default:""]: the empty default is found, and
    there is no [required]. *)
Lemma getStructTag_finds_the_first_pair_witness :
  getStructTag "Foo" (tagText [("envvar", "BAR"); ("default", "")]) "default"
  = Some ("", true, None)
  /\ getStructTag "Foo" (tagText [("envvar", "BAR"); ("default", "")])
       "required"
     = Some ("", false, None).
Proof.
  split.
  - apply (getStructTag_finds_the_first_pair "Foo" "default"
             [("envvar", "BAR"); ("default", "")]).
    intros kv [<- | [<- | []]]; split; reflexivity.
  - apply (getStructTag_finds_the_first_pair "Foo" "required"
             [("envvar", "BAR"); ("default", "")]).
    intros kv [<- | [<- | []]]; split; reflexivity.
Defined.

(** A tag that is one word. *)
Lemma getStructTag_returns_and_needs_a_colon_witness :
  getStructTag "Foo" "required" "default" = Some ("", false, None).
Proof.
  exact (proj2 (getStructTag_returns_and_needs_a_colon "Foo" "required"
                  "default") eq_refl).
Defined.

(** The tag [default:biz], and the same with a quotation mark that opens
    the value and none that closes it. *)
Lemma getStructTag_refuses_an_unquoted_value_witness :
  getStructTag "Foo" "default:biz" "envvar"
  = Some ("", false,
          Some (errorString
                  "envvar: Invalid struct tag for field named Foo. EOF"))
  /\ getStructTag "Foo"
       ("default" ++ String.String ":"
          ("" ++ String.String quotationMark "biz"))
       "default"
     = Some ("", false,
             Some (errorString
                     "envvar: Invalid struct tag for field named Foo. EOF")).
Proof.
  split.
  - exact (getStructTag_refuses_an_unquoted_value "Foo" "default" "biz"
             "envvar" eq_refl (or_introl eq_refl)).
  - apply (getStructTag_refuses_an_unquoted_value "Foo" "default"
             ("" ++ String.String quotationMark "biz") "default" eq_refl).
    right. exists "", "biz". repeat split.
Defined.

(** [A] is set to a number, [B] to ["x"], [C] to ["c"]: [A] is set, the
    error is the one of [B], and [C] is neither asked for nor set. *)
Lemma tagged_Parse_returns_at_the_first_error_witness :
  exists e,
    err (@tagged.turn (processWith [("A", "1"); ("B", "x"); ("C", "c")])
           bareText (mkStructField "B" [] int_t) (VInt 0)) = Some e
    /\ @tagged.Parse (processWith [("A", "1"); ("B", "x"); ("C", "c")])
         bareText (addressOfZero untaggedRecord)
       = Return {| val := VPtr (Some (VStruct [VInt 1; VInt 0; VString ""]));
                   err := Some e;
                   asked := ["A"; "B"] |}.
Proof.
  eexists. split; [reflexivity |].
  apply (@tagged_Parse_returns_at_the_first_error
           (processWith [("A", "1"); ("B", "x"); ("C", "c")]) bareText
           NoUnmarshalText NoUnmarshalText "envvar.config"
           [mkStructField "A" [] int_t] [mkStructField "C" [] string_t]
           [VInt 0] [VString ""] (mkStructField "B" [] int_t) (VInt 0) _
           eq_refl).
  - intros fv [<- | []]. reflexivity.
  - reflexivity.
Defined.

(** A record without tags, with [A] and [B] set and [C] not. *)
Lemma tagged_Parse_agrees_with_untagged_witness :
  untaggedArgument (addressOfZero untaggedRecord) = true
  /\ @tagged.Parse (processWith [("A", "1"); ("B", "2")]) bareText
       (addressOfZero untaggedRecord)
     = Return {| val := VPtr (Some (VStruct [VInt 1; VInt 2; VString ""]));
                 err := Some (errorString
                                "Missing required environment variable: C");
                 asked := ["A"; "B"; "C"] |}
  /\ @untagged.Parse (processWith [("A", "1"); ("B", "2")]) bareText
       (addressOfZero untaggedRecord)
     = Return {| val := VPtr (Some (VStruct [VInt 1; VInt 2; VString ""]));
                 err := Some (errorString
                                "Missing required environment variable: C");
                 asked := ["A"; "B"; "C"] |}.
Proof.
  split; [reflexivity |]. split; [reflexivity |].
  rewrite <- (@tagged_Parse_agrees_with_untagged
                (processWith [("A", "1"); ("B", "2")]) bareText
                (addressOfZero untaggedRecord) eq_refl).
  reflexivity.
Defined.

(** Three leaf fields, [INT] set to ["x"] and [BAR] not set. *)
Lemma unnested_Parse_agrees_with_Parse_witness :
  flatArgument (addressOfZero threeRequired) = true
  /\ @Parse (processWith [("STRING", "a"); ("INT", "x")])
       (addressOfZero threeRequired)
     = Return {| val := VPtr (Some (VStruct [VString "a"; VInt 0; VInt 0]));
                 err := Some (ErrorList
                                [InvalidVariableError "INT" "x"
                                   (NumError "Atoi" "x" ErrSyntax);
                                 UnsetVariableError "BAR"]);
                 asked := ["STRING"; "INT"; "BAR"] |}
  /\ @unnested.Parse (processWith [("STRING", "a"); ("INT", "x")])
       (addressOfZero threeRequired)
     = @Parse (processWith [("STRING", "a"); ("INT", "x")])
         (addressOfZero threeRequired).
Proof.
  split; [reflexivity |]. split; [reflexivity |].
  exact (@unnested_Parse_agrees_with_Parse
           (processWith [("STRING", "a"); ("INT", "x")])
           (addressOfZero threeRequired) eq_refl).
Defined.

(** The field [A Inner] with the override ["A_"]: the first text asks for
    [A_] itself, and with [A_] set the field is an invalid argument. *)
Lemma unnested_parse_does_not_descend_witness :
  asked (@unnested.parse (processWith [("A_", "x")]) Outer_A (zero Inner))
  = ["A_"]
  /\ err (@unnested.parse (processWith [("A_", "x")]) Outer_A (zero Inner))
     = Some (InvalidArgumentError
               "Unsupported struct field type: envvar.Inner")
  /\ err (@unnested.parse (processWith []) Outer_A (zero Inner))
     = Some (UnsetVariableError "A_").
Proof.
  split; [| split].
  - exact (proj1 (@unnested_parse_does_not_descend
                    (processWith [("A_", "x")]) Outer_A (zero Inner))).
  - exact (proj2 (proj2 (@unnested_parse_does_not_descend
                           (processWith [("A_", "x")]) Outer_A (zero Inner))
                    eq_refl eq_refl)).
  - exact (proj2 (proj2 (@unnested_parse_does_not_descend
                           (processWith []) Outer_A (zero Inner))
                    eq_refl eq_refl)).
Defined.

(** [Foo] has the default ["biz"]; [BAR] is set, to the empty string. *)
Lemma tagged_empty_value_gives_way_to_the_default_witness :
  @syscall_Getenv (processWith [("BAR", "")]) "BAR" = ("", true)
  /\ @tagged.turn (processWith [("BAR", "")]) bareText Foo (VString "old")
     = {| val := VString "biz"; err := None; asked := ["BAR"] |}.
Proof.
  split; [reflexivity |].
  apply (@tagged_empty_value_gives_way_to_the_default
           (processWith [("BAR", "")]) bareText Foo (VString "old")).
  - discriminate.
  - reflexivity.
Defined.

(** [Nick], a string with an empty default, with [Nick] not set. *)
Lemma empty_default_became_a_default_witness :
  err (@tagged.turn (processWith []) bareText Nick (VString "old"))
  = Some (errorString "Missing required environment variable: Nick")
  /\ @unnested.parse (processWith []) Nick (VString "old")
     = {| val := VString ""; err := None; asked := ["Nick"] |}.
Proof.
  destruct (@empty_default_became_a_default (processWith []) bareText Nick
              (VString "old") eq_refl eq_refl eq_refl eq_refl) as [T U].
  split; [now rewrite T | exact U].
Defined.

(** [TestParseNestedAlias] under the prefix ["P_"], with [P_A_X] set: the
    call asks for [P_A_X] and [P_B_X]; without the prefix and from inside
    it, the call leaves the same record. *)
Lemma prefix_is_a_name_space_witness :
  exists r',
    ParseWithConfig (addressOfZero OuterAlias)
      {| Getenv := Some (within "P_" (getenv [("P_A_X", "a")]));
         Prefix := "" |}
    = Return r'
    /\ val r' = VPtr (Some (VStruct [VStruct [VString "a"];
                                     VStruct [VString ""]]))
    /\ ["P_A_X"; "P_B_X"] = map (append "P_") (asked r')
    /\ (Some (ErrorList [UnsetVariableError "P_B_X"]) = None
        <-> err r' = None).
Proof.
  exact (prefix_is_a_name_space (PtrTo NoUnmarshalText OuterAlias)
           (VPtr (Some (zero OuterAlias)))
           {| Getenv := Some (getenv [("P_A_X", "a")]); Prefix := "P_" |}
           {| val := VPtr (Some (VStruct [VStruct [VString "a"];
                                          VStruct [VString ""]]));
              err := Some (ErrorList [UnsetVariableError "P_B_X"]);
              asked := ["P_A_X"; "P_B_X"] |}
           eq_refl).
Defined.

(* ------------------------------------------------------------------ *)
(** ** The test suite of the repository, on the model *)

(** [TestParseNestedAlias]. *)
Example TestParseNestedAlias :
  ParseWithConfig (addressOfZero OuterAlias)
    {| Getenv := Some (getenv [("A_X", "1"); ("B_X", "2")]); Prefix := "" |}
  = Return {| val := VPtr (Some (VStruct [VStruct [VString "1"];
                                          VStruct [VString "2"]]));
              err := None;
              asked := ["A_X"; "B_X"] |}.
Proof. reflexivity. Qed.

(** [TestParseNestedAliasPointer], both references nil at the start. *)
Example TestParseNestedAliasPointer :
  ParseWithConfig (addressOfZero OuterAliasPointer)
    {| Getenv := Some (getenv [("A_X", "1"); ("B_X", "2")]); Prefix := "" |}
  = Return {| val := VPtr (Some (VStruct
                                   [VPtr (Some (VStruct [VString "1"]));
                                    VPtr (Some (VStruct [VString "2"]))]));
              err := None;
              asked := ["A_X"; "B_X"] |}.
Proof. reflexivity. Qed.

(** [TestParseDefaultOnStruct]: two usage errors, in the order of the
    fields; the nil reference [Aptr] is left pointing to a zero record. *)
Example TestParseDefaultOnStruct :
  ParseWithConfig (addressOfZero OuterDefault)
    {| Getenv := Some (getenv []); Prefix := "" |}
  = Return {| val := VPtr (Some (VStruct
                                   [VPtr (Some (VStruct [VString ""]));
                                    VStruct [VString ""]]));
              err := Some (ErrorList
                             [InvalidFieldError "Aptr"
                                "default tag is not supported for nested structs.";
                              InvalidFieldError "A"
                                "default tag is not supported for nested structs."]);
              asked := [] |}.
Proof. reflexivity. Qed.

(** [TestParseInnerError]: the key of the error carries the prefix. *)
Example TestParseInnerError :
  ParseWithConfig
    (addressOfZero (StructOf "envvar.Outer" NoUnmarshalText [Outer_Aptr]))
    {| Getenv := Some (getenv []); Prefix := "" |}
  = Return {| val := VPtr (Some (VStruct [VPtr (Some (VStruct [VString ""]))]));
              err := Some (ErrorList [UnsetVariableError "A_X"]);
              asked := ["A_X"] |}.
Proof. reflexivity. Qed.

(** [TestParseErrors]: a nil pointer to a struct, and a string. *)
Example TestParseErrors_nil :
  ParseWithConfig (Some (PtrTo NoUnmarshalText threeRequired, VPtr None))
    {| Getenv := None; Prefix := "" |}
  = Return {| val := VPtr None;
              err := Some (InvalidArgumentError
                             "Error in Parse: argument cannot be nil");
              asked := [] |}.
Proof. reflexivity. Qed.

Example TestParseErrors_notAStruct :
  ParseWithConfig (Some (string_t, VString "notAStruct"))
    {| Getenv := None; Prefix := "" |}
  = Return {| val := VString "notAStruct";
              err := Some (InvalidArgumentError
                             "Error in Parse: type must be a pointer to a struct. Got: string");
              asked := [] |}.
Proof. reflexivity. Qed.

(** [TestSetFieldValErrorInt] and [TestSetFieldValErrorUint]. *)
Example TestSetFieldValErrorInt :
  setFieldVal (mkValue int_t (VInt 3) true) "name" "abc"
  = (VInt 3, Some (InvalidVariableError "name" "abc"
                     (NumError "Atoi" "abc" ErrSyntax)))
  /\ setFieldVal (mkValue int_t (VInt 3) true) "name" "15" = (VInt 15, None).
Proof. split; reflexivity. Qed.

Example TestSetFieldValErrorUint :
  setFieldVal (mkValue (Basic Uint "uint" NoUnmarshalText) (VUint 3) true)
    "name" "-3"
  = (VUint 3, Some (InvalidVariableError "name" "-3"
                      (NumError "ParseUint" "-3" ErrSyntax)))
  /\ setFieldVal (mkValue (Basic Uint "uint" NoUnmarshalText) (VUint 3) true)
       "name" "15"
     = (VUint 15, None).
Proof. split; reflexivity. Qed.

(** [TestUnmarshalTextErrorPtr]. *)
Example TestUnmarshalTextErrorPtr :
  setFieldVal (mkValue alwaysErrorUnmarshalerPtr (VStruct []) true)
    "alwaysErrorPtr" ""
  = (VStruct [],
     Some (InvalidVariableError "alwaysErrorPtr" ""
             (errorString "this function always returns an error"))).
Proof. reflexivity. Qed.

(** The limits of [strconv] at 64 bits. *)
Example Atoi_limits :
  strconv.Atoi "272309480983" = (272309480983, None)
  /\ strconv.Atoi "-9223372036854775808" = (-9223372036854775808, None)
  /\ strconv.Atoi "9223372036854775808"
     = (9223372036854775807,
        Some (NumError "Atoi" "9223372036854775808" ErrRange))
  /\ strconv.Atoi "+" = (0, Some (NumError "Atoi" "+" ErrSyntax))
  /\ strconv.Atoi "" = (0, Some (NumError "Atoi" "" ErrSyntax)).
Proof. repeat split; vm_compute; reflexivity. Qed.

Example ParseUint_limits :
  strconv.ParseUint "18446744073709551615" 64 = (18446744073709551615, None)
  /\ strconv.ParseUint "18446744073709551616" 64
     = (18446744073709551615,
        Some (NumError "ParseUint" "18446744073709551616" ErrRange)).
Proof. split; vm_compute; reflexivity. Qed.
